(* ===== verification/_CoqProject ===== *)
-Q . S2P
Prelude.v
PyString.v
Calendar.v
DateFormat.v
Html.v
Utils.v
Http.v
Hoare.v
Notifier.v
Requester.v
Finder.v
Polling.v
DateSearcher.v
SlotSearcher.v
