(* ===== verification/Prelude.v ===== *)
(** * A verification library for idata_python

    The program polls the iDATA visa-appointment site, filters what the
    site answers and sends WhatsApp notifications through a messaging
    gateway.  Its sources are

    - [src/core/utils.py]               class [IDataUtilities]: HTML field
                                        extraction, date filter, date range;
    - [src/core/idata_requester.py]     class [IDataRequester]: the HTTP
                                        session, the two anti-forgery
                                        tokens, the four POST operations;
    - [src/core/appointment_finder.py]  class [IDataAppointmentFinder]: the
                                        office table and the two queries
                                        built from requester and utilities;
    - [src/core/notifier.py]            class [WhatsappNotifier]: the
                                        phone/API-key table and the send;
    - [src/available_date_searcher.py],
      [src/free_time_slot_searcher_altunizade.py],
      [src/free_time_slot_searcher_gayrettepe.py]  the three polling loops.

    ** Files of the development, in dependency order

    - [Prelude]   (this file) Python control flow as a value: the type
                  [outcome] with [Ok], [Raise e] (an exception that
                  [except Exception] catches) and [Exit] (the [SystemExit]
                  that the built-in [exit()] raises and that
                  [except Exception] does not catch); the exceptions the
                  program can meet as the inductive [exn]; bind notation in
                  [py_scope]; the tactics [outcome_inv] and [case_outcome];
                  the hint database [py]; [traverse] and [filter_m], the
                  models of list comprehensions whose element expression
                  or condition can raise.
    - [PyString]  the [str] built-ins the sources call: [strip()],
                  [split("-")], [int(s)], [str(int)], [repr] of a string
                  and [str] of a list of strings, fixed-width decimal
                  fields, on strings read as sequences of code points
                  below 256.
    - [Calendar]  [datetime.date] as the sources use it: construction with
                  its range checks, the proleptic Gregorian ordinal and its
                  inverse (the algorithm of CPython's datetime), ordering,
                  subtraction, addition of days.
    - [DateFormat] [strptime(s, "%d-%m-%Y")] as the regular expression
                  CPython compiles the format to, with its ordered
                  alternatives, and [strftime("%d-%m-%Y")].
    - [Html]      the BeautifulSoup tree ([Tag]/text nodes), [find_all]
                  by class, [find] by name and attribute,
                  [get_text(strip=True)]; the parser itself is the
                  interface [HtmlParser].
    - [Utils]     [IDataUtilities]: [parse_available_dates],
                  [remove_dates_before], [parse_available_hours],
                  [get_dates_between].
    - [Http]      the world the program talks to: requests, responses, the
                  session's cookie jar, the trace of requests sent, the
                  set of open sessions, the seconds slept; the interface
                  [Network] that answers requests; the monad [io] with
                  [x <~ m ;; k], [io_finally], [io_try_except], the loop
                  [io_for] over a list and [rounds], the first [n]
                  iterations of [while True].
    - [Hoare]     pre- and postconditions for [io]: [triple] with a rule
                  per construct and an invariant rule for both loops;
                  [preserves], [sends_only], [balanced]; equality of
                  computations with its [Proper] instances.
    - [Notifier]  [WhatsappNotifier]: [add_phone_api_key], [send_message].
    - [Requester] [IDataRequester]: [receive_tokens], [get_headers],
                  [post_request] and the four [post_*] operations, and
                  [with_requester], the [with] block that opens and closes
                  the session.
    - [Finder]    [IDataAppointmentFinder]: [add_office],
                  [find_available_dates], [check_for_specific_date].
    - [Polling]   what the three entry points share: the notifications
                  after a find, the handler of [except Exception], the
                  script observed for [n] rounds ([polling_program]) and
                  the same control flow as a machine ([step], [next]).
    - [DateSearcher] [src/available_date_searcher.py]: [check_office],
                  [sweep], [report], [main].
    - [SlotSearcher] [src/free_time_slot_searcher_altunizade.py] and
                  [src/free_time_slot_searcher_gayrettepe.py]: one program
                  over the record [slot_script] of the constants in which
                  the two files differ; [check_date], [slot_sweep],
                  [slot_report], [slot_main].

    ** How state and effects are modelled

    Every method that can raise returns an [outcome]; every method that
    talks to the network takes the world and returns the outcome with the
    new world.  The two dictionaries of the program ([_exit_ids],
    [_phones_api_keys]) are [gmap string _].  Integers are [Z]; the only
    place where a machine width matters is the constructor [date(y, m, d)],
    whose C implementation reads its arguments as C [int]s and raises
    [OverflowError] beyond 32 bits, which [Calendar.mk_date] keeps.

    What the program cannot decide is an interface, and every theorem
    holds for every instance of it: [HtmlParser] (the tree that
    BeautifulSoup builds from a text), [Network] (the answer to a request,
    given the requests sent before), [Clock] (the date [date.today()]
    returns) and [LibMessages] (the text of an exception raised by a
    library).

    ** What the theorems show

    - [Calendar]: the ordinal and its inverse are mutually inverse on the
      dates of years 1..9999, the ordinal is strictly monotone for the
      order [<] of dates, adding one day is the calendar successor.
    - [DateFormat]: the backtracking matcher accepts exactly the strings
      of a closed-form grammar; formatting then parsing a date gives it
      back; what [strptime] accepts beyond what [strftime] prints.
    - [PyString]: [int(str(z)) = z] for every integer of the model, [strip] is
      idempotent and leaves a stripped string, [split] and [join] are
      inverse, [repr] leaves a plain string unchanged between quotes.
    - [Utils]: [remove_dates_before] returns, in order, exactly the entries
      strictly earlier than the cutoff, and fails as a whole on the first
      entry (or cutoff) that does not parse; [get_dates_between] returns
      the consecutive days from the start to the end inclusive, is empty
      when the end precedes the start, and every string it returns parses
      back to the day it stands for; the two [parse_*] functions return the
      stripped texts of the matching elements in document order and never
      raise; on a document of buttons [parse_available_hours] selects on
      [noPrime] for "free", [yesPrime] for "prime", [yesVip] for "vip" and
      [getdatebtnhour] otherwise.
    - [Notifier]: [send_message] exits without sending for a phone that
      has no key, sends exactly one GET otherwise and returns whether the
      status is 200; a failure of the network is raised; the URL is not
      encoded.
    - [Requester]: [receive_tokens] characterised on each of its three
      outcomes (return, exit, raise); [post_request] passes any status on;
      [with_requester] closes the session once the constructor returned.
    - [Finder]: a query for an unregistered office raises before anything
      is sent; a query for a registered office sends the form GET and one
      POST that carries the token and the consent cookies, returns the
      filtered extraction of the answer, and leaves no session open; the
      complete list of the exceptions and exits of a date query.
    - [Polling]: the program observed for [n] rounds and the machine agree
      (refinement in both directions); the loop ends only by a round that
      raises or exits; an exception is reported with one message, an exit
      is not reported.
    - [DateSearcher], [SlotSearcher]: what one office or one day of a
      sweep sends, with the address of the notification spelled out for
      the date search; the invariants of the loop (the clock advances by 60 or
      30 seconds per round, no session stays open, every request is one
      the script is meant to send); a slot script checks every day from
      today to 17-11-2023 in order and idles after that day.

    Each file ends with witnesses: the theorems applied to a small site
    ([Requester.site], [Requester.site_parser], [Polling.site_and_gateway])
    and evaluated.

    ** Bounds and assumptions

    - Characters are code points below 256; whitespace is [str.isspace] on
      that range, [repr] escapes as CPython does on that range.  Text with
      code points above 255 is outside the model.
    - [int(s)] and [str(z)] are modelled without CPython's limit of 4300
      digits on the conversion between strings and integers.
    - [strftime("%Y")] is modelled as the four-digit zero-padded year;
      the C library of some platforms prints years below 1000 unpadded.
    - Cookies are a map from names to values: domains, paths and expiry
      are outside the model.  A request records the headers the program
      passes, not those the transport adds.
    - The loops of the entry points are unbounded.  [rounds n body] is the
      first [n] iterations; [n] is not a bound of the program but of the
      observation, and the theorems hold for every [n].  The machine
      [Polling.step] has no bound: [Polling.program_machine] says that an
      outcome of the machine is an outcome of the program for some [n] and
      conversely.
    - The only definition with fuel is [PyString.dec_digits], the digits
      of [str(int)]: the fuel [log2 n + 1] is enough because a number below
      [2 ^ k] has at most [k] decimal digits ([dec_digits_read]).  Every
      other recursion is structural.

    ** Not modelled

    - Logging (calls to [logger] have no effect on results), process
      start-up and the logging configuration of the entry points.
    - The call of [__del__] by the garbage collector: a session is closed
      in the model only by [__exit__].
    - The bodies of the remote servers, of the HTML parser and of the
      HTTP transport (redirects, connection pooling, TLS). *)

From stdpp Require Import base tactics option list strings.
From Stdlib Require Import ZArith Lia.

(** ** Exceptions

    One constructor per way the program can raise.  The payload is what
    the message of the exception is built from. *)

Inductive exn_class :=
| ValueError
| OverflowError
| KeyError
| RequestException.

Inductive exn :=
| InvalidOfficeName (office_name : string)   (* raise ValueError(f"Invalid office name: ...") *)
| TimeDataMismatch (data : string)           (* strptime: data does not match the format *)
| UnconvertedData (data : string)            (* strptime: text left after the match *)
| DateOutOfRange (y m d : Z)                 (* date(y, m, d): a field out of range *)
| CIntOverflow (v : Z)                       (* date(y, m, d): a field beyond a C int *)
| DateValueOverflow (ordinal : Z)            (* date + timedelta: result out of range *)
| TimedeltaOverflow (days : Z)               (* timedelta(days=n): |n| > 999999999 *)
| UnpackMismatch (n : nat)                   (* a, b, c = l with len(l) <> 3 *)
| InvalidIntLiteral (s : string)             (* int(s) on a string that is no integer *)
| MissingKey (key : string)                  (* d[key] on a dict without key *)
| NetworkFailure (detail : string).          (* requests raised: timeout, refused, ... *)

Definition class_of (e : exn) : exn_class :=
  match e with
  | InvalidOfficeName _ | TimeDataMismatch _ | UnconvertedData _
  | DateOutOfRange _ _ _ | UnpackMismatch _ | InvalidIntLiteral _ => ValueError
  | CIntOverflow _ | DateValueOverflow _ | TimedeltaOverflow _ => OverflowError
  | MissingKey _ => KeyError
  | NetworkFailure _ => RequestException
  end.

#[export] Instance exn_class_eq_dec : EqDecision exn_class.
Proof. solve_decision. Defined.

#[export] Instance exn_eq_dec : EqDecision exn.
Proof. solve_decision. Defined.

(** ** Outcomes

    [Ok a]: the call returned [a].  [Raise e]: it raised an exception of a
    class below [Exception].  [Exit]: it called [exit()], which raises
    [SystemExit], a [BaseException] that [except Exception] lets through. *)

Inductive outcome (A : Type) :=
| Ok (a : A)
| Raise (e : exn)
| Exit.

Arguments Ok {A} a.
Arguments Raise {A} e.
Arguments Exit {A}.

Definition bind {A B} (m : outcome A) (k : A -> outcome B) : outcome B :=
  match m with
  | Ok a => k a
  | Raise e => Raise e
  | Exit => Exit
  end.

Arguments bind {A B} !m k /.

Definition omap {A B} (f : A -> B) (m : outcome A) : outcome B :=
  bind m (fun a => Ok (f a)).

(** [try: m except Exception as e: h e]. *)
Definition try_except {A} (m : outcome A) (h : exn -> outcome A) : outcome A :=
  match m with
  | Raise e => h e
  | _ => m
  end.

Definition is_ok {A} (m : outcome A) : bool :=
  match m with Ok _ => true | _ => false end.

Definition of_option {A} (o : option A) (e : exn) : outcome A :=
  match o with Some a => Ok a | None => Raise e end.

Declare Scope py_scope.
Delimit Scope py_scope with py.

Notation "x <- m ;; k" := (bind m (fun x => k))
  (at level 100, m at next level, right associativity) : py_scope.

Local Open Scope py_scope.

(** [[f x for x in l]] where [f x] can raise: elements are evaluated left
    to right and the first exception abandons the comprehension. *)
Fixpoint traverse {A B} (f : A -> outcome B) (l : list A) : outcome (list B) :=
  match l with
  | [] => Ok []
  | x :: l' => y <- f x ;; ys <- traverse f l' ;; Ok (y :: ys)
  end.

(** [[x for x in l if p x]] where the condition [p x] can raise. *)
Fixpoint filter_m {A} (p : A -> outcome bool) (l : list A) : outcome (list A) :=
  match l with
  | [] => Ok []
  | x :: l' =>
      b <- p x ;; ys <- filter_m p l' ;; Ok (if b : bool then x :: ys else ys)
  end.

(** ** Automation *)

Create HintDb py discriminated.
Create HintDb str discriminated.

(** Invert an equation between outcomes in the context. *)
Ltac outcome_inv :=
  repeat match goal with
  | H : Ok _ = Ok _ |- _ => injection H as H; try subst
  | H : Raise _ = Raise _ |- _ => injection H as H; try subst
  | H : Ok _ = Raise _ |- _ => discriminate H
  | H : Ok _ = Exit |- _ => discriminate H
  | H : Raise _ = Ok _ |- _ => discriminate H
  | H : Raise _ = Exit |- _ => discriminate H
  | H : Exit = Ok _ |- _ => discriminate H
  | H : Exit = Raise _ |- _ => discriminate H
  end.

(** Case analysis on the outcome that a [bind] of the goal or of [H]
    scrutinises. *)
Ltac case_outcome :=
  match goal with
  | |- context [bind ?m _] =>
      let E := fresh "E" in destruct m eqn:E; cbn [bind]
  | H : context [bind ?m _] |- _ =>
      let E := fresh "E" in destruct m eqn:E; cbn [bind] in H
  end.

(** Linear arithmetic with floor division and remainder. *)
Ltac div_lia := Z.div_mod_to_equations; lia.

(** ** Laws of [bind] *)

Section outcome_laws.
Context {A B C : Type}.

Lemma bind_ok_l (a : A) (k : A -> outcome B) : bind (Ok a) k = k a.
Proof. reflexivity. Qed.

Lemma bind_ok_r (m : outcome A) : bind m Ok = m.
Proof. by destruct m. Qed.

Lemma bind_assoc (m : outcome A) (k : A -> outcome B) (h : B -> outcome C) :
  bind (bind m k) h = bind m (fun a => bind (k a) h).
Proof. by destruct m. Qed.

Lemma bind_eq_ok (m : outcome A) (k : A -> outcome B) (b : B) :
  bind m k = Ok b <-> exists a, m = Ok a /\ k a = Ok b.
Proof.
  destruct m; cbn; naive_solver.
Qed.

Lemma bind_eq_raise (m : outcome A) (k : A -> outcome B) (e : exn) :
  bind m k = Raise e <-> m = Raise e \/ exists a, m = Ok a /\ k a = Raise e.
Proof.
  destruct m; cbn; naive_solver.
Qed.

Lemma bind_eq_exit (m : outcome A) (k : A -> outcome B) :
  bind m k = Exit <-> m = Exit \/ exists a, m = Ok a /\ k a = Exit.
Proof.
  destruct m; cbn; naive_solver.
Qed.

Lemma try_except_ok (a : A) h : try_except (Ok a) h = Ok a.
Proof. reflexivity. Qed.

Lemma try_except_exit (h : exn -> outcome A) : try_except Exit h = Exit.
Proof. reflexivity. Qed.

Lemma is_ok_true (m : outcome A) : is_ok m = true <-> exists a, m = Ok a.
Proof. destruct m; cbn; naive_solver. Qed.

End outcome_laws.

#[export] Hint Rewrite @bind_ok_l @bind_ok_r @bind_assoc : py.
#[export] Hint Rewrite @try_except_ok @try_except_exit : py.

(** ** Comprehensions that can raise *)

Section traverse.
Context {A B : Type} (f : A -> outcome B).

Lemma traverse_ok_iff (l : list A) (k : list B) :
  traverse f l = Ok k <-> Forall2 (fun x y => f x = Ok y) l k.
Proof.
  revert k; induction l as [|x l IH]; intros k; cbn.
  - split; [intros [= <-]; constructor | by inversion 1].
  - rewrite bind_eq_ok. split.
    + intros (y & Hy & (ys & Hys & [= <-])%bind_eq_ok).
      constructor; [done | by apply IH].
    + inversion 1 as [|? y ? ys Hy Hys]; subst.
      exists y; split; [done|]. apply IH in Hys. by rewrite Hys.
Qed.

Lemma traverse_length (l : list A) (k : list B) :
  traverse f l = Ok k -> length k = length l.
Proof. intros H%traverse_ok_iff. symmetry. by eapply Forall2_length. Qed.

Lemma traverse_total (l : list A) :
  Forall (fun x => is_ok (f x) = true) l -> exists k, traverse f l = Ok k.
Proof.
  induction 1 as [|x l [y Hy]%is_ok_true _ [k Hk]]; cbn; [by eexists|].
  rewrite Hy, Hk; cbn. by eexists.
Qed.

(** When the element expression never raises, the comprehension is a
    [map]. *)
Lemma traverse_pure (g : A -> B) (l : list A) :
  Forall (fun x => f x = Ok (g x)) l -> traverse f l = Ok (g <$> l).
Proof.
  induction 1 as [|x l Hx _ IH]; cbn; [done|]. by rewrite Hx, IH.
Qed.

Lemma traverse_app (l1 l2 : list A) :
  traverse f (l1 ++ l2) =
  (k1 <- traverse f l1 ;; k2 <- traverse f l2 ;; Ok (k1 ++ k2)).
Proof.
  induction l1 as [|x l1 IH]; cbn.
  - by rewrite bind_ok_r.
  - destruct (f x); cbn; [|done..]. rewrite IH.
    destruct (traverse f l1); cbn; [|done..].
    by destruct (traverse f l2).
Qed.

End traverse.

Section filter_m.
Context {A : Type} (p : A -> outcome bool).

(** When the condition never raises, the comprehension is a [filter]. *)
Lemma filter_m_pure (q : A -> bool) (l : list A) :
  Forall (fun x => p x = Ok (q x)) l ->
  filter_m p l = Ok (List.filter q l).
Proof.
  induction 1 as [|x l Hx _ IH]; cbn; [done|].
  rewrite Hx, IH; cbn. by destruct (q x).
Qed.

(** If the comprehension returns, the condition was defined on every
    element and the result is the matching [filter]. *)
Lemma filter_m_ok_inv (l k : list A) :
  filter_m p l = Ok k ->
  exists q : A -> bool,
    Forall (fun x => p x = Ok (q x)) l /\ k = List.filter q l.
Proof.
  intros H.
  exists (fun x => match p x with Ok b => b | _ => false end).
  revert k H; induction l as [|x l IH]; intros k; cbn.
  - intros [= <-]. by split.
  - destruct (p x) as [b| |] eqn:Hx; cbn; try done.
    destruct (filter_m p l) as [ys| |] eqn:Hl; cbn; try done.
    intros [= <-]. destruct (IH ys eq_refl) as [HF ->].
    split; [constructor; [by rewrite Hx | done] | by destruct b].
Qed.

(** The first element on which the condition raises decides the result. *)
Lemma filter_m_raise (l1 l2 : list A) (x : A) (e : exn) :
  Forall (fun y => is_ok (p y) = true) l1 ->
  p x = Raise e ->
  filter_m p (l1 ++ x :: l2) = Raise e.
Proof.
  intros H Hx. induction H as [|y l1 [b Hy]%is_ok_true _ IH]; cbn.
  - by rewrite Hx.
  - by rewrite Hy, IH.
Qed.

Lemma filter_m_not_exit (l : list A) :
  Forall (fun x => p x <> Exit) l -> filter_m p l <> Exit.
Proof.
  induction 1 as [|x l Hx _ IH]; cbn; [done|].
  destruct (p x); [|done..]. cbn. by destruct (filter_m p l).
Qed.

Lemma filter_m_raise_inv (l : list A) (e : exn) :
  filter_m p l = Raise e -> exists x, x ∈ l /\ p x = Raise e.
Proof.
  induction l as [|x l IH]; cbn; [done|].
  destruct (p x) as [b| |] eqn:Hx; cbn.
  - destruct (filter_m p l); cbn; [done| |done].
    intros [= ->]. destruct IH as (y & ? & ?); [done|].
    exists y. by rewrite elem_of_cons; eauto.
  - intros [= ->]. exists x. by rewrite elem_of_cons; eauto.
  - done.
Qed.

End filter_m.

(** ** Lists *)

Lemma filter_sublist {A} (q : A -> bool) (l : list A) :
  sublist (List.filter q l) l.
Proof.
  induction l as [|x l IH]; cbn; [constructor|].
  destruct (q x); by constructor.
Qed.

Lemma filter_Forall {A} (q : A -> bool) (l : list A) :
  Forall (fun x => q x = true) (List.filter q l).
Proof.
  induction l as [|x l IH]; cbn; [constructor|].
  destruct (q x) eqn:E; [by constructor | done].
Qed.

#[export] Hint Resolve filter_sublist filter_Forall : py.
