(* ===== verification/PyString.v ===== *)
(** * PyString: the [str] built-ins the sources call

    Strings are sequences of characters with code points below 256.
    - [is_space]   [str.isspace] on one character;
    - [strip]      [s.strip()], as [get_text(strip=True)] applies it;
    - [split_on]   [s.split("-")] with a one-character separator;
    - [py_int]     [int(s)] in base 10: surrounding whitespace, one sign,
                   digits with single underscores between them;
    - [pad2], [pad4]  the fields [%d], [%m] and [%Y] of [strftime];
    - [join]       [sep.join(l)];
    - [str_of_int] [str(z)] of an integer, with the digits produced by
                   [dec_digits];
    - [repr_str], [repr_list]  [repr(s)] of a string and [str(l)] of a
                   list of strings, as an f-string prints them. *)

From stdpp Require Import base tactics list strings numbers.
From Stdlib Require Import ZArith Lia Ascii.
From S2P Require Import Prelude.

Local Open Scope Z_scope.
Local Open Scope py_scope.

(** ** Characters *)

Definition code (c : ascii) : Z := Z.of_N (N_of_ascii c).

Definition chr (n : Z) : ascii := ascii_of_N (Z.to_N n).

(** [c.isspace()] for a code point below 256: TAB..CR, FS..US, space,
    NEL (133) and the no-break space (160). *)
Definition is_space (c : ascii) : bool :=
  let n := code c in
  ((9 <=? n) && (n <=? 13)) || ((28 <=? n) && (n <=? 32)) ||
  (n =? 133) || (n =? 160).

Definition is_digit (c : ascii) : bool :=
  let n := code c in (48 <=? n) && (n <=? 57).

Definition digit_val (c : ascii) : Z := code c - 48.

Definition digit_char (d : Z) : ascii := chr (48 + d).

#[global] Arguments code : simpl never.
#[global] Arguments chr : simpl never.
#[global] Arguments is_space : simpl never.
#[global] Arguments is_digit : simpl never.
#[global] Arguments digit_val : simpl never.
#[global] Arguments digit_char : simpl never.

(** ** [strip] *)

Fixpoint lstrip (s : string) : string :=
  match s with
  | EmptyString => EmptyString
  | String c s' => if is_space c then lstrip s' else s
  end.

Fixpoint rstrip (s : string) : string :=
  match s with
  | EmptyString => EmptyString
  | String c s' =>
      match rstrip s' with
      | EmptyString => if is_space c then EmptyString else String c EmptyString
      | r => String c r
      end
  end.

Definition strip (s : string) : string := rstrip (lstrip s).

Fixpoint all_space (s : string) : bool :=
  match s with
  | EmptyString => true
  | String c s' => is_space c && all_space s'
  end.

Definition first_char (s : string) : option ascii :=
  match s with EmptyString => None | String c _ => Some c end.

Fixpoint last_char (s : string) : option ascii :=
  match s with
  | EmptyString => None
  | String c EmptyString => Some c
  | String _ s' => last_char s'
  end.

(** A string that [strip] leaves alone: empty, or with a first and a last
    character that are not whitespace. *)
Definition stripped (s : string) : Prop :=
  match first_char s, last_char s with
  | Some a, Some b => is_space a = false /\ is_space b = false
  | _, _ => s = EmptyString
  end.

(** ** [split] and [join] *)

Fixpoint split_on (sep : ascii) (s : string) : list string :=
  match s with
  | EmptyString => [EmptyString]
  | String c s' =>
      if Ascii.eqb c sep then EmptyString :: split_on sep s'
      else match split_on sep s' with
           | w :: ws => String c w :: ws
           | [] => [String c EmptyString]
           end
  end.

Fixpoint join (sep : string) (l : list string) : string :=
  match l with
  | [] => EmptyString
  | [w] => w
  | w :: ws => w ++ sep ++ join sep ws
  end.

Fixpoint count_char (c : ascii) (s : string) : nat :=
  match s with
  | EmptyString => 0%nat
  | String a s' => ((if Ascii.eqb a c then 1 else 0) + count_char c s')%nat
  end.

(** ** [int(s)] *)

(** The digits after the first one: [acc] is the value read so far,
    [us] says that the previous character was an underscore. *)
Fixpoint int_digits (us : bool) (acc : Z) (s : string) : option Z :=
  match s with
  | EmptyString => if us then None else Some acc
  | String c s' =>
      if Ascii.eqb c "_" then
        if us then None else int_digits true acc s'
      else if is_digit c then int_digits false (10 * acc + digit_val c) s'
      else None
  end.

(** An unsigned literal: a digit first. *)
Definition int_unsigned (s : string) : option Z :=
  match s with
  | String c s' => if is_digit c then int_digits false (digit_val c) s' else None
  | EmptyString => None
  end.

Definition int_literal (s : string) : option Z :=
  match s with
  | String "+" s' => int_unsigned s'
  | String "-" s' => Z.opp <$> int_unsigned s'
  | _ => int_unsigned s
  end.

Definition py_int (s : string) : outcome Z :=
  of_option (int_literal (strip s)) (InvalidIntLiteral s).

(** ** Fixed-width decimal fields *)

Definition pad2 (n : Z) : string :=
  String (digit_char (n / 10 mod 10)) (String (digit_char (n mod 10)) EmptyString).

Definition pad4 (n : Z) : string :=
  String (digit_char (n / 1000 mod 10)) (String (digit_char (n / 100 mod 10)) (pad2 n)).

(** ** [str(int)] *)

(** The decimal digits of [n >= 0], most significant first, before [acc].
    [fuel] bounds the number of digits. *)
Fixpoint dec_digits (fuel : nat) (n : Z) (acc : string) : string :=
  match fuel with
  | O => acc
  | S fuel' =>
      let acc' := String (digit_char (n mod 10)) acc in
      if n <? 10 then acc' else dec_digits fuel' (n / 10) acc'
  end.

(** A number below [2 ^ (log2 n + 1)] has at most [log2 n + 1] decimal
    digits. *)
Definition str_of_nonneg (n : Z) : string :=
  dec_digits (S (Z.to_nat (Z.log2 n))) n EmptyString.

Definition str_of_int (z : Z) : string :=
  if z <? 0 then String "-" (str_of_nonneg (- z)) else str_of_nonneg z.

(** ** [repr(str)] and [str(list)]

    What an f-string prints for a list of strings: the [repr] of each
    element between brackets, separated by a comma and a space. *)

Definition backslash : ascii := chr 92.
Definition single_quote : ascii := chr 39.
Definition double_quote : ascii := chr 34.

Fixpoint contains_char (c : ascii) (s : string) : bool :=
  match s with
  | EmptyString => false
  | String a s' => Ascii.eqb a c || contains_char c s'
  end.

Definition hex_digit (n : Z) : ascii :=
  if n <? 10 then chr (48 + n) else chr (87 + n).

(** [\xhh] *)
Definition hex_escape (c : ascii) : string :=
  String backslash (String "x" (String (hex_digit (code c / 16))
    (String (hex_digit (code c mod 16)) EmptyString))).

(** [str.isprintable] on one code point below 256. *)
Definition is_printable (c : ascii) : bool :=
  (32 <=? code c) && (code c <? 127) || (161 <=? code c) && negb (code c =? 173).

Definition repr_char (quote c : ascii) : string :=
  if Ascii.eqb c quote || Ascii.eqb c backslash
  then String backslash (String c EmptyString)
  else if code c =? 9 then String backslash "t"
  else if code c =? 10 then String backslash "n"
  else if code c =? 13 then String backslash "r"
  else if is_printable c then String c EmptyString
  else hex_escape c.

Fixpoint repr_chars (quote : ascii) (s : string) : string :=
  match s with
  | EmptyString => EmptyString
  | String c s' => repr_char quote c +:+ repr_chars quote s'
  end.

(** Single quotes, unless the string holds a single quote and no double
    quote. *)
Definition repr_quote (s : string) : ascii :=
  if contains_char single_quote s && negb (contains_char double_quote s)
  then double_quote else single_quote.

Definition repr_str (s : string) : string :=
  String (repr_quote s) (repr_chars (repr_quote s) s +:+ String (repr_quote s) EmptyString).

Definition repr_list (l : list string) : string :=
  "[" +:+ join ", " (repr_str <$> l) +:+ "]".

(** A string that [repr] prints as it is: printable characters, no quote
    and no backslash. *)
Fixpoint plain (s : string) : bool :=
  match s with
  | EmptyString => true
  | String c s' =>
      is_printable c && negb (Ascii.eqb c single_quote) &&
      negb (Ascii.eqb c double_quote) && negb (Ascii.eqb c backslash) && plain s'
  end.

(** ** Concatenation *)

Lemma append_cons c s t : String c s +:+ t = String c (s +:+ t).
Proof. reflexivity. Qed.

Lemma append_nil t : EmptyString +:+ t = t.
Proof. reflexivity. Qed.

Lemma append_nil_r s : s +:+ EmptyString = s.
Proof. induction s as [|c s IH]; [done|]. by rewrite append_cons, IH. Qed.

Lemma append_assoc s t u : (s +:+ t) +:+ u = s +:+ (t +:+ u).
Proof. induction s as [|c s IH]; [done|]. by rewrite !append_cons, IH. Qed.

Lemma length_append s t :
  String.length (s +:+ t) = (String.length s + String.length t)%nat.
Proof. induction s as [|c s IH]; [done|]. rewrite append_cons. cbn. by rewrite IH. Qed.

#[export] Hint Rewrite append_cons append_nil append_nil_r : str.

(** Push concatenations inside the constructors. *)
Ltac str_simpl := rewrite ?append_assoc, ?append_cons, ?append_nil, ?append_nil_r.

(** ** Lemmas on characters *)

Lemma code_range c : 0 <= code c < 256.
Proof.
  unfold code. pose proof (N_ascii_bounded c). lia.
Qed.

Lemma code_chr n : 0 <= n < 256 -> code (chr n) = n.
Proof.
  intros H. unfold code, chr. rewrite N_ascii_embedding by lia. lia.
Qed.

Lemma chr_code c : chr (code c) = c.
Proof. unfold code, chr. by rewrite N2Z.id, ascii_N_embedding. Qed.

Lemma code_inj c1 c2 : code c1 = code c2 -> c1 = c2.
Proof. intros H. by rewrite <-(chr_code c1), <-(chr_code c2), H. Qed.

Lemma eqb_code c1 c2 : Ascii.eqb c1 c2 = (code c1 =? code c2).
Proof.
  destruct (Ascii.eqb_spec c1 c2) as [->|Hne].
  - by rewrite Z.eqb_refl.
  - symmetry. apply Z.eqb_neq. intros ?. by apply Hne, code_inj.
Qed.

Lemma is_digit_code c : is_digit c = true <-> 48 <= code c <= 57.
Proof. unfold is_digit. cbv zeta. lia. Qed.

Lemma is_digit_digit_char d : 0 <= d < 10 -> is_digit (digit_char d) = true.
Proof.
  intros H. apply is_digit_code. unfold digit_char. rewrite code_chr; lia.
Qed.

Lemma digit_val_digit_char d : 0 <= d < 10 -> digit_val (digit_char d) = d.
Proof. intros H. unfold digit_val, digit_char. rewrite code_chr; lia. Qed.

Lemma digit_val_range c : is_digit c = true -> 0 <= digit_val c < 10.
Proof. intros H%is_digit_code. unfold digit_val. lia. Qed.

Lemma digit_char_digit_val c : is_digit c = true -> digit_char (digit_val c) = c.
Proof.
  intros H%is_digit_code. unfold digit_char, digit_val.
  replace (48 + (code c - 48)) with (code c) by lia. apply chr_code.
Qed.

Lemma is_digit_not_space c : is_digit c = true -> is_space c = false.
Proof. intros H%is_digit_code. unfold is_space. cbv zeta. lia. Qed.

Lemma digit_char_not_space d : 0 <= d < 10 -> is_space (digit_char d) = false.
Proof. intros. by apply is_digit_not_space, is_digit_digit_char. Qed.

Lemma digit_char_neq_us d : 0 <= d < 10 -> Ascii.eqb (digit_char d) "_" = false.
Proof.
  intros H. rewrite eqb_code. unfold digit_char. rewrite code_chr by lia.
  change (code "_") with 95. lia.
Qed.

Lemma digit_char_neq_dash d : 0 <= d < 10 -> Ascii.eqb (digit_char d) "-" = false.
Proof.
  intros H. rewrite eqb_code. unfold digit_char. rewrite code_chr by lia.
  change (code "-") with 45. lia.
Qed.

#[export] Hint Resolve is_digit_digit_char digit_char_not_space : py.
#[export] Hint Rewrite digit_val_digit_char digit_char_neq_us digit_char_neq_dash
  using lia : py.

(** ** Lemmas on [strip] *)

Lemma lstrip_all_space s : all_space s = true -> lstrip s = EmptyString.
Proof.
  induction s as [|c s IH]; cbn; [done|].
  intros [Hc Hs]%andb_prop. rewrite Hc. auto.
Qed.

Lemma rstrip_empty_iff s : rstrip s = EmptyString <-> all_space s = true.
Proof.
  induction s as [|c s IH]; cbn; [done|].
  destruct (rstrip s) eqn:E, (is_space c); cbn; split; try done.
  - intros _. by apply IH.
  - intros H%IH. done.
Qed.

Lemma lstrip_first s c :
  first_char (lstrip s) = Some c -> is_space c = false.
Proof.
  induction s as [|a s IH]; cbn; [done|].
  destruct (is_space a) eqn:E; [done|]. cbn. by intros [= <-].
Qed.

Lemma rstrip_last s c :
  last_char (rstrip s) = Some c -> is_space c = false.
Proof.
  induction s as [|a s IH]; cbn; [done|].
  destruct (rstrip s) as [|b r] eqn:E.
  - destruct (is_space a) eqn:Ha; cbn; [done|]. by intros [= <-].
  - done.
Qed.

Lemma rstrip_first s c :
  first_char s = Some c -> is_space c = false ->
  first_char (rstrip s) = Some c.
Proof.
  destruct s as [|a s]; cbn; [done|]. intros [= ->] Hc.
  destruct (rstrip s); by rewrite ?Hc.
Qed.

Lemma rstrip_stripped_id s :
  match last_char s with Some b => is_space b = false | None => True end ->
  rstrip s = s.
Proof.
  induction s as [|a s IH]; cbn; [done|].
  destruct s as [|b s].
  - cbn. by intros ->.
  - intros H. rewrite IH by done. done.
Qed.

Lemma lstrip_stripped_id s :
  match first_char s with Some a => is_space a = false | None => True end ->
  lstrip s = s.
Proof. destruct s as [|a s]; cbn; [done|]. by intros ->. Qed.

Lemma first_last_char s :
  first_char s = None <-> last_char s = None.
Proof.
  split; [by destruct s|].
  induction s as [|a s IH]; cbn; [done|]. destruct s; [done|]. intros H.
  by specialize (IH H).
Qed.

Lemma strip_stripped s : stripped (strip s).
Proof.
  unfold stripped, strip.
  destruct (first_char (rstrip (lstrip s))) as [a|] eqn:Ha.
  - destruct (last_char (rstrip (lstrip s))) as [b|] eqn:Hb.
    + split; [|by eapply rstrip_last].
      destruct (first_char (lstrip s)) as [a'|] eqn:Ha'.
      * pose proof (lstrip_first _ _ Ha') as Hsp.
        rewrite (rstrip_first _ _ Ha' Hsp) in Ha. by simplify_eq.
      * destruct (lstrip s); [done|discriminate].
    + apply first_last_char in Hb. congruence.
  - by destruct (rstrip (lstrip s)).
Qed.

Lemma stripped_strip s : stripped s -> strip s = s.
Proof.
  unfold stripped, strip. intros H.
  destruct (first_char s) as [a|] eqn:Ha.
  - destruct (last_char s) as [b|] eqn:Hb.
    + destruct H as [H1 H2].
      rewrite lstrip_stripped_id by (by rewrite Ha).
      apply rstrip_stripped_id. by rewrite Hb.
    + by subst.
  - by subst.
Qed.

Lemma strip_idemp s : strip (strip s) = strip s.
Proof. apply stripped_strip, strip_stripped. Qed.

Lemma lstrip_decompose s :
  exists l, s = (l ++ lstrip s)%string /\ all_space l = true.
Proof.
  induction s as [|c s (l & Hl & Hsp)]; cbn.
  - by exists EmptyString.
  - destruct (is_space c) eqn:Hc.
    + exists (String c l). split; [exact (f_equal (String c) Hl)|].
      cbn. by rewrite Hc, Hsp.
    + by exists EmptyString.
Qed.

Lemma rstrip_decompose s :
  exists r, s = (rstrip s ++ r)%string /\ all_space r = true.
Proof.
  induction s as [|c s (r & Hr & Hsp)]; cbn.
  - by exists EmptyString.
  - destruct (rstrip s) as [|b t] eqn:E.
    + destruct (is_space c) eqn:Hc.
      * exists (String c r). split; [exact (f_equal (String c) Hr)|].
        cbn. by rewrite Hc, Hsp.
      * exists r. split; [exact (f_equal (String c) Hr)|done].
    + exists r. split; [exact (f_equal (String c) Hr)|done].
Qed.

(** [strip] removes a run of whitespace at each end and nothing else. *)
Lemma strip_decompose s :
  exists l r, s = (l ++ strip s ++ r)%string /\
              all_space l = true /\ all_space r = true.
Proof.
  destruct (lstrip_decompose s) as (l & Hl & Hsl).
  destruct (rstrip_decompose (lstrip s)) as (r & Hr & Hsr).
  exists l, r. unfold strip. by rewrite <-Hr, <-Hl.
Qed.

Lemma strip_all_space s : all_space s = true -> strip s = EmptyString.
Proof. intros H. unfold strip. by rewrite lstrip_all_space. Qed.

#[export] Hint Rewrite strip_idemp : py.
#[export] Hint Resolve strip_stripped : py.

(** ** Lemmas on [split_on] and [join] *)

Section split.
Context (sep : ascii).

Lemma split_on_nonempty s : split_on sep s <> [].
Proof.
  destruct s as [|c s]; cbn; [done|].
  destruct (Ascii.eqb c sep); [done|]. by destruct (split_on sep s).
Qed.

Lemma split_on_length s :
  length (split_on sep s) = S (count_char sep s).
Proof.
  induction s as [|c s IH]; cbn; [done|].
  destruct (Ascii.eqb c sep); cbn; [by rewrite IH|].
  pose proof (split_on_nonempty s). by destruct (split_on sep s).
Qed.

(** No part contains the separator. *)
Lemma split_on_parts s :
  Forall (fun w => count_char sep w = 0%nat) (split_on sep s).
Proof.
  induction s as [|c s IH]; cbn; [by repeat constructor|].
  destruct (Ascii.eqb c sep) eqn:E; [by constructor|].
  destruct (split_on sep s); inversion_clear IH; constructor; cbn; rewrite ?E; done.
Qed.

Lemma join_cons w w' ws :
  join (String sep EmptyString) (w :: w' :: ws) =
  (w ++ String sep (join (String sep EmptyString) (w' :: ws)))%string.
Proof. reflexivity. Qed.

(** Joining the parts with the separator gives the string back. *)
Lemma join_split_on s : join (String sep EmptyString) (split_on sep s) = s.
Proof.
  induction s as [|c s IH]; [done|]. cbn [split_on].
  pose proof (split_on_nonempty s) as Hne.
  destruct (Ascii.eqb_spec c sep) as [->|_].
  - destruct (split_on sep s) as [|w ws]; [done|].
    rewrite join_cons. exact (f_equal (String sep) IH).
  - destruct (split_on sep s) as [|w [|w' ws]]; [done|..].
    + exact (f_equal (String c) IH).
    + rewrite join_cons in *. exact (f_equal (String c) IH).
Qed.

Lemma split_on_no_sep s : count_char sep s = 0%nat -> split_on sep s = [s].
Proof.
  induction s as [|c s IH]; cbn; [done|].
  destruct (Ascii.eqb c sep); [done|]. intros H. by rewrite IH.
Qed.

Lemma split_on_app s t :
  count_char sep s = 0%nat ->
  split_on sep (s ++ String sep t) = s :: split_on sep t.
Proof.
  induction s as [|c s IH].
  - intros _. change (split_on sep (String sep t) = EmptyString :: split_on sep t).
    cbn. by rewrite Ascii.eqb_refl.
  - cbn [count_char]. destruct (Ascii.eqb c sep) eqn:E; [done|]. intros H.
    change (split_on sep (String c (s ++ String sep t)) = String c s :: split_on sep t).
    cbn. by rewrite E, IH.
Qed.

End split.

Lemma count_char_append c s t :
  count_char c (s +:+ t) = (count_char c s + count_char c t)%nat.
Proof. induction s as [|a s IH]; [done|]. rewrite append_cons. cbn. lia. Qed.

(** A string without blanks that equals the blank-joined items of a list
    is the only item of the list: the second way in which bs4 matches a
    class, against the whole attribute, finds nothing new for a class
    name. *)
Lemma join_blank_elem c l :
  count_char " " c = 0%nat -> c <> EmptyString -> join " " l = c -> c ∈ l.
Proof.
  intros Hc Hne <-. destruct l as [|w [|w' ws]]; [done|by constructor|].
  rewrite (join_cons " "), count_char_append in Hc. cbn in Hc. lia.
Qed.

(** ** Lemmas on [int] *)

Lemma int_digits_pad_digit us acc d s :
  0 <= d < 10 ->
  int_digits us acc (String (digit_char d) s) = int_digits false (10 * acc + d) s.
Proof.
  intros H. cbn. by rewrite digit_char_neq_us, is_digit_digit_char, digit_val_digit_char.
Qed.

Lemma int_unsigned_pad_digit d s :
  0 <= d < 10 ->
  int_unsigned (String (digit_char d) s) = int_digits false d s.
Proof.
  intros H. cbn. by rewrite is_digit_digit_char, digit_val_digit_char.
Qed.

Lemma int_literal_digit c s :
  is_digit c = true -> int_literal (String c s) = int_unsigned (String c s).
Proof.
  intros H%is_digit_code. unfold int_literal.
  destruct (Ascii.eqb_spec c "+") as [->|?]; [change (code "+") with 43 in H; lia|].
  destruct (Ascii.eqb_spec c "-") as [->|?]; [change (code "-") with 45 in H; lia|].
  by repeat case_match.
Qed.

Lemma int_digits_nonneg us acc s n :
  0 <= acc -> int_digits us acc s = Some n -> 0 <= n.
Proof.
  revert us acc; induction s as [|c s IH]; intros us acc Hacc; cbn.
  - destruct us; [done|]. by intros [= <-].
  - destruct (Ascii.eqb c "_"); [destruct us; [done|]; by apply IH|].
    destruct (is_digit c) eqn:Hc; [|done].
    apply IH. pose proof (digit_val_range _ Hc). lia.
Qed.

Lemma int_unsigned_nonneg s n : int_unsigned s = Some n -> 0 <= n.
Proof.
  destruct s as [|c s]; cbn; [done|].
  destruct (is_digit c) eqn:Hc; [|done].
  apply int_digits_nonneg. pose proof (digit_val_range _ Hc). lia.
Qed.

(** [int(s)] does not depend on whitespace around [s]. *)
Lemma py_int_strip s n : py_int s = Ok n <-> py_int (strip s) = Ok n.
Proof.
  unfold py_int. rewrite strip_idemp.
  by destruct (int_literal (strip s)).
Qed.

Lemma py_int_raise s e : py_int s = Raise e -> e = InvalidIntLiteral s.
Proof.
  unfold py_int. destruct (int_literal (strip s)); cbn; [done|]. by intros [= <-].
Qed.

Lemma py_int_not_exit s : py_int s <> Exit.
Proof. unfold py_int. by destruct (int_literal (strip s)). Qed.

(** ** Lemmas on the fixed-width fields *)

Lemma pad2_stripped n : stripped (pad2 n).
Proof.
  unfold stripped, pad2; cbn.
  split; apply digit_char_not_space; apply Z.mod_pos_bound; lia.
Qed.

Lemma pad4_stripped n : stripped (pad4 n).
Proof.
  unfold stripped, pad4, pad2; cbn.
  split; apply digit_char_not_space; apply Z.mod_pos_bound; lia.
Qed.

Lemma int_unsigned_pad2 n : 0 <= n < 100 -> int_unsigned (pad2 n) = Some n.
Proof.
  intros H. unfold pad2.
  rewrite int_unsigned_pad_digit, int_digits_pad_digit
    by (apply Z.mod_pos_bound; lia).
  cbn. f_equal. div_lia.
Qed.

Lemma int_unsigned_pad4 n : 0 <= n < 10000 -> int_unsigned (pad4 n) = Some n.
Proof.
  intros H. unfold pad4, pad2.
  rewrite int_unsigned_pad_digit, !int_digits_pad_digit
    by (apply Z.mod_pos_bound; lia).
  cbn. f_equal. div_lia.
Qed.

Lemma pad2_first_digit n : exists c s, pad2 n = String c s /\ is_digit c = true.
Proof.
  eexists _, _. split; [reflexivity|].
  apply is_digit_digit_char, Z.mod_pos_bound; lia.
Qed.

Lemma pad4_first_digit n : exists c s, pad4 n = String c s /\ is_digit c = true.
Proof.
  eexists _, _. split; [reflexivity|].
  apply is_digit_digit_char, Z.mod_pos_bound; lia.
Qed.

(** Reading a printed field gives the number back. *)
Lemma py_int_pad2 n : 0 <= n < 100 -> py_int (pad2 n) = Ok n.
Proof.
  intros H. unfold py_int. rewrite stripped_strip by apply pad2_stripped.
  destruct (pad2_first_digit n) as (c & s & Hs & Hc).
  rewrite Hs, int_literal_digit, <-Hs, int_unsigned_pad2 by done. done.
Qed.

Lemma py_int_pad4 n : 0 <= n < 10000 -> py_int (pad4 n) = Ok n.
Proof.
  intros H. unfold py_int. rewrite stripped_strip by apply pad4_stripped.
  destruct (pad4_first_digit n) as (c & s & Hs & Hc).
  rewrite Hs, int_literal_digit, <-Hs, int_unsigned_pad4 by done. done.
Qed.

Lemma pad2_no_dash n : count_char "-" (pad2 n) = 0%nat.
Proof.
  unfold pad2; cbn. by rewrite !digit_char_neq_dash by (apply Z.mod_pos_bound; lia).
Qed.

Lemma pad4_no_dash n : count_char "-" (pad4 n) = 0%nat.
Proof.
  unfold pad4, pad2; cbn.
  by rewrite !digit_char_neq_dash by (apply Z.mod_pos_bound; lia).
Qed.

Lemma pad2_inj n m : 0 <= n < 100 -> 0 <= m < 100 -> pad2 n = pad2 m -> n = m.
Proof.
  intros Hn Hm H. apply (f_equal int_unsigned) in H.
  rewrite !int_unsigned_pad2 in H by done. by simplify_eq.
Qed.

Lemma pad4_inj n m : 0 <= n < 10000 -> 0 <= m < 10000 -> pad4 n = pad4 m -> n = m.
Proof.
  intros Hn Hm H. apply (f_equal int_unsigned) in H.
  rewrite !int_unsigned_pad4 in H by done. by simplify_eq.
Qed.

#[export] Hint Rewrite py_int_pad2 py_int_pad4 using lia : py.
#[export] Hint Rewrite pad2_no_dash pad4_no_dash : py.

(** One digit, and one digit after a space, as [strptime] also accepts
    them. *)
Lemma py_int_digit d : 0 <= d < 10 -> py_int (String (digit_char d) EmptyString) = Ok d.
Proof.
  intros Hd. unfold py_int.
  rewrite stripped_strip
    by (unfold stripped; cbn; by rewrite digit_char_not_space).
  rewrite int_literal_digit, int_unsigned_pad_digit by auto with py. done.
Qed.

Lemma py_int_space_digit d :
  0 <= d < 10 -> py_int (String " " (String (digit_char d) EmptyString)) = Ok d.
Proof.
  intros Hd. apply py_int_strip.
  replace (strip (String " " (String (digit_char d) EmptyString)))
    with (String (digit_char d) EmptyString); [by apply py_int_digit|].
  assert (is_space " " = true) as Hsp by reflexivity.
  unfold strip. cbn [lstrip]. rewrite Hsp, digit_char_not_space by lia.
  cbn [rstrip]. by rewrite digit_char_not_space by lia.
Qed.

(** ** [str(int)] and [int(str)] *)

Lemma dec_digits_S fuel n t :
  dec_digits (S fuel) n t =
  if n <? 10 then String (digit_char (n mod 10)) t
  else dec_digits fuel (n / 10) (String (digit_char (n mod 10)) t).
Proof. reflexivity. Qed.

(** Reading the digits of [n] and then [t] is reading [t] from [n]. *)
Lemma dec_digits_read fuel n t :
  0 <= n < 2 ^ Z.of_nat (S fuel) ->
  int_unsigned (dec_digits (S fuel) n t) = int_digits false n t.
Proof.
  revert n t; induction fuel as [|fuel IH]; intros n t Hn;
    rewrite dec_digits_S; destruct (Z.ltb_spec n 10) as [Hlt|Hge].
  - cbn. rewrite is_digit_digit_char, digit_val_digit_char by div_lia.
    by rewrite Z.mod_small by lia.
  - change (2 ^ Z.of_nat 1) with 2 in Hn. lia.
  - cbn. rewrite is_digit_digit_char, digit_val_digit_char by div_lia.
    by rewrite Z.mod_small by lia.
  - rewrite IH.
    + cbn. rewrite digit_char_neq_us, is_digit_digit_char, digit_val_digit_char
        by div_lia.
      f_equal. div_lia.
    + rewrite (Nat2Z.inj_succ (S fuel)), Z.pow_succ_r in Hn by lia. div_lia.
Qed.

Lemma dec_digits_first fuel n t :
  0 <= n -> exists c s, dec_digits (S fuel) n t = String c s /\ is_digit c = true.
Proof.
  revert n t; induction fuel as [|fuel IH]; intros n t Hn;
    rewrite dec_digits_S; destruct (n <? 10).
  1-3: eexists _, _; split; [done|]; apply is_digit_digit_char; div_lia.
  apply IH. div_lia.
Qed.

Lemma dec_digits_last fuel n c t :
  last_char (dec_digits fuel n (String c t)) = last_char (String c t).
Proof.
  revert n c t; induction fuel as [|fuel IH]; intros n c t; [done|].
  rewrite dec_digits_S. destruct (n <? 10); [done|]. by rewrite IH.
Qed.

Lemma str_of_nonneg_read n : 0 <= n -> int_unsigned (str_of_nonneg n) = Some n.
Proof.
  intros Hn. unfold str_of_nonneg. rewrite dec_digits_read; [done|].
  split; [done|]. rewrite Nat2Z.inj_succ, Z2Nat.id by apply Z.log2_nonneg.
  destruct (decide (n = 0)) as [->|]; [done|].
  apply Z.log2_spec. lia.
Qed.

Lemma str_of_nonneg_last n :
  0 <= n -> last_char (str_of_nonneg n) = Some (digit_char (n mod 10)).
Proof.
  intros Hn. unfold str_of_nonneg. rewrite dec_digits_S.
  destruct (n <? 10); [done|]. by rewrite dec_digits_last.
Qed.

Lemma str_of_int_stripped z : stripped (str_of_int z).
Proof.
  unfold str_of_int, stripped. destruct (Z.ltb_spec z 0).
  - cbn [first_char]. destruct (dec_digits_first (Z.to_nat (Z.log2 (- z))) (- z)
      EmptyString) as (c & s & Hs & Hc); [lia|].
    change (last_char (String "-" (str_of_nonneg (- z))))
      with (last_char (String "-" (dec_digits (S (Z.to_nat (Z.log2 (- z)))) (- z)
              EmptyString))).
    rewrite Hs. change (last_char (String "-" (String c s))) with (last_char (String c s)).
    rewrite <- Hs. fold (str_of_nonneg (- z)). rewrite str_of_nonneg_last by lia.
    split; [done|]. apply digit_char_not_space. div_lia.
  - destruct (dec_digits_first (Z.to_nat (Z.log2 z)) z EmptyString)
      as (c & s & Hs & Hc); [lia|].
    rewrite str_of_nonneg_last by lia. unfold str_of_nonneg. rewrite Hs. cbn.
    split; [by apply is_digit_not_space|]. apply digit_char_not_space. div_lia.
Qed.

(** [int(str(z)) == z] *)
Lemma py_int_str_of_int z : py_int (str_of_int z) = Ok z.
Proof.
  unfold py_int. rewrite stripped_strip by apply str_of_int_stripped.
  unfold str_of_int. destruct (Z.ltb_spec z 0).
  - change (int_literal (String "-" (str_of_nonneg (- z))))
      with (Z.opp <$> int_unsigned (str_of_nonneg (- z))).
    rewrite str_of_nonneg_read by lia. cbn. f_equal. lia.
  - destruct (dec_digits_first (Z.to_nat (Z.log2 z)) z EmptyString)
      as (c & s & Hs & Hc); [lia|].
    pose proof (str_of_nonneg_read z) as Hr. unfold str_of_nonneg in *.
    rewrite Hs in *. rewrite int_literal_digit, Hr by done. done.
Qed.

(** C40. [int(str(z)) == z] for every integer of the model, and
    different integers print differently: the decimal fields of the forms
    identify the numbers they stand for.  (CPython's limit of 4300 digits
    on both conversions is not modelled; the numbers of the program are
    far below it.) *)
Theorem str_of_int_roundtrip z1 z2 :
  py_int (str_of_int z1) = Ok z1 /\ (str_of_int z1 = str_of_int z2 -> z1 = z2).
Proof.
  split; [apply py_int_str_of_int|].
  intros H. pose proof (py_int_str_of_int z1) as H1.
  rewrite H, py_int_str_of_int in H1. congruence.
Qed.

Example str_of_int_example :
  str_of_int 8 = "8" /\ str_of_int (-120) = "-120" /\ str_of_int 0 = "0" /\
  str_of_int 4294967296 = "4294967296".
Proof. vm_compute. done. Qed.

(** ** [repr] *)

Lemma plain_no_quote s : plain s = true -> contains_char single_quote s = false.
Proof.
  induction s as [|c s IH]; cbn; [done|].
  intros [[[[_ Hq%negb_true_iff]%andb_prop _]%andb_prop _]%andb_prop Hs]%andb_prop.
  by rewrite Hq, IH.
Qed.

Lemma is_printable_code c : is_printable c = true -> 32 <= code c.
Proof.
  unfold is_printable.
  destruct (Z.leb_spec 32 (code c)), (Z.leb_spec 161 (code c)); cbn; try done; lia.
Qed.

Lemma repr_char_plain c :
  is_printable c = true -> Ascii.eqb c single_quote = false ->
  Ascii.eqb c backslash = false ->
  repr_char single_quote c = String c EmptyString.
Proof.
  intros Hp Hq Hb. unfold repr_char. rewrite Hq, Hb, Hp. cbn.
  apply is_printable_code in Hp.
  by destruct (Z.eqb_spec (code c) 9), (Z.eqb_spec (code c) 10),
    (Z.eqb_spec (code c) 13); try lia.
Qed.

Lemma repr_chars_plain s : plain s = true -> repr_chars single_quote s = s.
Proof.
  induction s as [|c s IH]; cbn; [done|].
  intros [[[[Hp Hq%negb_true_iff]%andb_prop _]%andb_prop
    Hb%negb_true_iff]%andb_prop Hs]%andb_prop.
  by rewrite IH, repr_char_plain.
Qed.

(** A plain string is printed between single quotes, unchanged. *)
Lemma repr_str_plain s :
  plain s = true ->
  repr_str s = String single_quote (s +:+ String single_quote EmptyString).
Proof.
  intros Hs. unfold repr_str, repr_quote.
  rewrite (plain_no_quote _ Hs). cbn. by rewrite repr_chars_plain.
Qed.

Lemma repr_list_nil : repr_list [] = "[]".
Proof. reflexivity. Qed.

(** The printed list starts with a bracket and is never empty, whatever
    the elements are. *)
Lemma repr_list_bracket l : exists t, repr_list l = String "[" t.
Proof. unfold repr_list. rewrite append_cons. eauto. Qed.

Example repr_list_example :
  repr_list ["10-11-2023"; "it's"; "a" +:+ String (chr 10) "b"] =
  "['10-11-2023', " +:+ String double_quote "it's" +:+ String double_quote ", 'a" +:+
  String backslash "nb']".
Proof. vm_compute. reflexivity. Qed.
