(* ===== verification/Calendar.v ===== *)
(** * Calendar: [datetime.date] as the sources use it

    [src/core/utils.py] builds dates with [date(int(year), int(month),
    int(day))], subtracts them ([end_date - start_date], then [.days]),
    adds days ([start_date + timedelta(days=i)]) and compares them
    ([<] in [remove_dates_before]).  This file holds those operations with
    the proleptic Gregorian arithmetic of CPython's datetime module
    ([_ymd2ord], [_ord2ymd] and their tables), and proves that the ordinal
    and its inverse agree on the years 1..9999. *)

From stdpp Require Import base tactics list numbers.
From Stdlib Require Import ZArith Lia.
From S2P Require Import Prelude.

Local Open Scope Z_scope.
Local Open Scope py_scope.

(** ** Dates *)

Record date := Date { year : Z; month : Z; day : Z }.

#[export] Instance date_eq_dec : EqDecision date.
Proof. solve_decision. Defined.

Definition MINYEAR : Z := 1.
Definition MAXYEAR : Z := 9999.
Definition MAXORDINAL : Z := 3652059.
Definition INT_MIN : Z := -2147483648.
Definition INT_MAX : Z := 2147483647.
Definition MAX_DELTA_DAYS : Z := 999999999.

Definition DAYS_IN_MONTH : list Z :=
  [-1; 31; 28; 31; 30; 31; 30; 31; 31; 30; 31; 30; 31].

Definition DAYS_BEFORE_MONTH : list Z :=
  [-1; 0; 31; 59; 90; 120; 151; 181; 212; 243; 273; 304; 334].

Definition tbl (t : list Z) (i : Z) : Z := nth (Z.to_nat i) t (-1).

Definition is_leap (y : Z) : bool :=
  (y mod 4 =? 0) && (negb (y mod 100 =? 0) || (y mod 400 =? 0)).

Definition b2z (b : bool) : Z := if b then 1 else 0.

Definition days_before_year (y : Z) : Z :=
  let y := y - 1 in y * 365 + y / 4 - y / 100 + y / 400.

Definition days_in_month (y m : Z) : Z :=
  if (m =? 2) && is_leap y then 29 else tbl DAYS_IN_MONTH m.

Definition days_before_month (y m : Z) : Z :=
  tbl DAYS_BEFORE_MONTH m + b2z ((m >? 2) && is_leap y).

Definition ymd2ord (y m d : Z) : Z :=
  days_before_year y + days_before_month y m + d.

(** The day of the year, from 0, to month and day; [leap] says whether the
    year is a leap year.  This is the tail of [_ord2ymd]. *)
Definition doy2md (leap : bool) (n : Z) : Z * Z :=
  let month := Z.shiftr (n + 50) 5 in
  let preceding := tbl DAYS_BEFORE_MONTH month + b2z ((month >? 2) && leap) in
  if preceding >? n then
    let month := month - 1 in
    let preceding :=
      preceding - (tbl DAYS_IN_MONTH month + b2z ((month =? 2) && leap)) in
    (month, n - preceding + 1)
  else (month, n - preceding + 1).

Definition ord2ymd (n : Z) : Z * Z * Z :=
  let n := n - 1 in
  let n400 := n / 146097 in
  let n := n mod 146097 in
  let y := n400 * 400 + 1 in
  let n100 := n / 36524 in
  let n := n mod 36524 in
  let n4 := n / 1461 in
  let n := n mod 1461 in
  let n1 := n / 365 in
  let n := n mod 365 in
  let y := y + n100 * 100 + n4 * 4 + n1 in
  if (n1 =? 4) || (n100 =? 4) then (y - 1, 12, 31)
  else
    let leapyear := (n1 =? 3) && (negb (n4 =? 24) || (n100 =? 3)) in
    let '(m, d) := doy2md leapyear n in (y, m, d).

(** ** The operations of [date] *)

Definition valid_ymd (y m d : Z) : bool :=
  (MINYEAR <=? y) && (y <=? MAXYEAR) && (1 <=? m) && (m <=? 12) &&
  (1 <=? d) && (d <=? days_in_month y m).

Definition valid_date (x : date) : Prop :=
  valid_ymd (year x) (month x) (day x) = true.

Definition fits_int (v : Z) : bool := (INT_MIN <=? v) && (v <=? INT_MAX).

(** [date(y, m, d)]: the arguments are read as C ints, then checked. *)
Definition mk_date (y m d : Z) : outcome date :=
  if negb (fits_int y) then Raise (CIntOverflow y)
  else if negb (fits_int m) then Raise (CIntOverflow m)
  else if negb (fits_int d) then Raise (CIntOverflow d)
  else if valid_ymd y m d then Ok (Date y m d)
  else Raise (DateOutOfRange y m d).

Definition toordinal (x : date) : Z := ymd2ord (year x) (month x) (day x).

Definition fromordinal (n : Z) : date :=
  let '(y, m, d) := ord2ymd n in Date y m d.

(** [(a - b).days] *)
Definition date_sub_days (a b : date) : Z := toordinal a - toordinal b.

(** [x + timedelta(days=i)] *)
Definition date_add_days (x : date) (i : Z) : outcome date :=
  if negb ((- MAX_DELTA_DAYS <=? i) && (i <=? MAX_DELTA_DAYS))
  then Raise (TimedeltaOverflow i)
  else
    let o := toordinal x + i in
    if (0 <? o) && (o <=? MAXORDINAL) then Ok (fromordinal o)
    else Raise (DateValueOverflow o).

(** [a < b]: the comparison of the triples (year, month, day). *)
Definition date_ltb (a b : date) : bool :=
  (year a <? year b) ||
  ((year a =? year b) &&
   ((month a <? month b) || ((month a =? month b) && (day a <? day b)))).

(** The day after [x] in the calendar: the reference for
    [x + timedelta(days=1)]. *)
Definition next_day (x : date) : date :=
  if day x <? days_in_month (year x) (month x)
  then Date (year x) (month x) (day x + 1)
  else if month x <? 12 then Date (year x) (month x + 1) 1
  else Date (year x + 1) 1 1.

(** ** Checking a property on a finite range by computation *)

Definition all_in_range (f : Z -> bool) (a n : Z) : bool := forallb f (seqZ a n).

(** Facts about the tables, for a month in 1..12 and either kind of year,
    checked by running through the months. *)

Definition dim (leap : bool) (m : Z) : Z :=
  if (m =? 2) && leap then 29 else tbl DAYS_IN_MONTH m.

Definition dbm (leap : bool) (m : Z) : Z :=
  tbl DAYS_BEFORE_MONTH m + b2z ((m >? 2) && leap).

(** The tail of [_ord2ymd] finds the month and the day of a day of the
    year: checked for each of the 365 (366) days. *)
Definition doy2md_ok (leap : bool) (n : Z) : bool :=
  let '(m, d) := doy2md leap n in
  (1 <=? m) && (m <=? 12) && (1 <=? d) && (d <=? dim leap m) &&
  (dbm leap m + d =? n + 1).

#[global] Arguments is_leap : simpl never.
#[global] Arguments days_before_year : simpl never.
#[global] Arguments days_in_month : simpl never.
#[global] Arguments days_before_month : simpl never.
#[global] Arguments ymd2ord : simpl never.
#[global] Arguments ord2ymd : simpl never.
#[global] Arguments valid_ymd : simpl never.

Lemma all_in_range_spec f a n x :
  all_in_range f a n = true -> a <= x < a + n -> f x = true.
Proof.
  unfold all_in_range. rewrite forallb_forall. intros H Hx.
  apply H, list_elem_of_In, elem_of_seqZ. lia.
Qed.

Ltac by_range f a n :=
  apply (all_in_range_spec f a n); [vm_compute; reflexivity | lia].

(** ** Leap years and lengths *)

Lemma is_leap_spec y :
  is_leap y = true <-> y mod 4 = 0 /\ (y mod 100 <> 0 \/ y mod 400 = 0).
Proof. unfold is_leap. lia. Qed.

Lemma days_before_year_succ y :
  days_before_year (y + 1) = days_before_year y + 365 + b2z (is_leap y).
Proof.
  unfold days_before_year, b2z.
  destruct (is_leap y) eqn:E.
  - apply is_leap_spec in E. div_lia.
  - assert (~ (y mod 4 = 0 /\ (y mod 100 <> 0 \/ y mod 400 = 0))) as E'
      by (rewrite <-is_leap_spec; congruence).
    div_lia.
Qed.

Lemma days_before_year_mono y1 y2 :
  y1 <= y2 -> days_before_year y1 <= days_before_year y2.
Proof. unfold days_before_year. intros. div_lia. Qed.

#[global] Arguments dim : simpl never.
#[global] Arguments dbm : simpl never.

Lemma days_in_month_dim y m : days_in_month y m = dim (is_leap y) m.
Proof. reflexivity. Qed.

Lemma days_before_month_dbm y m : days_before_month y m = dbm (is_leap y) m.
Proof. reflexivity. Qed.

Lemma dim_range leap m : 1 <= m <= 12 -> 28 <= dim leap m <= 31.
Proof.
  intros Hm.
  assert ((28 <=? dim leap m) && (dim leap m <=? 31) = true); [|lia].
  destruct leap.
  - by_range (fun m => (28 <=? dim true m) && (dim true m <=? 31)) 1 12.
  - by_range (fun m => (28 <=? dim false m) && (dim false m <=? 31)) 1 12.
Qed.

Lemma dbm_succ leap m : 1 <= m < 12 -> dbm leap (m + 1) = dbm leap m + dim leap m.
Proof.
  intros Hm.
  assert ((dbm leap (m + 1) =? dbm leap m + dim leap m) = true); [|lia].
  destruct leap.
  - by_range (fun m => dbm true (m + 1) =? dbm true m + dim true m) 1 11.
  - by_range (fun m => dbm false (m + 1) =? dbm false m + dim false m) 1 11.
Qed.

Lemma dim_first leap : dim leap 1 = 31.
Proof. by destruct leap. Qed.

Lemma dim_last leap : dim leap 12 = 31.
Proof. by destruct leap. Qed.

Lemma dbm_first leap : dbm leap 1 = 0.
Proof. by destruct leap. Qed.

Lemma dbm_last leap : dbm leap 12 + dim leap 12 = 365 + b2z leap.
Proof. by destruct leap. Qed.

Lemma dbm_mono_step leap m1 m2 :
  1 <= m1 -> m1 < m2 <= 12 -> dbm leap m1 + dim leap m1 <= dbm leap m2.
Proof.
  intros H1 [Hlt H2]. rewrite <-dbm_succ by lia.
  assert (forall k : nat, m1 + 1 + Z.of_nat k <= 12 ->
            dbm leap (m1 + 1) <= dbm leap (m1 + 1 + Z.of_nat k)) as Hk.
  { induction k as [|k IH]; intros Hle; [by rewrite Z.add_0_r|].
    replace (m1 + 1 + Z.of_nat (S k)) with (m1 + 1 + Z.of_nat k + 1) by lia.
    rewrite (dbm_succ leap (m1 + 1 + Z.of_nat k)) by lia.
    pose proof (dim_range leap (m1 + 1 + Z.of_nat k)). lia. }
  specialize (Hk (Z.to_nat (m2 - m1 - 1))).
  replace (m1 + 1 + Z.of_nat (Z.to_nat (m2 - m1 - 1))) with m2 in Hk by lia.
  apply Hk. lia.
Qed.

Lemma dbm_range leap m : 1 <= m <= 12 -> 0 <= dbm leap m /\ dbm leap m + dim leap m <= 365 + b2z leap.
Proof.
  intros Hm. split.
  - destruct (decide (m = 1)) as [->|]; [by rewrite dbm_first|].
    pose proof (dbm_mono_step leap 1 m). pose proof (dim_range leap 1).
    rewrite dbm_first in *. lia.
  - destruct (decide (m = 12)) as [->|]; [by rewrite dbm_last|].
    pose proof (dbm_mono_step leap m 12). pose proof (dim_range leap 12).
    pose proof (dbm_last leap). lia.
Qed.

(** ** The ordinal of a valid date *)

Lemma valid_ymd_spec y m d :
  valid_ymd y m d = true <->
  1 <= y <= 9999 /\ 1 <= m <= 12 /\ 1 <= d <= days_in_month y m.
Proof. unfold valid_ymd, MINYEAR, MAXYEAR. lia. Qed.

Lemma valid_date_spec x :
  valid_date x <->
  1 <= year x <= 9999 /\ 1 <= month x <= 12 /\
  1 <= day x <= days_in_month (year x) (month x).
Proof. apply valid_ymd_spec. Qed.

#[export] Instance valid_date_dec x : Decision (valid_date x).
Proof. unfold valid_date. apply _. Defined.

(** Within its year, a valid date is day 1 .. 365 (366 in a leap year). *)
Lemma day_of_year_range y m d :
  1 <= m <= 12 -> 1 <= d <= days_in_month y m ->
  1 <= days_before_month y m + d <= 365 + b2z (is_leap y).
Proof.
  rewrite days_in_month_dim, days_before_month_dbm. intros Hm Hd.
  pose proof (dbm_range (is_leap y) m Hm). lia.
Qed.

Lemma ymd2ord_bounds y m d :
  1 <= m <= 12 -> 1 <= d <= days_in_month y m ->
  days_before_year y < ymd2ord y m d <= days_before_year (y + 1).
Proof.
  intros Hm Hd. unfold ymd2ord. rewrite days_before_year_succ.
  pose proof (day_of_year_range y m d Hm Hd). lia.
Qed.

Lemma toordinal_range x : valid_date x -> 1 <= toordinal x <= MAXORDINAL.
Proof.
  intros (Hy & Hm & Hd)%valid_date_spec. unfold toordinal.
  pose proof (ymd2ord_bounds _ _ _ Hm Hd).
  pose proof (days_before_year_mono 1 (year x)).
  pose proof (days_before_year_mono (year x + 1) 10000).
  change (days_before_year 1) with 0 in *.
  change (days_before_year 10000) with 3652059 in *.
  unfold MAXORDINAL. lia.
Qed.

(** The order of dates is the order of their ordinals. *)
Lemma date_ltb_toordinal a b :
  valid_date a -> valid_date b ->
  date_ltb a b = true <-> toordinal a < toordinal b.
Proof.
  intros (_ & Hma & Hda)%valid_date_spec (_ & Hmb & Hdb)%valid_date_spec.
  pose proof (ymd2ord_bounds _ _ _ Hma Hda) as Ha.
  pose proof (ymd2ord_bounds _ _ _ Hmb Hdb) as Hb.
  unfold date_ltb, toordinal in *.
  destruct (Z.lt_trichotomy (year a) (year b)) as [Hlt|[Heq|Hgt]].
  - pose proof (days_before_year_mono (year a + 1) (year b)). lia.
  - rewrite Heq in *. unfold ymd2ord.
    rewrite !days_before_month_dbm, !days_in_month_dim in *.
    destruct (Z.lt_trichotomy (month a) (month b)) as [Hlt|[Heq'|Hgt]].
    + pose proof (dbm_mono_step (is_leap (year b)) (month a) (month b)). lia.
    + rewrite Heq'. lia.
    + pose proof (dbm_mono_step (is_leap (year b)) (month b) (month a)). lia.
  - pose proof (days_before_year_mono (year b + 1) (year a)). lia.
Qed.

Lemma date_ltb_irrefl a : date_ltb a a = false.
Proof. unfold date_ltb. lia. Qed.

Lemma date_ltb_trans a b c :
  date_ltb a b = true -> date_ltb b c = true -> date_ltb a c = true.
Proof. unfold date_ltb. lia. Qed.

Lemma date_ltb_total a b :
  date_ltb a b = false -> date_ltb b a = false -> a = b.
Proof.
  destruct a, b; unfold date_ltb; cbn. intros H1 H2.
  f_equal; lia.
Qed.

Lemma toordinal_inj a b :
  valid_date a -> valid_date b -> toordinal a = toordinal b -> a = b.
Proof.
  intros Ha Hb Heq. apply date_ltb_total.
  - destruct (date_ltb a b) eqn:E; [|done].
    apply date_ltb_toordinal in E; [lia|done..].
  - destruct (date_ltb b a) eqn:E; [|done].
    apply date_ltb_toordinal in E; [lia|done..].
Qed.

(** ** From the ordinal back to the date *)

Lemma doy2md_spec leap n :
  0 <= n < 365 + b2z leap ->
  let '(m, d) := doy2md leap n in
  1 <= m <= 12 /\ 1 <= d <= dim leap m /\ dbm leap m + d = n + 1.
Proof.
  intros Hn. assert (doy2md_ok leap n = true) as H.
  { destruct leap; cbn [b2z] in Hn.
    - by_range (doy2md_ok true) 0 366.
    - by_range (doy2md_ok false) 0 365. }
  unfold doy2md_ok in H. destruct (doy2md leap n) as [m d]. lia.
Qed.

(** The year, written with the quotients [_ord2ymd] computes. *)
Lemma days_before_year_parts n400 n100 n4 n1 :
  0 <= n100 <= 3 -> 0 <= n4 <= 24 -> 0 <= n1 <= 3 ->
  days_before_year (n400 * 400 + 1 + n100 * 100 + n4 * 4 + n1) =
  n400 * 146097 + n100 * 36524 + n4 * 1461 + n1 * 365.
Proof. intros. unfold days_before_year. div_lia. Qed.

Lemma is_leap_parts n400 n100 n4 n1 :
  0 <= n100 <= 3 -> 0 <= n4 <= 24 -> 0 <= n1 <= 3 ->
  is_leap (n400 * 400 + 1 + n100 * 100 + n4 * 4 + n1) =
  (n1 =? 3) && (negb (n4 =? 24) || (n100 =? 3)).
Proof.
  intros. apply eq_true_iff_eq. rewrite is_leap_spec.
  rewrite andb_true_iff, orb_true_iff, negb_true_iff.
  rewrite !Z.eqb_eq, Z.eqb_neq. div_lia.
Qed.

Lemma ymd2ord_last_day y : ymd2ord y 12 31 = days_before_year (y + 1).
Proof.
  unfold ymd2ord. rewrite days_before_year_succ, days_before_month_dbm.
  pose proof (dbm_last (is_leap y)) as H. rewrite dim_last in H. lia.
Qed.

Lemma days_before_year_le_inv y1 y2 :
  days_before_year y1 < days_before_year (y2 + 1) -> y1 <= y2.
Proof.
  intros H. destruct (decide (y1 <= y2)); [done|].
  pose proof (days_before_year_mono (y2 + 1) y1). lia.
Qed.

(** The quotients and the last remainder of [_ord2ymd], with their ranges. *)
Lemma ord2ymd_chain n :
  1 <= n <= MAXORDINAL ->
  let r1 := (n - 1) mod 146097 in
  let r2 := r1 mod 36524 in
  let r3 := r2 mod 1461 in
  let n400 := (n - 1) / 146097 in
  let n100 := r1 / 36524 in
  let n4 := r2 / 1461 in
  let n1 := r3 / 365 in
  let r4 := r3 mod 365 in
  n - 1 = n400 * 146097 + n100 * 36524 + n4 * 1461 + n1 * 365 + r4 /\
  0 <= n400 /\ 0 <= n100 <= 4 /\ 0 <= n4 <= 24 /\ 0 <= n1 <= 4 /\
  0 <= r4 < 365 /\
  (n100 = 4 -> n4 = 0 /\ n1 = 0 /\ r4 = 0) /\
  (n1 = 4 -> n4 <= 23 /\ r4 = 0).
Proof. unfold MAXORDINAL. intros Hn. cbv zeta. div_lia. Qed.

(** [_ord2ymd] returns a valid date whose ordinal is its argument. *)
Lemma ord2ymd_spec n :
  1 <= n <= MAXORDINAL ->
  let '(y, m, d) := ord2ymd n in
  valid_ymd y m d = true /\ ymd2ord y m d = n.
Proof.
  intros Hn. pose proof (ord2ymd_chain n Hn) as Hc.
  unfold ord2ymd. cbv zeta in *.
  set (n400 := (n - 1) / 146097) in *.
  set (n100 := (n - 1) mod 146097 / 36524) in *.
  set (n4 := ((n - 1) mod 146097) mod 36524 / 1461) in *.
  set (n1 := (((n - 1) mod 146097) mod 36524) mod 1461 / 365) in *.
  set (r4 := ((((n - 1) mod 146097) mod 36524) mod 1461) mod 365) in *.
  destruct Hc as (Hsum & H400 & H100 & H4 & H1 & Hr4 & Hc100 & Hc1).
  set (y := n400 * 400 + 1 + n100 * 100 + n4 * 4 + n1).
  assert (days_before_year 10000 = MAXORDINAL) as Hmax by reflexivity.
  destruct ((n1 =? 4) || (n100 =? 4)) eqn:E.
  - (* the last day of a 4-year or of a 400-year cycle *)
    replace (y - 1 + 1) with y by lia.
    assert (days_before_year y = n) as Hy.
    { destruct (decide (n100 = 4)) as [E100|?].
      - destruct (Hc100 E100) as (-> & -> & ->).
        replace y with ((n400 + 1) * 400 + 1 + 0 * 100 + 0 * 4 + 0) by lia.
        rewrite days_before_year_parts; lia.
      - assert (n1 = 4) as E1 by lia. destruct (Hc1 E1) as [? ->].
        replace y with (n400 * 400 + 1 + n100 * 100 + (n4 + 1) * 4 + 0) by lia.
        rewrite days_before_year_parts; lia. }
    rewrite ymd2ord_last_day, valid_ymd_spec.
    replace (y - 1 + 1) with y by lia.
    pose proof (days_before_year_le_inv y 10000) as Hle.
    change (days_before_year (10000 + 1)) with 3652425 in Hle.
    unfold MAXORDINAL in *. repeat split; try done; lia.
  - (* a day inside year [y] *)
    assert (n100 <= 3 /\ n1 <= 3) as [? ?] by lia.
    rewrite <-(is_leap_parts n400 n100 n4 n1) by lia. fold y.
    assert (days_before_year y = n - 1 - r4) as Hy
      by (unfold y; rewrite days_before_year_parts; lia).
    pose proof (doy2md_spec (is_leap y) r4) as Hmd.
    destruct (doy2md (is_leap y) r4) as [m d].
    destruct Hmd as (Hm & Hd & Hdoy); [destruct (is_leap y); cbn; lia|].
    rewrite valid_ymd_spec, days_in_month_dim. unfold ymd2ord.
    rewrite days_before_month_dbm.
    pose proof (days_before_year_le_inv y 9999) as Hle.
    change (days_before_year (9999 + 1)) with 3652059 in Hle.
    unfold MAXORDINAL in *. repeat split; try done; lia.
Qed.

(** ** Round trips between dates and ordinals *)

Lemma fromordinal_valid n :
  1 <= n <= MAXORDINAL -> valid_date (fromordinal n).
Proof.
  intros Hn. pose proof (ord2ymd_spec n Hn) as H. unfold fromordinal.
  destruct (ord2ymd n) as [[y m] d]. apply H.
Qed.

Lemma toordinal_fromordinal n :
  1 <= n <= MAXORDINAL -> toordinal (fromordinal n) = n.
Proof.
  intros Hn. pose proof (ord2ymd_spec n Hn) as H. unfold fromordinal.
  destruct (ord2ymd n) as [[y m] d]. apply H.
Qed.

Lemma fromordinal_toordinal x :
  valid_date x -> fromordinal (toordinal x) = x.
Proof.
  intros Hx. pose proof (toordinal_range x Hx) as Hr.
  apply toordinal_inj; [by apply fromordinal_valid | done |].
  by apply toordinal_fromordinal.
Qed.

(** ** The constructor *)

Lemma valid_fits_int y m d :
  valid_ymd y m d = true -> fits_int y && fits_int m && fits_int d = true.
Proof.
  intros (Hy & Hm & Hd)%valid_ymd_spec.
  rewrite days_in_month_dim in Hd. pose proof (dim_range (is_leap y) m Hm).
  unfold fits_int, INT_MIN, INT_MAX. lia.
Qed.

Lemma mk_date_ok y m d x :
  mk_date y m d = Ok x <-> x = Date y m d /\ valid_date x.
Proof.
  unfold mk_date, valid_date. split.
  - repeat case_match; try done. by intros [= <-].
  - intros [-> Hv]. cbn in Hv.
    apply valid_fits_int in Hv as Hf.
    apply andb_prop in Hf as [[-> ->]%andb_prop ->]. cbn. by rewrite Hv.
Qed.

Lemma mk_date_valid x : valid_date x -> mk_date (year x) (month x) (day x) = Ok x.
Proof. intros. apply mk_date_ok. by destruct x. Qed.

Lemma mk_date_not_exit y m d : mk_date y m d <> Exit.
Proof. unfold mk_date. by repeat case_match. Qed.

(** The constructor raises [ValueError] or [OverflowError], nothing else. *)
Lemma mk_date_raise y m d e :
  mk_date y m d = Raise e ->
  (class_of e = OverflowError /\ fits_int y && fits_int m && fits_int d = false) \/
  (e = DateOutOfRange y m d /\ valid_ymd y m d = false).
Proof.
  unfold mk_date.
  destruct (fits_int y), (fits_int m), (fits_int d); cbn;
    try (intros [= <-]; by left).
  destruct (valid_ymd y m d); [done|]. intros [= <-]. by right.
Qed.

(** ** Adding days *)

Lemma date_add_days_ok x i :
  valid_date x -> 1 <= toordinal x + i <= MAXORDINAL ->
  date_add_days x i = Ok (fromordinal (toordinal x + i)).
Proof.
  intros Hx%toordinal_range Hi. unfold date_add_days, MAX_DELTA_DAYS, MAXORDINAL in *.
  repeat case_match; try done; lia.
Qed.

Lemma date_add_days_valid x i y :
  valid_date x -> date_add_days x i = Ok y ->
  valid_date y /\ toordinal y = toordinal x + i.
Proof.
  intros Hx. unfold date_add_days. repeat case_match; try done.
  intros [= <-].
  split; [apply fromordinal_valid | apply toordinal_fromordinal]; lia.
Qed.

Lemma date_add_days_0 x : valid_date x -> date_add_days x 0 = Ok x.
Proof.
  intros Hx. pose proof (toordinal_range x Hx).
  rewrite date_add_days_ok, Z.add_0_r, fromordinal_toordinal by (done || lia). done.
Qed.

(** ** The next day *)

Lemma next_day_valid x :
  valid_date x -> x <> Date 9999 12 31 -> valid_date (next_day x).
Proof.
  destruct x as [y m d]. rewrite !valid_date_spec; cbn.
  intros (Hy & Hm & Hd) Hne. unfold next_day; cbn.
  rewrite !days_in_month_dim in *.
  destruct (Z.ltb_spec d (dim (is_leap y) m)); cbn; [lia|].
  destruct (Z.ltb_spec m 12); cbn; rewrite ?days_in_month_dim.
  - pose proof (dim_range (is_leap y) (m + 1)). lia.
  - assert (m = 12) as -> by lia. rewrite dim_last in *. rewrite dim_first.
    assert (d = 31) as -> by lia.
    assert (y <> 9999) by congruence. lia.
Qed.

Lemma toordinal_next_day x :
  valid_date x -> toordinal (next_day x) = toordinal x + 1.
Proof.
  destruct x as [y m d]. rewrite valid_date_spec; cbn.
  intros (Hy & Hm & Hd). unfold next_day, toordinal; cbn.
  rewrite !days_in_month_dim in *.
  destruct (Z.ltb_spec d (dim (is_leap y) m)); cbn; [unfold ymd2ord; lia|].
  destruct (Z.ltb_spec m 12); cbn; unfold ymd2ord.
  - rewrite !days_before_month_dbm, dbm_succ by lia. lia.
  - assert (m = 12) as -> by lia.
    rewrite days_before_year_succ, !days_before_month_dbm, dbm_first.
    pose proof (dbm_last (is_leap y)). lia.
Qed.

(** C36. [x + timedelta(days=1)] is the next day of the calendar: the
    day after in the same month, the first of the next month after the
    last day of a month (29 February in leap years only), the first of
    January after 31 December. *)
Theorem date_add_days_1 x :
  valid_date x -> x <> Date 9999 12 31 ->
  date_add_days x 1 = Ok (next_day x).
Proof.
  intros Hx Hne. pose proof (next_day_valid x Hx Hne) as Hv.
  pose proof (toordinal_range _ Hv) as Hr.
  rewrite toordinal_next_day in Hr by done.
  rewrite date_add_days_ok by (done || lia).
  rewrite <-toordinal_next_day by done. by rewrite fromordinal_toordinal.
Qed.

(** Adding to a date the days that separate it from another date
    gives the other date: [a + timedelta(days=(b - a).days) == b], whatever
    the order of the two. *)
Theorem date_add_sub a b :
  valid_date a -> valid_date b -> date_add_days a (date_sub_days b a) = Ok b.
Proof.
  intros Ha Hb. pose proof (toordinal_range _ Hb) as Hr.
  unfold date_sub_days. rewrite date_add_days_ok by (done || lia).
  replace (toordinal a + (toordinal b - toordinal a)) with (toordinal b) by lia.
  by rewrite fromordinal_toordinal.
Qed.

(** The two comparisons of the program agree: [a < b] on dates
    holds exactly when [(b - a).days] is positive. *)
Theorem date_ltb_sub a b :
  valid_date a -> valid_date b ->
  date_ltb a b = true <-> 0 < date_sub_days b a.
Proof.
  intros Ha Hb. rewrite date_ltb_toordinal by done. unfold date_sub_days. lia.
Qed.

#[export] Hint Resolve fromordinal_valid next_day_valid : py.
#[export] Hint Rewrite toordinal_fromordinal fromordinal_toordinal
  using (done || lia) : py.

(** ** Witnesses *)

Lemma date_add_days_1_witness :
  date_add_days (Date 2024 2 28) 1 = Ok (Date 2024 2 29) /\
  date_add_days (Date 2023 2 28) 1 = Ok (Date 2023 3 1) /\
  date_add_days (Date 2023 12 31) 1 = Ok (Date 2024 1 1).
Proof.
  split_and!.
  - by rewrite (date_add_days_1 (Date 2024 2 28)).
  - by rewrite (date_add_days_1 (Date 2023 2 28)).
  - by rewrite (date_add_days_1 (Date 2023 12 31)).
Defined.

Lemma date_add_sub_witness :
  date_add_days (Date 2023 11 17) (date_sub_days (Date 2024 3 1) (Date 2023 11 17)) =
  Ok (Date 2024 3 1).
Proof. by apply (date_add_sub (Date 2023 11 17) (Date 2024 3 1)). Defined.

Lemma date_ltb_sub_witness : 0 < date_sub_days (Date 2023 11 18) (Date 2023 11 10).
Proof. by apply (date_ltb_sub (Date 2023 11 10) (Date 2023 11 18)). Defined.
