(* ===== verification/DateFormat.v ===== *)
(** * DateFormat: [strptime] and [strftime] for the format "%d-%m-%Y"

    [datetime.strptime(s, "%d-%m-%Y")] compiles the format to the regular
    expression
    [(?P<d>3[0-1]|[1-2]\d|0[1-9]|[1-9]| [1-9])-(?P<m>1[0-2]|0[1-9]|[1-9])-(?P<Y>\d\d\d\d)],
    matches it at the start of [s] (alternatives are tried in order, with
    backtracking), refuses text left after the match, and builds the date.
    [strptime_match] is that matcher; [dmy_text] is the set of strings it
    accepts, in closed form.  [strftime] prints the three fields with
    their fixed widths. *)

From stdpp Require Import base tactics list strings numbers.
From Stdlib Require Import ZArith Lia Ascii.
From S2P Require Import Prelude PyString Calendar.

Local Open Scope Z_scope.
Local Open Scope py_scope.

(** Evaluate [digit_val] of the character literals in [H]. *)
Ltac eval_digits H :=
  repeat match type of H with
  | context [digit_val (Ascii ?a ?b ?c ?d ?e ?f ?g ?h)] =>
      let v := eval vm_compute in (digit_val (Ascii a b c d e f g h)) in
      change (digit_val (Ascii a b c d e f g h)) with v in H
  end.

(** ** The matcher *)

(** One alternative of a group: the value it reads and the text left. *)
Definition alt := string -> option (Z * string).

Definition in_range (lo hi : ascii) (c : ascii) : bool :=
  (code lo <=? code c) && (code c <=? code hi).

(** Two characters, the first in [lo1..hi1], the second in [lo2..hi2],
    read as a two-digit number. *)
Definition two_chars (lo1 hi1 lo2 hi2 : ascii) : alt := fun s =>
  match s with
  | String a (String b rest) =>
      if in_range lo1 hi1 a && in_range lo2 hi2 b
      then Some (10 * digit_val a + digit_val b, rest) else None
  | _ => None
  end.

(** One character in ["1".."9"]. *)
Definition one_char : alt := fun s =>
  match s with
  | String a rest => if in_range "1" "9" a then Some (digit_val a, rest) else None
  | _ => None
  end.

(** A space, then one character in ["1".."9"]. *)
Definition space_char : alt := fun s =>
  match s with
  | String " " rest => one_char rest
  | _ => None
  end.

(** [3[0-1]|[1-2]\d|0[1-9]|[1-9]| [1-9]] *)
Definition re_d : list alt :=
  [two_chars "3" "3" "0" "1"; two_chars "1" "2" "0" "9";
   two_chars "0" "0" "1" "9"; one_char; space_char].

(** [1[0-2]|0[1-9]|[1-9]] *)
Definition re_m : list alt :=
  [two_chars "1" "1" "0" "2"; two_chars "0" "0" "1" "9"; one_char].

(** [\d\d\d\d] *)
Definition re_Y : alt := fun s =>
  match s with
  | String a (String b (String c (String d rest))) =>
      if is_digit a && is_digit b && is_digit c && is_digit d
      then Some (1000 * digit_val a + 100 * digit_val b +
                 10 * digit_val c + digit_val d, rest)
      else None
  | _ => None
  end.

(** Try the alternatives in order; an alternative whose continuation [k]
    fails is abandoned for the next one. *)
Fixpoint first_match {A} (alts : list alt) (k : Z -> string -> option A)
    (s : string) : option A :=
  match alts with
  | [] => None
  | a :: alts' =>
      match a s ≫= (fun '(v, rest) => k v rest) with
      | Some r => Some r
      | None => first_match alts' k s
      end
  end.

Definition lit {A} (c : ascii) (k : string -> option A) (s : string) : option A :=
  match s with
  | String c' s' => if Ascii.eqb c' c then k s' else None
  | EmptyString => None
  end.

(** The match of the whole expression: day, month, year and the text after
    the match. *)
Definition strptime_match (s : string) : option (Z * Z * Z * string) :=
  first_match re_d (fun d =>
    lit "-" (first_match re_m (fun m =>
      lit "-" (fun s' => re_Y s' ≫= (fun '(y, rest) => Some (d, m, y, rest)))))) s.

(** [datetime.strptime(s, "%d-%m-%Y").date()] *)
Definition strptime (s : string) : outcome date :=
  match strptime_match s with
  | None => Raise (TimeDataMismatch s)
  | Some (d, m, y, rest) =>
      match rest with
      | EmptyString => mk_date y m d
      | _ => Raise (UnconvertedData rest)
      end
  end.

(** [x.strftime("%d-%m-%Y")] *)
Definition strftime (x : date) : string :=
  pad2 (day x) +:+ "-" +:+ pad2 (month x) +:+ "-" +:+ pad4 (year x).

(** ** The strings the matcher accepts, in closed form *)

Definition digit1 (v : Z) : string := String (digit_char v) EmptyString.

(** A day field: two digits 01..31, one digit 1..9, or a space and one
    digit 1..9. *)
Definition day_text (t : string) (d : Z) : Prop :=
  (1 <= d <= 31 /\ t = pad2 d) \/
  (1 <= d <= 9 /\ (t = digit1 d \/ t = String " " (digit1 d))).

(** A month field: two digits 01..12 or one digit 1..9. *)
Definition month_text (t : string) (m : Z) : Prop :=
  (1 <= m <= 12 /\ t = pad2 m) \/ (1 <= m <= 9 /\ t = digit1 m).

(** A year field: four digits. *)
Definition year_text (t : string) (y : Z) : Prop :=
  0 <= y <= 9999 /\ t = pad4 y.

Definition dmy_text (s : string) (d m y : Z) (rest : string) : Prop :=
  exists td tm ty,
    s = td +:+ "-" +:+ tm +:+ "-" +:+ ty +:+ rest /\
    day_text td d /\ month_text tm m /\ year_text ty y.

(** ** Lemmas on the alternatives *)

Lemma in_range_digit lo hi c :
  is_digit lo = true -> is_digit hi = true ->
  in_range lo hi c = true ->
  is_digit c = true /\ digit_val lo <= digit_val c <= digit_val hi.
Proof.
  intros Hlo%is_digit_code Hhi%is_digit_code. unfold in_range, digit_val.
  rewrite is_digit_code. lia.
Qed.

Lemma pad2_digits a b :
  is_digit a = true -> is_digit b = true ->
  pad2 (10 * digit_val a + digit_val b) = String a (String b EmptyString).
Proof.
  intros Ha Hb. pose proof (digit_val_range a Ha). pose proof (digit_val_range b Hb).
  unfold pad2.
  replace ((10 * digit_val a + digit_val b) / 10 mod 10) with (digit_val a) by div_lia.
  replace ((10 * digit_val a + digit_val b) mod 10) with (digit_val b) by div_lia.
  by rewrite !digit_char_digit_val.
Qed.

Lemma pad4_digits a b c d :
  is_digit a = true -> is_digit b = true -> is_digit c = true -> is_digit d = true ->
  pad4 (1000 * digit_val a + 100 * digit_val b + 10 * digit_val c + digit_val d) =
  String a (String b (String c (String d EmptyString))).
Proof.
  intros Ha Hb Hc Hd.
  pose proof (digit_val_range a Ha). pose proof (digit_val_range b Hb).
  pose proof (digit_val_range c Hc). pose proof (digit_val_range d Hd).
  unfold pad4, pad2.
  set (v := 1000 * digit_val a + 100 * digit_val b + 10 * digit_val c + digit_val d).
  replace (v / 1000 mod 10) with (digit_val a) by (unfold v; div_lia).
  replace (v / 100 mod 10) with (digit_val b) by (unfold v; div_lia).
  replace (v / 10 mod 10) with (digit_val c) by (unfold v; div_lia).
  replace (v mod 10) with (digit_val d) by (unfold v; div_lia).
  by rewrite !digit_char_digit_val.
Qed.

Lemma two_chars_inv lo1 hi1 lo2 hi2 s v rest :
  is_digit lo1 = true -> is_digit hi1 = true ->
  is_digit lo2 = true -> is_digit hi2 = true ->
  two_chars lo1 hi1 lo2 hi2 s = Some (v, rest) ->
  s = pad2 v +:+ rest /\
  10 * digit_val lo1 + digit_val lo2 <= v <= 10 * digit_val hi1 + digit_val hi2.
Proof.
  intros H1 H2 H3 H4. destruct s as [|a [|b s]]; cbn; try done.
  destruct (in_range lo1 hi1 a) eqn:Ea; [|done].
  destruct (in_range lo2 hi2 b) eqn:Eb; [|done]. cbn. intros [= <- <-].
  apply in_range_digit in Ea as [Ha ?]; [|done..].
  apply in_range_digit in Eb as [Hb ?]; [|done..].
  rewrite pad2_digits by done. split; [done|lia].
Qed.

Lemma one_char_inv s v rest :
  one_char s = Some (v, rest) -> s = digit1 v +:+ rest /\ 1 <= v <= 9.
Proof.
  destruct s as [|a s]; cbn; [done|].
  destruct (in_range "1" "9" a) eqn:Ea; [|done]. intros [= <- <-].
  apply in_range_digit in Ea as [Ha Hr]; [|done..].
  unfold digit1. rewrite digit_char_digit_val by done.
  split; [done|]. eval_digits Hr. lia.
Qed.

Lemma space_char_inv s v rest :
  space_char s = Some (v, rest) ->
  s = String " " (digit1 v) +:+ rest /\ 1 <= v <= 9.
Proof.
  destruct s as [|a s]; cbn; [done|].
  destruct (Ascii.eqb_spec a " ") as [->|Hne].
  - intros [-> ?]%one_char_inv. done.
  - unfold space_char. intros H. exfalso. revert H.
    by destruct a as [[] [] [] [] [] [] [] []].
Qed.

Lemma re_Y_inv s y rest :
  re_Y s = Some (y, rest) -> s = pad4 y +:+ rest /\ 0 <= y <= 9999.
Proof.
  destruct s as [|a [|b [|c [|d s]]]]; cbn; try done.
  destruct (is_digit a) eqn:Ha, (is_digit b) eqn:Hb,
           (is_digit c) eqn:Hc, (is_digit d) eqn:Hd; try done.
  cbn. intros [= <- <-]. rewrite pad4_digits by done.
  pose proof (digit_val_range a Ha). pose proof (digit_val_range b Hb).
  pose proof (digit_val_range c Hc). pose proof (digit_val_range d Hd).
  split; [done|lia].
Qed.

Lemma re_Y_pad4 y rest : 0 <= y <= 9999 -> re_Y (pad4 y +:+ rest) = Some (y, rest).
Proof.
  intros Hy. unfold pad4, pad2. str_simpl. cbn.
  rewrite !is_digit_digit_char, !digit_val_digit_char
    by (apply Z.mod_pos_bound; lia).
  cbn. do 2 f_equal. div_lia.
Qed.

Lemma lit_inv {A} c (k : string -> option A) s r :
  lit c k s = Some r -> exists s', s = String c s' /\ k s' = Some r.
Proof.
  destruct s as [|a s]; cbn; [done|].
  destruct (Ascii.eqb_spec a c) as [->|]; [|done]. eauto.
Qed.

Lemma first_match_inv {A} alts (k : Z -> string -> option A) s r :
  first_match alts k s = Some r ->
  exists a v rest, a ∈ alts /\ a s = Some (v, rest) /\ k v rest = Some r.
Proof.
  induction alts as [|a alts IH]; cbn; [done|].
  destruct (a s) as [[v rest]|] eqn:Ea; cbn.
  - destruct (k v rest) eqn:Ek.
    + intros [= <-]. exists a, v, rest. by rewrite elem_of_cons; eauto.
    + intros (a' & ? & ? & ? & ?)%IH. eexists a', _, _.
      rewrite elem_of_cons. eauto.
  - intros (a' & ? & ? & ? & ?)%IH. eexists a', _, _.
    rewrite elem_of_cons. eauto.
Qed.

(** Prove [P d] for every [d] of a small range by running through it. *)
Ltac enum_range P lo n :=
  let l := eval vm_compute in (seqZ lo n) in
  let H := fresh in
  assert (Forall P l) as H;
  [ repeat constructor
  | change l with (seqZ lo n) in H; rewrite Forall_seqZ in H; apply H; lia ].

(** ** The matcher accepts the strings of the grammar, and only them *)

Lemma re_d_inv a s v rest :
  a ∈ re_d -> a s = Some (v, rest) -> exists t, s = t +:+ rest /\ day_text t v.
Proof.
  unfold re_d, day_text. rewrite !elem_of_cons, elem_of_nil.
  intros [->|[->|[->|[->|[->|[]]]]]] H.
  1-3: apply two_chars_inv in H as [-> Hv]; [|done..]; eval_digits Hv;
       exists (pad2 v); split; [done|]; left; split; [lia|done].
  - apply one_char_inv in H as [-> Hv]. exists (digit1 v). eauto.
  - apply space_char_inv in H as [-> Hv]. exists (String " " (digit1 v)). eauto.
Qed.

Lemma re_m_inv a s v rest :
  a ∈ re_m -> a s = Some (v, rest) -> exists t, s = t +:+ rest /\ month_text t v.
Proof.
  unfold re_m, month_text. rewrite !elem_of_cons, elem_of_nil.
  intros [->|[->|[->|[]]]] H.
  1-2: apply two_chars_inv in H as [-> Hv]; [|done..]; eval_digits Hv;
       exists (pad2 v); split; [done|]; left; split; [lia|done].
  - apply one_char_inv in H as [-> Hv]. exists (digit1 v). eauto.
Qed.

(** Soundness: a match decomposes into three fields of the grammar. *)
Lemma strptime_match_sound s d m y rest :
  strptime_match s = Some (d, m, y, rest) -> dmy_text s d m y rest.
Proof.
  unfold strptime_match.
  intros (a & v & r1 & Ha & Hd & (r2 & -> & Hk)%lit_inv)%first_match_inv.
  apply first_match_inv in Hk as (b & w & r3 & Hb & Hm & (r4 & -> & Hk)%lit_inv).
  destruct (re_Y r4) as [[y' r5]|] eqn:HY; [|done]. cbn in Hk. simplify_eq.
  destruct (re_d_inv _ _ _ _ Ha Hd) as (td & -> & Htd).
  destruct (re_m_inv _ _ _ _ Hb Hm) as (tm & -> & Htm).
  apply re_Y_inv in HY as [-> Hy].
  exists td, tm, (pad4 y). by str_simpl.
Qed.

Section complete.
Context {A : Type} (k : Z -> string -> option A) (s' : string).

Lemma re_d_complete t d :
  day_text t d ->
  first_match re_d (fun v => lit "-" (k v)) (t +:+ String "-" s') = k d s'.
Proof.
  intros [[Hd ->]|[Hd [->| ->]]].
  - enum_range (fun d => first_match re_d (fun v => lit "-" (k v))
                  (pad2 d +:+ String "-" s') = k d s') 1 31;
      cbv; by destruct (k _ _).
  - enum_range (fun d => first_match re_d (fun v => lit "-" (k v))
                  (digit1 d +:+ String "-" s') = k d s') 1 9;
      cbv; by destruct (k _ _).
  - enum_range (fun d => first_match re_d (fun v => lit "-" (k v))
                  (String " " (digit1 d) +:+ String "-" s') = k d s') 1 9;
      cbv; by destruct (k _ _).
Qed.

Lemma re_m_complete t m :
  month_text t m ->
  first_match re_m (fun v => lit "-" (k v)) (t +:+ String "-" s') = k m s'.
Proof.
  intros [[Hd ->]|[Hd ->]].
  - enum_range (fun d => first_match re_m (fun v => lit "-" (k v))
                  (pad2 d +:+ String "-" s') = k d s') 1 12;
      cbv; by destruct (k _ _).
  - enum_range (fun d => first_match re_m (fun v => lit "-" (k v))
                  (digit1 d +:+ String "-" s') = k d s') 1 9;
      cbv; by destruct (k _ _).
Qed.

End complete.

(** Completeness: every string of the grammar is matched, with the fields
    it spells. *)
Lemma strptime_match_complete s d m y rest :
  dmy_text s d m y rest -> strptime_match s = Some (d, m, y, rest).
Proof.
  intros (td & tm & ty & -> & Hd & Hm & [Hy ->]).
  unfold strptime_match.
  change (td +:+ "-" +:+ tm +:+ "-" +:+ pad4 y +:+ rest)
    with (td +:+ String "-" (tm +:+ String "-" (pad4 y +:+ rest))).
  rewrite (re_d_complete _ _ _ _ Hd), (re_m_complete _ _ _ _ Hm).
  by rewrite re_Y_pad4.
Qed.

Lemma strptime_match_iff s d m y rest :
  strptime_match s = Some (d, m, y, rest) <-> dmy_text s d m y rest.
Proof. split; [apply strptime_match_sound | apply strptime_match_complete]. Qed.

(** ** [strptime] and [strftime] *)

Lemma strftime_dmy_text x :
  valid_date x ->
  dmy_text (strftime x) (day x) (month x) (year x) EmptyString.
Proof.
  intros (Hy & Hm & Hd)%valid_date_spec.
  rewrite days_in_month_dim in Hd. pose proof (dim_range (is_leap (year x)) _ Hm).
  exists (pad2 (day x)), (pad2 (month x)), (pad4 (year x)).
  unfold strftime, day_text, month_text, year_text.
  rewrite append_nil_r. repeat split; try lia; left; split; (lia || done).
Qed.

(** Parsing what [strftime] printed gives the date back. *)
Lemma strptime_strftime x : valid_date x -> strptime (strftime x) = Ok x.
Proof.
  intros Hx. unfold strptime.
  rewrite (strptime_match_complete _ _ _ _ _ (strftime_dmy_text x Hx)).
  by apply mk_date_valid.
Qed.

Lemma strftime_inj x1 x2 :
  valid_date x1 -> valid_date x2 -> strftime x1 = strftime x2 -> x1 = x2.
Proof.
  intros H1 H2 Heq. apply (f_equal strptime) in Heq.
  rewrite !strptime_strftime in Heq by done. by simplify_eq.
Qed.

(** What [strptime] accepts: a string of the grammar with nothing after
    it, spelling a date of the calendar. *)
Lemma strptime_ok_iff s x :
  strptime s = Ok x <->
  dmy_text s (day x) (month x) (year x) EmptyString /\ valid_date x.
Proof.
  unfold strptime. split.
  - destruct (strptime_match s) as [[[[d m] y] rest]|] eqn:E; [|done].
    destruct rest; [|done]. intros [-> Hv]%mk_date_ok.
    split; [|done]. by apply strptime_match_sound.
  - intros [Ht Hv]. rewrite (strptime_match_complete _ _ _ _ _ Ht).
    by apply mk_date_valid.
Qed.

Lemma strptime_valid s x : strptime s = Ok x -> valid_date x.
Proof. by intros [_ ?]%strptime_ok_iff. Qed.

Lemma strptime_not_exit s : strptime s <> Exit.
Proof.
  unfold strptime. repeat case_match; try done. apply mk_date_not_exit.
Qed.

(** Every failure of [strptime] is a [ValueError]. *)
Lemma strptime_raise_class s e : strptime s = Raise e -> class_of e = ValueError.
Proof.
  unfold strptime.
  destruct (strptime_match s) as [[[[d m] y] rest]|] eqn:E; [|by intros [= <-]].
  destruct rest; [|by intros [= <-]].
  intros [[_ Hf]|[-> _]]%mk_date_raise; [|done]. exfalso.
  apply strptime_match_sound in E as (td & tm & ty & _ & Hd & Hm & Hy & _).
  assert (1 <= d <= 31) by (destruct Hd as [[? _]|[? _]]; lia).
  assert (1 <= m <= 12) by (destruct Hm as [[? _]|[? _]]; lia).
  unfold fits_int, INT_MIN, INT_MAX in Hf. lia.
Qed.

(** What [strptime] accepts beyond what [strftime] prints are the
    one-digit fields and the space-padded day: a text of ten characters
    that does not start with a space and that [strptime] accepts is the
    text [strftime] prints for its date. *)
Theorem strptime_canonical s x :
  strptime s = Ok x -> String.length s = 10%nat ->
  first_char s <> Some " "%char -> s = strftime x.
Proof.
  intros [(td & tm & ty & -> & Hd & Hm & [_ ->]) _]%strptime_ok_iff.
  rewrite append_nil_r. unfold strftime.
  destruct Hd as [[_ ->]|[_ [-> | ->]]], Hm as [[_ ->]|[_ ->]];
    cbn; intros Hlen Hsp; done.
Qed.

(** C37. Printing a date with [strftime("%d-%m-%Y")] and reading the
    text with [strptime] gives the date back, and different dates print
    differently. *)
Theorem strftime_strptime_roundtrip x y :
  valid_date x -> valid_date y ->
  strptime (strftime x) = Ok x /\ (strftime x = strftime y -> x = y).
Proof.
  intros Hx Hy. split; [by apply strptime_strftime|].
  intros Heq. pose proof (strptime_strftime x Hx) as H1.
  rewrite Heq, strptime_strftime in H1 by done. congruence.
Qed.

#[export] Hint Resolve strptime_valid strptime_not_exit : py.
#[export] Hint Rewrite strptime_strftime using done : py.

(** ** Witnesses *)

Lemma strptime_canonical_witness : "05-01-2024" = strftime (Date 2024 1 5).
Proof. by apply (strptime_canonical "05-01-2024" (Date 2024 1 5)). Defined.

Lemma strftime_strptime_roundtrip_witness :
  strptime (strftime (Date 2023 11 17)) = Ok (Date 2023 11 17).
Proof.
  by destruct (strftime_strptime_roundtrip (Date 2023 11 17) (Date 2023 11 18)).
Defined.

(** The texts [strptime] accepts that [strftime] never prints. *)
Example strptime_lenient :
  strptime "5-1-2024" = Ok (Date 2024 1 5) /\
  strptime " 5-01-2024" = Ok (Date 2024 1 5) /\
  strptime "05-01-24" = Raise (TimeDataMismatch "05-01-24").
Proof. vm_compute. done. Qed.
