(* ===== verification/Html.v ===== *)
(** * Html: the BeautifulSoup tree and the three queries the sources make

    [BeautifulSoup(text, 'html.parser')] turns markup into a tree of tags
    and strings.  The sources then call
    - [soup.find_all(class_=c)]             ([find_all_class]),
    - [soup.find('meta', {'name': v})]      ([find_tag_attr]),
    - [element.get_text(strip=True)]        ([get_text_strip]),
    - [tag['content']]                      ([tag_item]).
    The parser itself is the interface [HtmlParser]: theorems about the
    callers hold for every parser. *)

From stdpp Require Import base tactics list strings gmap.
From Stdlib Require Import ZArith Lia Ascii.
From S2P Require Import Prelude PyString.

Local Open Scope py_scope.

(** ** The tree *)

(** The class of a string of the tree: the queries tell plain text and
    CDATA from comments, declarations and the contents of [script],
    [style], [template] and ruby elements. *)
Inductive string_kind :=
| NavigableString
| CData
| Comment
| Declaration
| Doctype
| ProcessingInstruction
| Stylesheet
| Script
| TemplateString
| RubyTextString
| RubyParenthesisString.

#[export] Instance string_kind_eq_dec : EqDecision string_kind.
Proof. solve_decision. Defined.

(** The value of an attribute: a string, or the list of the
    whitespace-separated values of a multi-valued attribute ([class]). *)
Inductive attr_value :=
| AStr (s : string)
| AList (l : list string).

#[export] Instance attr_value_eq_dec : EqDecision attr_value.
Proof. solve_decision. Defined.

Inductive node :=
| Text (kind : string_kind) (s : string)
| Tag (name : string) (attrs : gmap string attr_value) (children : list node).

(** The parsed document: the children of the soup object. *)
Definition soup := list node.

(** What one component (the parser library) promises the others. *)
Class HtmlParser := html_parse : string -> soup.

(** ** Traversal *)

(** [element.descendants]: the nodes below [n], in document order. *)
Fixpoint descendants (n : node) : list node :=
  match n with
  | Text _ _ => []
  | Tag _ _ cs =>
      (fix go (l : list node) : list node :=
         match l with
         | [] => []
         | c :: l' => c :: descendants c ++ go l'
         end) cs
  end.

Definition descendants_list (cs : list node) : list node :=
  flat_map (fun c => c :: descendants c) cs.

(** ** Matching *)

(** bs4 matches a wanted string against an attribute value: against the
    string itself, or against any item of a list and against the items
    joined by spaces. *)
Definition value_matches (want : string) (v : attr_value) : bool :=
  match v with
  | AStr s => bool_decide (s = want)
  | AList l => bool_decide (want ∈ l) || bool_decide (join " " l = want)
  end.

Definition attr_matches (attr want : string) (n : node) : bool :=
  match n with
  | Tag _ attrs _ =>
      match attrs !! attr with
      | Some v => value_matches want v
      | None => false
      end
  | Text _ _ => false
  end.

Definition has_class (c : string) (n : node) : bool := attr_matches "class" c n.

Definition is_tag (name : string) (n : node) : bool :=
  match n with
  | Tag name' _ _ => bool_decide (name' = name)
  | Text _ _ => false
  end.

(** [soup.find_all(class_=c)] *)
Definition find_all_class (c : string) (doc : soup) : list node :=
  List.filter (has_class c) (descendants_list doc).

(** [soup.find(name, {attr: want})]: the first match, or [None]. *)
Definition find_tag_attr (name attr want : string) (doc : soup) : option node :=
  head (List.filter (fun n => is_tag name n && attr_matches attr want n)
          (descendants_list doc)).

(** [tag[key]]: a missing attribute is a [KeyError]. *)
Definition tag_item (n : node) (key : string) : outcome attr_value :=
  match n with
  | Tag _ attrs _ => of_option (attrs !! key) (MissingKey key)
  | Text _ _ => Raise (MissingKey key)
  end.

(** ** Text extraction *)

(** The classes of strings [get_text] keeps below a tag of this name. *)
Definition interesting (name : string) (k : string_kind) : bool :=
  if bool_decide (name = "style") then bool_decide (k = Stylesheet)
  else if bool_decide (name = "script") then bool_decide (k = Script)
  else if bool_decide (name = "template") then bool_decide (k = TemplateString)
  else if bool_decide (name = "rt") then bool_decide (k = RubyTextString)
  else if bool_decide (name = "rp") then bool_decide (k = RubyParenthesisString)
  else bool_decide (k = NavigableString) || bool_decide (k = CData).

(** The strings of [l] that [_all_strings(strip=True)] yields: of an
    interesting class, stripped, and not empty after stripping. *)
Fixpoint stripped_strings (keep : string_kind -> bool) (l : list node) : list string :=
  match l with
  | [] => []
  | Text k s :: l' =>
      if keep k && negb (bool_decide (strip s = EmptyString))
      then strip s :: stripped_strings keep l'
      else stripped_strings keep l'
  | Tag _ _ _ :: l' => stripped_strings keep l'
  end.

(** [element.get_text(strip=True)]: the kept strings, joined by the empty
    separator. *)
Definition get_text_strip (n : node) : string :=
  match n with
  | Tag name _ _ => join EmptyString (stripped_strings (interesting name) (descendants n))
  | Text k s =>
      if bool_decide (k = NavigableString) || bool_decide (k = CData)
      then strip s else EmptyString
  end.

(** What both extractions of [IDataUtilities] compute from the parsed
    document. *)
Definition class_texts (c : string) (doc : soup) : list string :=
  get_text_strip <$> find_all_class c doc.

(** An element with classes [cls] and one plain string in it. *)
Definition leaf (name : string) (cls : list string) (text : string) : node :=
  Tag name {["class" := AList cls]} [Text NavigableString text].

(** ** A parser given by a table, for running the model on examples *)

Definition table_parser (tbl : list (string * soup)) : HtmlParser :=
  fun text =>
    match List.find (fun p => bool_decide (p.1 = text)) tbl with
    | Some p => p.2
    | None => []
    end.

(** ** Lemmas *)

Lemma descendants_Tag name attrs cs :
  descendants (Tag name attrs cs) = descendants_list cs.
Proof.
  cbn. induction cs as [|c cs IH]; [done|]. cbn. by rewrite IH.
Qed.

Lemma descendants_list_app l1 l2 :
  descendants_list (l1 ++ l2) = descendants_list l1 ++ descendants_list l2.
Proof. unfold descendants_list. by rewrite flat_map_app. Qed.

Lemma descendants_list_cons c l :
  descendants_list (c :: l) = c :: descendants c ++ descendants_list l.
Proof. reflexivity. Qed.

(** Matches come in document order: [find_all] on a concatenation is the
    concatenation of the results. *)
Lemma find_all_class_app c l1 l2 :
  find_all_class c (l1 ++ l2) = find_all_class c l1 ++ find_all_class c l2.
Proof.
  unfold find_all_class. by rewrite descendants_list_app, List.filter_app.
Qed.

Lemma find_all_class_spec c doc n :
  n ∈ find_all_class c doc <-> n ∈ descendants_list doc /\ has_class c n = true.
Proof.
  unfold find_all_class. rewrite !list_elem_of_In, List.filter_In. done.
Qed.

Lemma find_all_class_sublist c doc :
  sublist (find_all_class c doc) (descendants_list doc).
Proof. apply filter_sublist. Qed.

Lemma find_all_class_tags c doc :
  Forall (fun n => exists name attrs cs, n = Tag name attrs cs) (find_all_class c doc).
Proof.
  apply Forall_forall. intros n [_ Hc]%find_all_class_spec.
  destruct n; [done|]. eauto.
Qed.

Lemma has_class_item c name attrs cs l :
  attrs !! "class" = Some (AList l) -> c ∈ l ->
  has_class c (Tag name attrs cs) = true.
Proof.
  intros Ha Hc. unfold has_class, attr_matches, value_matches. rewrite Ha.
  by rewrite bool_decide_eq_true_2.
Qed.

Lemma has_class_missing c name attrs cs :
  attrs !! "class" = None -> has_class c (Tag name attrs cs) = false.
Proof. intros Ha. unfold has_class, attr_matches. by rewrite Ha. Qed.

Lemma tag_item_raise n key e : tag_item n key = Raise e -> e = MissingKey key.
Proof.
  destruct n as [|name attrs cs]; cbn; [by intros [= <-]|].
  destruct (attrs !! key); cbn; [done|]. by intros [= <-].
Qed.

Lemma tag_item_not_exit n key : tag_item n key <> Exit.
Proof. destruct n as [|name attrs cs]; cbn; [done|]. by destruct (attrs !! key). Qed.

Lemma find_tag_attr_none name attr want doc :
  find_tag_attr name attr want doc = None <->
  Forall (fun n => is_tag name n && attr_matches attr want n = false)
         (descendants_list doc).
Proof.
  unfold find_tag_attr. rewrite head_None.
  induction (descendants_list doc) as [|n l IH]; cbn.
  - split; [constructor|done].
  - destruct (is_tag name n && attr_matches attr want n) eqn:E.
    + split; [done|]. inversion 1; congruence.
    + rewrite IH. split; [by constructor|by inversion 1].
Qed.

Lemma find_tag_attr_some name attr want doc n :
  find_tag_attr name attr want doc = Some n ->
  n ∈ descendants_list doc /\ is_tag name n = true /\ attr_matches attr want n = true.
Proof.
  unfold find_tag_attr. intros H%head_Some_elem_of.
  apply list_elem_of_In, List.filter_In in H as [H1 H2%andb_prop].
  by rewrite list_elem_of_In.
Qed.

(** Every text that [get_text(strip=True)] collects is stripped and not
    empty. *)
Lemma stripped_strings_spec keep l :
  Forall (fun s => stripped s /\ s <> EmptyString) (stripped_strings keep l).
Proof.
  induction l as [|[k s|name attrs cs] l IH]; cbn; [done| |done].
  destruct (keep k); cbn; [|done]. case_bool_decide; cbn; [done|].
  constructor; [|done]. split; [apply strip_stripped|done].
Qed.

(** A tag whose only child is one plain string has that string,
    stripped, as its text. *)
Lemma get_text_strip_leaf name attrs s :
  interesting name NavigableString = true ->
  get_text_strip (Tag name attrs [Text NavigableString s]) = strip s.
Proof.
  intros Hint. unfold get_text_strip. rewrite descendants_Tag. cbn.
  rewrite Hint. cbn. by case_bool_decide.
Qed.

(** A tag with no string below it has the empty text. *)
Lemma get_text_strip_empty name attrs : get_text_strip (Tag name attrs []) = EmptyString.
Proof. reflexivity. Qed.

(** ** The texts of the elements of a class *)

Lemma class_texts_app c d1 d2 :
  class_texts c (d1 ++ d2) = class_texts c d1 ++ class_texts c d2.
Proof. unfold class_texts. by rewrite find_all_class_app, fmap_app. Qed.

Lemma class_texts_nil c : class_texts c [] = [].
Proof. reflexivity. Qed.

Lemma class_texts_elem c doc s :
  s ∈ class_texts c doc <->
  exists n, n ∈ descendants_list doc /\ has_class c n = true /\ s = get_text_strip n.
Proof.
  unfold class_texts. rewrite list_elem_of_fmap.
  setoid_rewrite find_all_class_spec. naive_solver.
Qed.

Lemma class_texts_none c doc :
  Forall (fun n => has_class c n = false) (descendants_list doc) ->
  class_texts c doc = [].
Proof.
  unfold class_texts, find_all_class. intros H.
  induction H as [|n l Hn _ IH]; cbn; [done|]. by rewrite Hn.
Qed.

Lemma has_class_leaf c name cls text :
  has_class c (leaf name cls text) =
  bool_decide (c ∈ cls) || bool_decide (join " " cls = c).
Proof.
  unfold has_class, leaf, attr_matches. by rewrite lookup_singleton_eq.
Qed.

Lemma class_texts_leaf c name cls t :
  c ∈ cls -> interesting name NavigableString = true ->
  class_texts c [leaf name cls t] = [strip t].
Proof.
  intros Hc Hint. unfold class_texts, find_all_class.
  change (descendants_list [leaf name cls t])
    with [leaf name cls t; Text NavigableString t].
  cbn [List.filter]. rewrite has_class_leaf, bool_decide_eq_true_2 by done.
  cbn [orb has_class attr_matches fmap list_fmap]. f_equal.
  by apply get_text_strip_leaf.
Qed.

(** A document made of leaves of class [c]: the texts are the stripped
    strings of the leaves, in order, an empty one included. *)
Lemma class_texts_leaves c name cls texts :
  c ∈ cls -> interesting name NavigableString = true ->
  class_texts c (leaf name cls <$> texts) = strip <$> texts.
Proof.
  intros Hc Hint. induction texts as [|t texts IH]; [done|].
  change (leaf name cls <$> t :: texts)
    with ([leaf name cls t] ++ (leaf name cls <$> texts)).
  by rewrite class_texts_app, IH, class_texts_leaf.
Qed.

(** A class name has no blank in it and is not empty; such a name
    matches a leaf exactly when it is one of the classes of the leaf. *)
Lemma has_class_leaf_name c name cls text :
  count_char " " c = 0%nat -> c <> EmptyString ->
  has_class c (leaf name cls text) = bool_decide (c ∈ cls).
Proof.
  intros Hc Hne. rewrite has_class_leaf.
  destruct (decide (c ∈ cls)) as [Hin|Hin].
  - by rewrite (bool_decide_eq_true_2 _ Hin).
  - rewrite (bool_decide_eq_false_2 _ Hin). cbn. apply bool_decide_eq_false_2.
    intros Hj. by apply Hin, join_blank_elem.
Qed.

Lemma class_texts_leaf_other c name cls t :
  count_char " " c = 0%nat -> c <> EmptyString -> c ∉ cls ->
  class_texts c [leaf name cls t] = [].
Proof.
  intros Hc Hne Hin. apply class_texts_none.
  change (descendants_list [leaf name cls t])
    with [leaf name cls t; Text NavigableString t].
  repeat constructor. rewrite has_class_leaf_name by done.
  by apply bool_decide_eq_false_2.
Qed.

(** A document made of buttons, each with its classes and its text:
    the texts of class [c] are the stripped texts of the buttons that
    carry [c], in document order. *)
Lemma class_texts_buttons c name (buttons : list (list string * string)) :
  count_char " " c = 0%nat -> c <> EmptyString ->
  interesting name NavigableString = true ->
  class_texts c ((fun b => leaf name b.1 b.2) <$> buttons) =
  strip <$> (snd <$> filter (fun b => c ∈ b.1) buttons).
Proof.
  intros Hc Hne Hint. induction buttons as [|[cls t] buttons IH]; [done|].
  change ((fun b => leaf name b.1 b.2) <$> (cls, t) :: buttons)
    with ([leaf name cls t] ++ ((fun b => leaf name b.1 b.2) <$> buttons)).
  rewrite class_texts_app, IH, filter_cons. cbn [fst]. case_decide.
  - by rewrite class_texts_leaf.
  - by rewrite class_texts_leaf_other.
Qed.

(** ** The text of an element has no whitespace at its ends *)

Lemma first_char_append s t :
  s <> EmptyString -> first_char (s +:+ t) = first_char s.
Proof. by destruct s. Qed.

Lemma last_char_append s t :
  t <> EmptyString -> last_char (s +:+ t) = last_char t.
Proof.
  intros Ht. induction s as [|c s IH]; [done|].
  rewrite append_cons. cbn. rewrite IH.
  destruct (s +:+ t) eqn:E; [|done].
  destruct s, t; done.
Qed.

Lemma stripped_nonempty_chars s :
  stripped s -> s <> EmptyString ->
  exists a b, first_char s = Some a /\ last_char s = Some b /\
              is_space a = false /\ is_space b = false.
Proof.
  unfold stripped. intros H Hne.
  destruct (first_char s) as [a|] eqn:Ha; [|by destruct s].
  destruct (last_char s) as [b|] eqn:Hb; [|done].
  exists a, b. naive_solver.
Qed.

Lemma join_empty_stripped l :
  Forall (fun s => stripped s /\ s <> EmptyString) l ->
  stripped (join EmptyString l) /\ (l <> [] -> join EmptyString l <> EmptyString).
Proof.
  induction 1 as [|s l [Hs Hne] Hl [IH1 IH2]]; [done|].
  destruct l as [|s' l]; [done|].
  change (join EmptyString (s :: s' :: l))
    with (s +:+ EmptyString +:+ join EmptyString (s' :: l)).
  rewrite append_nil. specialize (IH2 ltac:(done)).
  destruct (stripped_nonempty_chars _ Hs Hne) as (a & _ & Ha & _ & Hsa & _).
  destruct (stripped_nonempty_chars _ IH1 IH2) as (_ & b & _ & Hb & _ & Hsb).
  split; [|by destruct s].
  unfold stripped. by rewrite first_char_append, last_char_append, Ha, Hb.
Qed.

(** The text that [get_text(strip=True)] returns is stripped. *)
Lemma get_text_strip_stripped n : stripped (get_text_strip n).
Proof.
  destruct n as [k s|name attrs cs]; cbn.
  - case_match; [apply strip_stripped|done].
  - apply join_empty_stripped, stripped_strings_spec.
Qed.
