(* ===== verification/Utils.v ===== *)
(** * Utils: the class [IDataUtilities] of [src/core/utils.py]

    - [parse_available_dates]  the stripped texts of the elements of class
                               [form-control], in document order;
    - [remove_dates_before]    the entries strictly earlier than the cutoff;
    - [parse_available_hours]  the stripped texts of the elements whose
                               class the slot type selects;
    - [get_dates_between]      the days from a start to an end, inclusive.

    [date.today()] is the argument [today] of [get_dates_between]. *)

From stdpp Require Import base tactics list strings numbers.
From Stdlib Require Import ZArith Lia Ascii.
From S2P Require Import Prelude PyString Calendar DateFormat Html.

Local Open Scope Z_scope.
Local Open Scope py_scope.

(** ** The date filter and the date range *)

(** The condition of the comprehension in [remove_dates_before]. *)
Definition is_before (allow_before_date : date) (date : string) : outcome bool :=
  d <- strptime date ;; Ok (date_ltb d allow_before_date).

Definition remove_dates_before (dates : list string) (allow_before : string)
    : outcome (list string) :=
  allow_before_date <- strptime allow_before ;;
  filter_m (is_before allow_before_date) dates.

(** [day, month, year = l]: exactly three values. *)
Definition unpack3 (l : list string) : outcome (string * string * string) :=
  match l with
  | [a; b; c] => Ok (a, b, c)
  | _ => Raise (UnpackMismatch (length l))
  end.

(** [day, month, year = s.split("-"); date(int(year), int(month), int(day))] *)
Definition split_date (s : string) : outcome date :=
  p <- unpack3 (split_on "-" s) ;;
  let '(day, month, year) := p in
  y <- py_int year ;;
  m <- py_int month ;;
  d <- py_int day ;;
  mk_date y m d.

(** The start of the range: the current day, or the day [from_date]
    spells. *)
Definition start_of (today : date) (from_date : string) : outcome date :=
  if bool_decide (from_date = "today") then Ok today else split_date from_date.

Definition get_dates_between (today : date) (from_date until_date : string)
    : outcome (list string) :=
  start_date <- start_of today from_date ;;
  end_date <- split_date until_date ;;
  let time_difference := date_sub_days end_date start_date in
  dates <- traverse (date_add_days start_date) (seqZ 0 (time_difference + 1)) ;;
  Ok (strftime <$> dates).

(** ** The two extractions *)

(** The class that a slot type selects. *)
Definition slot_class (time_slot_type : string) : string :=
  if bool_decide (time_slot_type = "free") then "noPrime"
  else if bool_decide (time_slot_type = "prime") then "yesPrime"
  else if bool_decide (time_slot_type = "vip") then "yesVip"
  else "getdatebtnhour".

Section extraction.
Context `{!HtmlParser}.

Definition parse_available_dates (html_code : string) : list string :=
  get_text_strip <$> find_all_class "form-control" (html_parse html_code).

Definition parse_available_hours (html_code time_slot_type : string) : list string :=
  get_text_strip <$> find_all_class (slot_class time_slot_type) (html_parse html_code).

End extraction.

(** The reference: an entry is kept when it spells a date strictly earlier
    than [c]. *)
Definition earlier_than (c : date) (s : string) : bool :=
  match strptime s with
  | Ok d => date_ltb d c
  | _ => false
  end.

(** The [i]-th day from [a]. *)
Definition day_from (a : date) (i : Z) : date := fromordinal (toordinal a + i).

(** ** [remove_dates_before] *)

Section remove_dates_before.
Context (dates : list string) (allow_before : string).

Lemma is_before_earlier_than c s :
  is_ok (strptime s) = true -> is_before c s = Ok (earlier_than c s).
Proof.
  unfold is_before, earlier_than. by destruct (strptime s).
Qed.

Lemma is_before_ok_inv c s b :
  is_before c s = Ok b -> is_ok (strptime s) = true /\ b = earlier_than c s.
Proof.
  unfold is_before, earlier_than. destruct (strptime s); cbn; [|done..].
  by intros [= <-].
Qed.

(** When the cutoff and every entry parse, the result is the filter. *)
Lemma remove_dates_before_total c :
  strptime allow_before = Ok c ->
  Forall (fun s => is_ok (strptime s) = true) dates ->
  remove_dates_before dates allow_before = Ok (List.filter (earlier_than c) dates).
Proof.
  intros Hc Hall. unfold remove_dates_before. rewrite Hc. cbn.
  apply filter_m_pure. eapply Forall_impl; [|exact Hall].
  intros s. apply is_before_earlier_than.
Qed.

(** When the call returns, the cutoff and every entry parsed, and the
    result is the filter. *)
Lemma remove_dates_before_ok_inv r :
  remove_dates_before dates allow_before = Ok r ->
  exists c, strptime allow_before = Ok c /\
            Forall (fun s => is_ok (strptime s) = true) dates /\
            r = List.filter (earlier_than c) dates.
Proof.
  unfold remove_dates_before.
  destruct (strptime allow_before) as [c| |] eqn:Hc; cbn; [|done..].
  intros (q & Hq & ->)%filter_m_ok_inv. exists c. split; [done|].
  assert (Forall (fun s => is_ok (strptime s) = true /\ q s = earlier_than c s) dates)
    as Hall by (eapply Forall_impl; [|exact Hq]; intros s; apply is_before_ok_inv).
  split; [eapply Forall_impl; [|exact Hall]; by intros ? [? _]|].
  clear Hq. induction Hall as [|s l [_ Hs] _ IH]; cbn; [done|].
  by rewrite Hs, IH.
Qed.


Lemma earlier_than_spec c s :
  valid_date c ->
  earlier_than c s = true <->
  exists d, strptime s = Ok d /\ toordinal d < toordinal c.
Proof.
  intros Hc. unfold earlier_than. destruct (strptime s) as [d| |] eqn:Hs.
  - rewrite date_ltb_toordinal by eauto with py. naive_solver.
  - naive_solver.
  - naive_solver.
Qed.

(** C2. [remove_dates_before] returns a list exactly when the cutoff and
    every entry spell a date, and the list is then the entries that are
    strictly earlier than the cutoff, in their original order. *)
Theorem remove_dates_before_spec r :
  remove_dates_before dates allow_before = Ok r <->
  exists c, strptime allow_before = Ok c /\
            Forall (fun s => is_ok (strptime s) = true) dates /\
            r = List.filter (earlier_than c) dates.
Proof.
  split; [apply remove_dates_before_ok_inv|].
  intros (c & Hc & Hall & ->). by apply remove_dates_before_total.
Qed.

(** Every entry that [remove_dates_before] returns spells a date strictly
    earlier than the cutoff. *)
Lemma remove_dates_before_strict r c :
  remove_dates_before dates allow_before = Ok r ->
  strptime allow_before = Ok c ->
  Forall (fun s => exists d, strptime s = Ok d /\ toordinal d < toordinal c) r.
Proof.
  intros (c' & Hc' & _ & ->)%remove_dates_before_ok_inv Hc.
  assert (c' = c) as -> by congruence.
  eapply Forall_impl; [|apply filter_Forall].
  intros s. apply earlier_than_spec; eauto with py.
Qed.

Lemma remove_dates_before_sublist_aux r :
  remove_dates_before dates allow_before = Ok r -> sublist r dates.
Proof.
  intros (c & _ & _ & ->)%remove_dates_before_ok_inv. apply filter_sublist.
Qed.

(** C25. The result of [remove_dates_before] is a subsequence of its
    input: entries keep their relative order and none is invented.
    Filtering the result again with the same cutoff changes nothing. *)
Theorem remove_dates_before_sublist r :
  remove_dates_before dates allow_before = Ok r ->
  sublist r dates /\ remove_dates_before r allow_before = Ok r.
Proof.
  intros Hr. split; [by apply remove_dates_before_sublist_aux|].
  destruct (remove_dates_before_ok_inv r Hr) as (c & Hc & Hall & ->).
  unfold remove_dates_before. rewrite Hc. cbn.
  rewrite (filter_m_pure _ (earlier_than c)).
  - f_equal. apply forallb_filter_id, forallb_filter.
  - apply Forall_forall. intros s Hs.
    apply List.filter_In in Hs as [Hs _]. apply is_before_earlier_than.
    by apply (proj1 (Forall_forall _ _) Hall).
Qed.

(** No entry earlier than the cutoff is dropped. *)
Lemma remove_dates_before_keeps r c s d :
  remove_dates_before dates allow_before = Ok r ->
  strptime allow_before = Ok c ->
  s ∈ dates -> strptime s = Ok d -> toordinal d < toordinal c ->
  s ∈ r.
Proof.
  intros (c' & Hc' & _ & ->)%remove_dates_before_ok_inv Hc Hin Hs Hlt.
  assert (c' = c) as -> by congruence.
  apply list_elem_of_In, List.filter_In. split; [by apply list_elem_of_In|].
  apply earlier_than_spec; eauto with py.
Qed.

(** A cutoff that does not parse is raised whatever the entries are, even
    when there is none. *)
Lemma remove_dates_before_bad_cutoff e :
  strptime allow_before = Raise e ->
  remove_dates_before dates allow_before = Raise e.
Proof. intros H. unfold remove_dates_before. by rewrite H. Qed.

(** C16. An entry is in the result of [remove_dates_before] exactly when
    it is an entry of the input that spells a date strictly earlier than
    the cutoff. *)
Theorem remove_dates_before_elem r c s :
  remove_dates_before dates allow_before = Ok r ->
  strptime allow_before = Ok c ->
  s ∈ r <->
  s ∈ dates /\ exists d, strptime s = Ok d /\ toordinal d < toordinal c.
Proof.
  intros Hr Hc. split.
  - intros Hs. split.
    + eapply elem_of_sublist; [done|]. by apply remove_dates_before_sublist_aux.
    + pose proof (remove_dates_before_strict r c Hr Hc) as H.
      by apply (proj1 (list.Forall_forall _ _) H).
  - intros [Hs (d & Hd & Hlt)]. by eapply remove_dates_before_keeps.
Qed.

End remove_dates_before.

(** The first entry that does not parse aborts the whole filter with
    its exception: nothing is skipped. *)
Theorem remove_dates_before_bad_entry l1 x l2 allow_before c e :
  strptime allow_before = Ok c ->
  Forall (fun s => is_ok (strptime s) = true) l1 ->
  strptime x = Raise e ->
  remove_dates_before (l1 ++ x :: l2) allow_before = Raise e.
Proof.
  intros Hc Hl1 Hx. unfold remove_dates_before. rewrite Hc. cbn.
  apply filter_m_raise.
  - eapply Forall_impl; [|exact Hl1]. intros s Hs.
    by rewrite (is_before_earlier_than _ _ Hs).
  - unfold is_before. by rewrite Hx.
Qed.

Lemma is_before_raise_inv c s e : is_before c s = Raise e -> strptime s = Raise e.
Proof. unfold is_before. destruct (strptime s); cbn; congruence. Qed.

Lemma is_before_not_exit c s : is_before c s <> Exit.
Proof.
  unfold is_before. pose proof (strptime_not_exit s). by destruct (strptime s).
Qed.

(** An exception of [remove_dates_before] is the exception of
    [strptime] on the cutoff or on an entry. *)
Lemma remove_dates_before_raise_inv dates allow_before e :
  remove_dates_before dates allow_before = Raise e ->
  strptime allow_before = Raise e \/ exists s, s ∈ dates /\ strptime s = Raise e.
Proof.
  unfold remove_dates_before.
  destruct (strptime allow_before) as [c|e'|]; cbn; [|intros [= ->]; by left|done].
  intros (s & Hin & Hs%is_before_raise_inv)%filter_m_raise_inv. eauto.
Qed.

Lemma remove_dates_before_not_exit dates allow_before :
  remove_dates_before dates allow_before <> Exit.
Proof.
  unfold remove_dates_before. pose proof (strptime_not_exit allow_before).
  destruct (strptime allow_before) as [c|e'|]; cbn; [|done..].
  apply filter_m_not_exit, Forall_forall. intros s _. apply is_before_not_exit.
Qed.

(** [remove_dates_before] never terminates the process, and every
    exception it raises is a [ValueError]. *)
Theorem remove_dates_before_errors dates allow_before :
  remove_dates_before dates allow_before <> Exit /\
  forall e, remove_dates_before dates allow_before = Raise e ->
            class_of e = ValueError.
Proof.
  split; [apply remove_dates_before_not_exit|].
  intros e [He|(s & _ & He)]%remove_dates_before_raise_inv;
    by eapply strptime_raise_class.
Qed.

(** ** [get_dates_between] *)

Lemma split_on_strftime x :
  split_on "-" (strftime x) = [pad2 (day x); pad2 (month x); pad4 (year x)].
Proof.
  unfold strftime. rewrite !(append_cons "-" EmptyString), !append_nil.
  rewrite !split_on_app by apply pad2_no_dash.
  by rewrite split_on_no_sep by apply pad4_no_dash.
Qed.

(** Splitting on dashes and reading the three numbers also gives back a
    printed date. *)
Lemma split_date_strftime x : valid_date x -> split_date (strftime x) = Ok x.
Proof.
  intros Hx. unfold split_date. rewrite split_on_strftime. cbn.
  apply valid_date_spec in Hx as Hr. destruct Hr as (Hy & Hm & Hd).
  rewrite days_in_month_dim in Hd.
  pose proof (dim_range (is_leap (year x)) _ Hm).
  rewrite py_int_pad4, py_int_pad2, py_int_pad2 by lia. cbn.
  by apply mk_date_valid.
Qed.

Lemma split_date_valid s x : split_date s = Ok x -> valid_date x.
Proof.
  unfold split_date. destruct (unpack3 _) as [[[? ?] ?]| |]; cbn; [|done..].
  repeat (case_outcome; [|done..]). by intros [_ ?]%mk_date_ok.
Qed.

Lemma start_of_valid today from_date a :
  valid_date today -> start_of today from_date = Ok a -> valid_date a.
Proof.
  unfold start_of. case_bool_decide; [by intros ? [= <-]|].
  intros _. apply split_date_valid.
Qed.

Lemma start_of_today today : start_of today "today" = Ok today.
Proof. reflexivity. Qed.

Lemma add_days_in_range a b :
  valid_date a -> valid_date b ->
  Forall (fun i => date_add_days a i = Ok (day_from a i))
         (seqZ 0 (date_sub_days b a + 1)).
Proof.
  intros Ha Hb. apply Forall_seqZ. intros i Hi. unfold date_sub_days in Hi.
  pose proof (toordinal_range a Ha). pose proof (toordinal_range b Hb).
  apply date_add_days_ok; [done|lia].
Qed.

Section day_from.
Context (a : date) (Ha : valid_date a).

Lemma day_from_0 : day_from a 0 = a.
Proof using Ha. unfold day_from. by rewrite Z.add_0_r, fromordinal_toordinal. Qed.

Lemma day_from_valid i :
  1 <= toordinal a + i <= MAXORDINAL -> valid_date (day_from a i).
Proof. apply fromordinal_valid. Qed.

Lemma toordinal_day_from i :
  1 <= toordinal a + i <= MAXORDINAL -> toordinal (day_from a i) = toordinal a + i.
Proof. apply toordinal_fromordinal. Qed.

Lemma day_from_sub b : valid_date b -> day_from a (date_sub_days b a) = b.
Proof.
  intros Hb. unfold day_from, date_sub_days.
  replace (toordinal a + (toordinal b - toordinal a)) with (toordinal b) by lia.
  by apply fromordinal_toordinal.
Qed.

Lemma day_from_succ i :
  1 <= toordinal a + i < MAXORDINAL ->
  day_from a (i + 1) = next_day (day_from a i).
Proof.
  intros Hi. assert (valid_date (day_from a i)) as Hv by (apply day_from_valid; lia).
  assert (valid_date (day_from a (i + 1))) as Hv' by (apply day_from_valid; lia).
  assert (day_from a i <> Date 9999 12 31) as Hne.
  { intros Heq. apply (f_equal toordinal) in Heq.
    rewrite toordinal_day_from in Heq by lia.
    change (toordinal (Date 9999 12 31)) with MAXORDINAL in Heq. lia. }
  apply toordinal_inj; [done|by apply next_day_valid|].
  rewrite toordinal_next_day, !toordinal_day_from by (done || lia). lia.
Qed.

End day_from.

Section get_dates_between.
Context (today : date) (from_date until_date : string) (a b : date).
Context (Htoday : valid_date today).
Context (Hfrom : start_of today from_date = Ok a).
Context (Huntil : split_date until_date = Ok b).

(** When both ends are read, the result is the printed days [a], [a]+1,
    ... up to [b].  No date arithmetic fails on the way. *)
Lemma get_dates_between_ok :
  get_dates_between today from_date until_date =
  Ok ((fun i => strftime (day_from a i)) <$> seqZ 0 (date_sub_days b a + 1)).
Proof using Htoday Hfrom Huntil.
  unfold get_dates_between. rewrite Hfrom, Huntil. cbn.
  pose proof (start_of_valid _ _ _ Htoday Hfrom) as Ha.
  pose proof (split_date_valid _ _ Huntil) as Hb.
  rewrite (traverse_pure _ (day_from a)) by by apply add_days_in_range.
  cbn. by rewrite <-list_fmap_compose.
Qed.


(** The range has one entry per day from [a] to [b] inclusive. *)
Lemma get_dates_between_length r :
  get_dates_between today from_date until_date = Ok r ->
  length r = Z.to_nat (date_sub_days b a + 1).
Proof using Htoday Hfrom Huntil.
  rewrite get_dates_between_ok. intros [= <-].
  by rewrite length_fmap, length_seqZ.
Qed.

(** C24. When the end precedes the start the range is empty, and no error
    is raised. *)
Theorem get_dates_between_empty :
  toordinal b < toordinal a ->
  get_dates_between today from_date until_date = Ok [].
Proof using Htoday Hfrom Huntil.
  intros Hlt. rewrite get_dates_between_ok.
  rewrite seqZ_nil; [done|]. unfold date_sub_days. lia.
Qed.

(** The entry at position [i] is the [i]-th day after the start, printed. *)
Lemma get_dates_between_lookup r (i : nat) :
  get_dates_between today from_date until_date = Ok r ->
  Z.of_nat i <= date_sub_days b a ->
  r !! i = Some (strftime (day_from a (Z.of_nat i))).
Proof using Htoday Hfrom Huntil.
  rewrite get_dates_between_ok. intros [= <-] Hi.
  rewrite list_lookup_fmap, lookup_seqZ_lt by lia. done.
Qed.

(** C34. Every string of the range parses back, with the strict format of
    [remove_dates_before], to a day of the calendar between the start and
    the end. *)
Theorem get_dates_between_parse_back r :
  get_dates_between today from_date until_date = Ok r ->
  Forall (fun s => exists d, strptime s = Ok d /\
                   toordinal a <= toordinal d <= toordinal b) r.
Proof using Htoday Hfrom Huntil.
  rewrite get_dates_between_ok. intros [= <-].
  pose proof (start_of_valid _ _ _ Htoday Hfrom) as Ha.
  pose proof (split_date_valid _ _ Huntil) as Hb.
  pose proof (toordinal_range a Ha). pose proof (toordinal_range b Hb).
  apply Forall_fmap, Forall_seqZ. intros i Hi. unfold date_sub_days in Hi.
  exists (day_from a i). cbn.
  rewrite strptime_strftime by (apply day_from_valid; lia).
  rewrite toordinal_day_from by lia. split; [done|lia].
Qed.

(** C35. Consecutive entries of the range are consecutive days of the
    calendar. *)
Theorem get_dates_between_consecutive r (i : nat) s1 s2 :
  get_dates_between today from_date until_date = Ok r ->
  r !! i = Some s1 -> r !! S i = Some s2 ->
  exists d, strptime s1 = Ok d /\ strptime s2 = Ok (next_day d).
Proof using Htoday Hfrom Huntil.
  rewrite get_dates_between_ok. intros [= <-].
  pose proof (start_of_valid _ _ _ Htoday Hfrom) as Ha.
  pose proof (split_date_valid _ _ Huntil) as Hb.
  pose proof (toordinal_range a Ha). pose proof (toordinal_range b Hb).
  rewrite !list_lookup_fmap.
  intros (j & [-> Hj]%lookup_seqZ & ->)%fmap_Some.
  intros (j' & [-> Hj']%lookup_seqZ & ->)%fmap_Some.
  unfold date_sub_days in *. exists (day_from a (0 + Z.of_nat i)).
  rewrite strptime_strftime by (apply day_from_valid; lia).
  replace (0 + Z.of_nat (S i)) with (0 + Z.of_nat i + 1) by lia.
  rewrite day_from_succ by (done || lia).
  rewrite strptime_strftime; [done|].
  rewrite <-day_from_succ by (done || lia). apply day_from_valid; lia.
Qed.

(** A range that is not empty starts with the start day and ends with
    the end day. *)
Theorem get_dates_between_ends r :
  get_dates_between today from_date until_date = Ok r ->
  toordinal a <= toordinal b ->
  head r = Some (strftime a) /\ list.last r = Some (strftime b).
Proof using Htoday Hfrom Huntil.
  rewrite get_dates_between_ok. intros [= <-] Hle.
  pose proof (start_of_valid _ _ _ Htoday Hfrom) as Ha.
  pose proof (split_date_valid _ _ Huntil) as Hb.
  set (n := Z.to_nat (date_sub_days b a)).
  assert (date_sub_days b a + 1 = Z.of_nat (S n)) as -> by (unfold n, date_sub_days; lia).
  split.
  - rewrite seqZ_cons by lia. cbn. by rewrite day_from_0.
  - rewrite seqZ_S, fmap_app. cbn [fmap list_fmap]. rewrite last_snoc. do 2 f_equal.
    replace (0 + Z.of_nat n) with (date_sub_days b a) by (unfold n, date_sub_days; lia).
    by apply day_from_sub.
Qed.

End get_dates_between.

(** ** Errors of [get_dates_between] *)

Lemma unpack3_cases l :
  (exists a b c, l = [a; b; c] /\ unpack3 l = Ok (a, b, c)) \/
  (length l <> 3%nat /\ unpack3 l = Raise (UnpackMismatch (length l))).
Proof.
  destruct l as [|a [|b [|c [|d l]]]]; cbn; eauto 10.
Qed.

Lemma split_date_not_exit s : split_date s <> Exit.
Proof.
  unfold split_date.
  destruct (unpack3_cases (split_on "-" s)) as [(a & b & c & _ & ->)|[_ ->]]; [|done].
  cbn. pose proof (py_int_not_exit c). pose proof (py_int_not_exit b).
  pose proof (py_int_not_exit a).
  destruct (py_int c) as [y| |]; cbn; [|done..].
  destruct (py_int b) as [m| |]; cbn; [|done..].
  destruct (py_int a) as [d| |]; cbn; [|done..].
  apply mk_date_not_exit.
Qed.

(** The exceptions of [split_date]: a [ValueError] for a wrong number of
    fields, a field that is no integer or a date off the calendar; an
    [OverflowError] for a field beyond a C int. *)
Lemma split_date_raise_class s e :
  split_date s = Raise e -> class_of e = ValueError \/ class_of e = OverflowError.
Proof.
  unfold split_date.
  destruct (unpack3_cases (split_on "-" s)) as [(a & b & c & _ & ->)|[_ ->]];
    [|intros [= <-]; by left].
  cbn.
  destruct (py_int c) as [y|e'|] eqn:Ey; cbn;
    [|intros [= <-]; apply py_int_raise in Ey as ->; by left|done].
  destruct (py_int b) as [m|e'|] eqn:Em; cbn;
    [|intros [= <-]; apply py_int_raise in Em as ->; by left|done].
  destruct (py_int a) as [d|e'|] eqn:Ed; cbn;
    [|intros [= <-]; apply py_int_raise in Ed as ->; by left|done].
  intros [[-> _]|[-> _]]%mk_date_raise; eauto.
Qed.

(** [get_dates_between] fails exactly when one of its two ends
    cannot be read, with the exception of the first end that fails; it
    never terminates the process. *)
Theorem get_dates_between_errors today from_date until_date :
  valid_date today ->
  get_dates_between today from_date until_date <> Exit /\
  forall e, get_dates_between today from_date until_date = Raise e <->
            start_of today from_date = Raise e \/
            (is_ok (start_of today from_date) = true /\
             split_date until_date = Raise e).
Proof.
  intros Htoday.
  destruct (start_of today from_date) as [a|e1|] eqn:Ha.
  - destruct (split_date until_date) as [b|e2|] eqn:Hb.
    + rewrite (get_dates_between_ok _ _ _ a b) by done. naive_solver.
    + unfold get_dates_between. rewrite Ha, Hb. naive_solver.
    + by destruct (split_date_not_exit until_date).
  - unfold get_dates_between. rewrite Ha. naive_solver.
  - unfold start_of in Ha. case_bool_decide; [done|].
    by destruct (split_date_not_exit from_date).
Qed.

(** C3. [get_dates_between] returns a list exactly when both ends are
    read, and the list is then the printed days from the start to the end
    inclusive, in ascending order: one per day, none when the end precedes
    the start. *)
Theorem get_dates_between_spec today from_date until_date r :
  valid_date today ->
  get_dates_between today from_date until_date = Ok r <->
  exists a b, start_of today from_date = Ok a /\
              split_date until_date = Ok b /\
              r = (fun i => strftime (day_from a i)) <$> seqZ 0 (date_sub_days b a + 1).
Proof.
  intros Htoday. split.
  - unfold get_dates_between.
    destruct (start_of today from_date) as [a| |] eqn:Ha; [|done..].
    destruct (split_date until_date) as [b| |] eqn:Hb; [|done..].
    fold (get_dates_between today from_date until_date).
    intros Hr. exists a, b. repeat split; try done.
    pose proof (get_dates_between_ok _ _ _ a b Htoday Ha Hb) as Hok.
    unfold get_dates_between in Hok. rewrite Ha, Hb in Hok. congruence.
  - intros (a & b & Ha & Hb & ->). by apply get_dates_between_ok.
Qed.

(** ** The two readers of dates agree *)

Lemma day_text_int t d :
  day_text t d -> py_int t = Ok d /\ count_char "-" t = 0%nat.
Proof.
  intros [[Hd ->]|[Hd [->| ->]]].
  - by rewrite py_int_pad2, pad2_no_dash by lia.
  - unfold digit1. rewrite py_int_digit by lia. cbn.
    by rewrite digit_char_neq_dash by lia.
  - unfold digit1. rewrite py_int_space_digit by lia. cbn.
    by rewrite digit_char_neq_dash by lia.
Qed.

Lemma month_text_int t m :
  month_text t m -> py_int t = Ok m /\ count_char "-" t = 0%nat.
Proof.
  intros [[Hd ->]|[Hd ->]].
  - by rewrite py_int_pad2, pad2_no_dash by lia.
  - unfold digit1. rewrite py_int_digit by lia. cbn.
    by rewrite digit_char_neq_dash by lia.
Qed.

(** C38. Every text that the strict reader of [remove_dates_before]
    accepts is read by [get_dates_between] as the same date. *)
Theorem strptime_split_date s x : strptime s = Ok x -> split_date s = Ok x.
Proof.
  intros [(td & tm & ty & -> & Hd & Hm & [Hy ->]) Hv]%strptime_ok_iff.
  apply day_text_int in Hd as [Hd Hnd]. apply month_text_int in Hm as [Hm Hnm].
  unfold split_date.
  rewrite append_nil_r, !(append_cons "-" EmptyString), !append_nil.
  rewrite !split_on_app, split_on_no_sep by (done || apply pad4_no_dash).
  cbn. rewrite py_int_pad4, Hm, Hd by lia. cbn. by apply mk_date_valid.
Qed.

(** ** The two extractions *)

Lemma slot_class_cases t :
  (t = "free" /\ slot_class t = "noPrime") \/
  (t = "prime" /\ slot_class t = "yesPrime") \/
  (t = "vip" /\ slot_class t = "yesVip") \/
  (t <> "free" /\ t <> "prime" /\ t <> "vip" /\ slot_class t = "getdatebtnhour").
Proof. unfold slot_class. repeat case_bool_decide; naive_solver. Qed.

Section extraction_props.
Context `{!HtmlParser}.

Lemma parse_available_dates_class_texts html_code :
  parse_available_dates html_code = class_texts "form-control" (html_parse html_code).
Proof. reflexivity. Qed.

Lemma parse_available_hours_class_texts html_code t :
  parse_available_hours html_code t = class_texts (slot_class t) (html_parse html_code).
Proof. reflexivity. Qed.

(** C26. On a document whose elements of class [form-control] each hold
    one string, [parse_available_dates] returns the strings stripped, in
    document order, empty ones included. *)
Theorem parse_available_dates_leaves html_code name cls texts :
  html_parse html_code = leaf name cls <$> texts ->
  "form-control" ∈ cls -> interesting name NavigableString = true ->
  parse_available_dates html_code = strip <$> texts.
Proof.
  intros Hdoc Hc Hint. rewrite parse_available_dates_class_texts, Hdoc.
  by apply class_texts_leaves.
Qed.

(** [parse_available_hours] returns the text of an element exactly
    when the element carries the class that the slot type selects. *)
Lemma parse_available_hours_elem html_code t s :
  s ∈ parse_available_hours html_code t <->
  exists n, n ∈ descendants_list (html_parse html_code) /\
            has_class (slot_class t) n = true /\ s = get_text_strip n.
Proof. rewrite parse_available_hours_class_texts. apply class_texts_elem. Qed.

(** C27. On a document of buttons, each with its classes and one
    string, [parse_available_hours] returns the stripped texts, in
    document order, of the buttons that carry [noPrime] for the slot type
    "free", [yesPrime] for "prime", [yesVip] for "vip", and
    [getdatebtnhour] for any other slot type; a button without the class
    is left out whatever else it carries. *)
Theorem parse_available_hours_buttons html_code name
    (buttons : list (list string * string)) :
  html_parse html_code = (fun b => leaf name b.1 b.2) <$> buttons ->
  interesting name NavigableString = true ->
  let texts_of c := strip <$> (snd <$> filter (fun b => c ∈ b.1) buttons) in
  parse_available_hours html_code "free" = texts_of "noPrime" /\
  parse_available_hours html_code "prime" = texts_of "yesPrime" /\
  parse_available_hours html_code "vip" = texts_of "yesVip" /\
  forall t, t <> "free" -> t <> "prime" -> t <> "vip" ->
            parse_available_hours html_code t = texts_of "getdatebtnhour".
Proof.
  intros Hdoc Hint texts_of. rewrite !parse_available_hours_class_texts, Hdoc.
  repeat split; [by apply class_texts_buttons..|].
  intros t Hf Hp Hv. rewrite parse_available_hours_class_texts, Hdoc.
  destruct (slot_class_cases t) as [[? _]|[[? _]|[[? _]|(_ & _ & _ & ->)]]];
    [done..|by apply class_texts_buttons].
Qed.

(** With no element of the selected class the result is empty. *)
Theorem parse_available_hours_none html_code t :
  Forall (fun n => has_class (slot_class t) n = false)
         (descendants_list (html_parse html_code)) ->
  parse_available_hours html_code t = [].
Proof. rewrite parse_available_hours_class_texts. apply class_texts_none. Qed.

(** Every text the extractions return is stripped: it has no
    whitespace at either end. *)
Theorem parse_available_stripped html_code t :
  Forall stripped (parse_available_dates html_code) /\
  Forall stripped (parse_available_hours html_code t).
Proof.
  split; apply Forall_fmap, Forall_forall; intros n _; apply get_text_strip_stripped.
Qed.

End extraction_props.

(** ** The model on the examples of the specification *)

(** The dates 10 and 20 November against the cutoff 18 November. *)
Example remove_dates_before_example :
  remove_dates_before ["10-11-2023"; "20-11-2023"] "18-11-2023" = Ok ["10-11-2023"].
Proof. reflexivity. Qed.

Example get_dates_between_example :
  get_dates_between (Date 2023 11 8) "01-01-2024" "03-01-2024" =
  Ok ["01-01-2024"; "02-01-2024"; "03-01-2024"].
Proof. reflexivity. Qed.

(** ** Witnesses *)

Lemma remove_dates_before_elem_witness :
  "10-11-2023" ∈ ["10-11-2023"] <->
  "10-11-2023" ∈ ["10-11-2023"; "20-11-2023"] /\
  exists d, strptime "10-11-2023" = Ok d /\ toordinal d < toordinal (Date 2023 11 18).
Proof.
  apply (remove_dates_before_elem ["10-11-2023"; "20-11-2023"] "18-11-2023");
    reflexivity.
Defined.

Lemma remove_dates_before_sublist_witness :
  sublist ["10-11-2023"] ["10-11-2023"; "20-11-2023"] /\
  remove_dates_before ["10-11-2023"] "18-11-2023" = Ok ["10-11-2023"].
Proof.
  apply (remove_dates_before_sublist ["10-11-2023"; "20-11-2023"] "18-11-2023").
  reflexivity.
Defined.

Lemma remove_dates_before_bad_entry_witness :
  remove_dates_before (["10-11-2023"] ++ "31-02-2023" :: ["20-11-2023"]) "18-11-2023" =
  Raise (DateOutOfRange 2023 2 31).
Proof.
  apply (remove_dates_before_bad_entry _ _ _ _ (Date 2023 11 18));
    [reflexivity | by repeat constructor | reflexivity].
Defined.

Lemma get_dates_between_spec_witness :
  get_dates_between (Date 2023 11 8) "today" "10-11-2023" =
    Ok ["08-11-2023"; "09-11-2023"; "10-11-2023"] <->
  exists a b, start_of (Date 2023 11 8) "today" = Ok a /\
              split_date "10-11-2023" = Ok b /\
              ["08-11-2023"; "09-11-2023"; "10-11-2023"] =
              (fun i => strftime (day_from a i)) <$> seqZ 0 (date_sub_days b a + 1).
Proof. apply get_dates_between_spec. reflexivity. Defined.

Lemma get_dates_between_empty_witness :
  get_dates_between (Date 2023 11 18) "today" "17-11-2023" = Ok [].
Proof.
  apply (get_dates_between_empty _ _ _ (Date 2023 11 18) (Date 2023 11 17));
    [reflexivity | reflexivity | reflexivity | by vm_compute].
Defined.

Lemma get_dates_between_parse_back_witness :
  Forall (fun s => exists d, strptime s = Ok d /\
            toordinal (Date 2024 2 28) <= toordinal d <= toordinal (Date 2024 3 1))
         ["28-02-2024"; "29-02-2024"; "01-03-2024"].
Proof.
  apply (get_dates_between_parse_back (Date 2023 11 8) "28-02-2024" "01-03-2024");
    reflexivity.
Defined.

Lemma get_dates_between_consecutive_witness :
  exists d, strptime "29-02-2024" = Ok d /\ strptime "01-03-2024" = Ok (next_day d).
Proof.
  apply (get_dates_between_consecutive (Date 2023 11 8) "28-02-2024" "01-03-2024"
           (Date 2024 2 28) (Date 2024 3 1) eq_refl eq_refl eq_refl
           ["28-02-2024"; "29-02-2024"; "01-03-2024"] 1);
    reflexivity.
Defined.

Lemma get_dates_between_ends_witness :
  head ["28-02-2024"; "29-02-2024"; "01-03-2024"] = Some (strftime (Date 2024 2 28)) /\
  list.last ["28-02-2024"; "29-02-2024"; "01-03-2024"] = Some (strftime (Date 2024 3 1)).
Proof.
  apply (get_dates_between_ends (Date 2023 11 8) "28-02-2024" "01-03-2024");
    [reflexivity | reflexivity | reflexivity | reflexivity | by vm_compute].
Defined.

Lemma get_dates_between_errors_witness :
  get_dates_between (Date 2023 11 8) "today" "2023-11-08" <> Exit /\
  forall e, get_dates_between (Date 2023 11 8) "today" "2023-11-08" = Raise e <->
            start_of (Date 2023 11 8) "today" = Raise e \/
            (is_ok (start_of (Date 2023 11 8) "today") = true /\
             split_date "2023-11-08" = Raise e).
Proof. apply get_dates_between_errors. reflexivity. Defined.

Lemma strptime_split_date_witness : split_date " 1-1-2024" = Ok (Date 2024 1 1).
Proof. apply strptime_split_date. reflexivity. Defined.

Lemma parse_available_dates_leaves_witness :
  @parse_available_dates
    (table_parser [("<select>...</select>",
       leaf "option" ["form-control"] <$> ["01-11-2023"; "  02-11-2023  "; ""])])
    "<select>...</select>" =
  strip <$> ["01-11-2023"; "  02-11-2023  "; ""].
Proof.
  apply (parse_available_dates_leaves _ "option" ["form-control"]);
    [reflexivity | by left | reflexivity].
Defined.

Lemma parse_available_hours_buttons_witness :
  let P := table_parser [("<div>...</div>",
     (fun b => leaf "a" b.1 b.2) <$>
       [(["getdatebtnhour"; "noPrime"], " 09:00 ");
        (["getdatebtnhour"; "yesPrime"], "09:30");
        (["getdatebtnhour"; "yesVip"], "10:00");
        (["getdatebtnhour"; "noPrime"], "10:30")])] in
  @parse_available_hours P "<div>...</div>" "free" = ["09:00"; "10:30"] /\
  @parse_available_hours P "<div>...</div>" "prime" = ["09:30"] /\
  @parse_available_hours P "<div>...</div>" "vip" = ["10:00"] /\
  forall t, t <> "free" -> t <> "prime" -> t <> "vip" ->
    @parse_available_hours P "<div>...</div>" t = ["09:00"; "09:30"; "10:00"; "10:30"].
Proof.
  intros P. exact (@parse_available_hours_buttons P "<div>...</div>" "a" _
                     eq_refl eq_refl).
Defined.

Lemma parse_available_hours_none_witness :
  @parse_available_hours
    (table_parser [("<div/>", [leaf "a" ["yesPrime"; "getdatebtnhour"] "09:00"])])
    "<div/>" "free" = [].
Proof.
  apply parse_available_hours_none. by repeat constructor.
Defined.
