(* ===== verification/Http.v ===== *)
(** * Http: the world the program talks to

    The sources reach the network through the [requests] library:
    [requests.Session()], [session.get], [session.post], [session.close]
    and the session-less [requests.get].  This file holds
    - the data of an exchange: [request], [response], [net_result];
    - the interface [Network], which answers a request given the
      requests sent before it (the remote servers are not modelled, the
      theorems hold for every one of them);
    - the state of the world: the trace of requests sent, the sessions
      that are open, the seconds slept;
    - the monad [io] of computations that change the world and return an
      [outcome], with its bind notation [x <~ m ;; k], [io_finally] for
      [finally]/[with], [io_try_except] for [except Exception], [io_for]
      for a [for] loop and [rounds] for the first iterations of
      [while True];
    - [sleep], which advances the clock of the world;
    - the operations of a session: [session_new], [session_send] (which
      sends the cookies of the jar and stores the cookies of the answer),
      [session_close], and the session-less [plain_get]. *)

From stdpp Require Import base tactics list strings gmap.
From Stdlib Require Import ZArith Lia.
From S2P Require Import Prelude Html.

Local Open Scope Z_scope.
Local Open Scope py_scope.

(** ** Requests and responses *)

Inductive http_method := GET | POST.

#[export] Instance http_method_eq_dec : EqDecision http_method.
Proof. solve_decision. Defined.

Record request := Request {
  req_method : http_method;
  req_url : string;
  req_headers : list (string * attr_value);
  req_cookies : gmap string string;
  req_data : list (string * string);
  req_timeout : Z
}.

#[export] Instance request_eq_dec : EqDecision request.
Proof. solve_decision. Defined.

Record response := Response {
  status_code : Z;
  text : string;
  set_cookies : list (string * string)
}.

(** What sending a request gives: an answer, or an exception of
    [requests] (connection refused, timeout, ...). *)
Inductive net_result :=
| Answered (r : response)
| Failed (detail : string).

(** The remote side: the answer to a request, given the requests sent
    before it. *)
Class Network := net_answer : list request -> request -> net_result.

(** ** The world *)

Record world := World {
  trace : list request;
  next_session : nat;
  open_sessions : gset nat;
  slept : Z
}.

Definition initial_world : world := World [] 0 ∅ 0.

(** A computation that changes the world and returns, raises or exits. *)
Definition io (A : Type) : Type := world -> outcome A * world.

Definition io_ret {A} (a : A) : io A := fun w => (Ok a, w).

Definition io_bind {A B} (m : io A) (k : A -> io B) : io B := fun w =>
  match m w with
  | (Ok a, w') => k a w'
  | (Raise e, w') => (Raise e, w')
  | (Exit, w') => (Exit, w')
  end.

(** A computation that only returns, raises or exits. *)
Definition io_lift {A} (m : outcome A) : io A := fun w => (m, w).

Definition io_exit {A} : io A := io_lift Exit.

Definition io_raise {A} (e : exn) : io A := io_lift (Raise e).

(** [try: m finally: f].  [f] runs whatever [m] does. *)
Definition io_finally {A} (m : io A) (f : world -> world) : io A := fun w =>
  let '(r, w') := m w in (r, f w').

(** [try: m except Exception as e: h e].  [SystemExit] passes through. *)
Definition io_try_except {A} (m : io A) (h : exn -> io A) : io A := fun w =>
  match m w with
  | (Raise e, w') => h e w'
  | rw => rw
  end.

Notation "x <~ m ;; k" := (io_bind m (fun x => k))
  (at level 100, m at next level, right associativity) : py_scope.

(** [for x in l: body(x)]: the first iteration that does not return ends
    the loop. *)
Fixpoint io_for {A} (l : list A) (body : A -> io unit) : io unit :=
  match l with
  | [] => io_ret tt
  | x :: l' => _ <~ body x ;; io_for l' body
  end.

(** The first [n] rounds of [while True: body].  The loop has no exit of
    its own: it ends with the first round that raises or exits. *)
Fixpoint rounds (n : nat) (body : io unit) : io unit :=
  match n with
  | O => io_ret tt
  | S n' => _ <~ body ;; rounds n' body
  end.

(** ** Sessions *)

(** A [requests.Session]: its identity and its cookie jar. *)
Record http_session := Session {
  session_id : nat;
  cookies : gmap string string
}.

Definition store_cookies (jar : gmap string string) (l : list (string * string))
    : gmap string string :=
  foldl (fun j p => <[p.1 := p.2]> j) jar l.

(** [requests.Session()] *)
Definition session_new : io http_session := fun w =>
  (Ok (Session (next_session w) ∅),
   World (trace w) (S (next_session w)) ({[next_session w]} ∪ open_sessions w) (slept w)).

(** [session.close()] *)
Definition session_close (s : http_session) (w : world) : world :=
  World (trace w) (next_session w) (open_sessions w ∖ {[session_id s]}) (slept w).

Definition log_request (rq : request) (w : world) : world :=
  World (trace w ++ [rq]) (next_session w) (open_sessions w) (slept w).

Section network.
Context `{!Network}.

(** Send [rq]: the request joins the trace; the answer comes from the
    network. *)
Definition send (rq : request) : io response := fun w =>
  match net_answer (trace w) rq with
  | Answered r => (Ok r, log_request rq w)
  | Failed detail => (Raise (NetworkFailure detail), log_request rq w)
  end.

(** [session.get(url, timeout=t)] and [session.post(url, headers=h,
    data=d, timeout=t)]: the cookies of the jar go out, the cookies of
    the answer come in. *)
Definition session_send (s : http_session) (meth : http_method) (url : string)
    (headers : list (string * attr_value)) (data : list (string * string))
    (timeout : Z) : io (response * http_session) :=
  r <~ send (Request meth url headers (cookies s) data timeout) ;;
  io_ret (r, Session (session_id s) (store_cookies (cookies s) (set_cookies r))).

(** [requests.get(url, timeout=t)] *)
Definition plain_get (url : string) (timeout : Z) : io response :=
  send (Request GET url [] ∅ [] timeout).

End network.

(** [time.sleep(seconds)] *)
Definition sleep (seconds : Z) : io unit := fun w =>
  (Ok tt, World (trace w) (next_session w) (open_sessions w) (slept w + seconds)).

(** A network given by a function of the request alone, and one given by
    a script of answers, for running the model on examples. *)
Definition static_network (f : request -> net_result) : Network := fun _ rq => f rq.

Definition scripted_network (answers : list net_result) : Network := fun past _ =>
  nth (length past) answers (Failed "no more answers").

(** [w'] is [w] after more requests. *)
Definition extends (w w' : world) : Prop := trace w `prefix_of` trace w'.

(** A computation that never forgets a request. *)
Definition monotone {A} (m : io A) : Prop := forall w, extends w (m w).2.

(** Every open session was created before: its identity is below the
    next one. *)
Definition wf_world (w : world) : Prop :=
  forall i, i ∈ open_sessions w -> (i < next_session w)%nat.

(** A computation that opens and closes no session. *)
Definition keeps_sessions {A} (m : io A) : Prop :=
  forall w, open_sessions (m w).2 = open_sessions w /\
            next_session (m w).2 = next_session w.

(** ** Lemmas on [io] *)

Section io_laws.
Context {A B C : Type}.

Lemma io_bind_ret_l (a : A) (k : A -> io B) w : io_bind (io_ret a) k w = k a w.
Proof. reflexivity. Qed.

Lemma io_bind_ret_r (m : io A) w : io_bind m io_ret w = m w.
Proof. unfold io_bind, io_ret. by destruct (m w) as [[] ?]. Qed.

Lemma io_bind_assoc (m : io A) (k : A -> io B) (h : B -> io C) w :
  io_bind (io_bind m k) h w = io_bind m (fun a => io_bind (k a) h) w.
Proof. unfold io_bind. by destruct (m w) as [[] ?]. Qed.

Lemma io_bind_lift (m : outcome A) (k : A -> io B) w :
  io_bind (io_lift m) k w =
  match m with Ok a => k a w | Raise e => (Raise e, w) | Exit => (Exit, w) end.
Proof. by destruct m. Qed.

Lemma io_bind_ok (m : io A) (k : A -> io B) w a w' :
  m w = (Ok a, w') -> io_bind m k w = k a w'.
Proof. unfold io_bind. by intros ->. Qed.

Lemma io_bind_raise (m : io A) (k : A -> io B) w e w' :
  m w = (Raise e, w') -> io_bind m k w = (Raise e, w').
Proof. unfold io_bind. by intros ->. Qed.

Lemma io_bind_exit (m : io A) (k : A -> io B) w w' :
  m w = (Exit, w') -> io_bind m k w = (Exit, w').
Proof. unfold io_bind. by intros ->. Qed.

End io_laws.

Lemma io_for_cons {A} (x : A) l body w :
  io_for (x :: l) body w =
  match body x w with
  | (Ok _, w') => io_for l body w'
  | (Raise e, w') => (Raise e, w')
  | (Exit, w') => (Exit, w')
  end.
Proof. reflexivity. Qed.

(** A loop that returned: every iteration returned. *)
Lemma io_for_ok_inv {A} (x : A) l body w w' :
  io_for (x :: l) body w = (Ok tt, w') ->
  exists w1, body x w = (Ok tt, w1) /\ io_for l body w1 = (Ok tt, w').
Proof.
  rewrite io_for_cons. destruct (body x w) as [[[]|e|] w1]; [|done..]. eauto.
Qed.

(** ** The trace only grows *)

#[export] Instance extends_preorder : PreOrder extends.
Proof.
  split; [intros w; by unfold extends|].
  intros w1 w2 w3; unfold extends; by etrans.
Qed.

Lemma monotone_ret {A} (a : A) : monotone (io_ret a).
Proof. by intros w. Qed.

Lemma monotone_lift {A} (m : outcome A) : monotone (io_lift m).
Proof. by intros w. Qed.

Lemma monotone_bind {A B} (m : io A) (k : A -> io B) :
  monotone m -> (forall a, monotone (k a)) -> monotone (io_bind m k).
Proof.
  intros Hm Hk w. unfold io_bind. specialize (Hm w).
  destruct (m w) as [[a|e|] w']; cbn in *; [|done..].
  etrans; [done|apply Hk].
Qed.

Lemma monotone_finally {A} (m : io A) (f : world -> world) :
  monotone m -> (forall w, trace (f w) = trace w) -> monotone (io_finally m f).
Proof.
  intros Hm Hf w. unfold io_finally. specialize (Hm w).
  destruct (m w) as [r w']; cbn in *. unfold extends in *. by rewrite Hf.
Qed.

Lemma monotone_try_except {A} (m : io A) (h : exn -> io A) :
  monotone m -> (forall e, monotone (h e)) -> monotone (io_try_except m h).
Proof.
  intros Hm Hh w. unfold io_try_except. specialize (Hm w).
  destruct (m w) as [[a|e|] w']; cbn in *; [done| |done].
  etrans; [done|apply Hh].
Qed.

Lemma monotone_session_new : monotone session_new.
Proof. intros w. by unfold extends. Qed.

Lemma monotone_sleep n : monotone (sleep n).
Proof. intros w. by unfold extends. Qed.

(** ** Sessions are opened and closed only by [session_new] and
    [session_close] *)

Lemma keeps_ret {A} (a : A) : keeps_sessions (io_ret a).
Proof. by intros w. Qed.

Lemma keeps_lift {A} (m : outcome A) : keeps_sessions (io_lift m).
Proof. by intros w. Qed.

Lemma keeps_bind {A B} (m : io A) (k : A -> io B) :
  keeps_sessions m -> (forall a, keeps_sessions (k a)) -> keeps_sessions (io_bind m k).
Proof.
  intros Hm Hk w. unfold io_bind. destruct (Hm w) as [Ho Hn].
  destruct (m w) as [[a|e|] w']; cbn in *; [|done..].
  destruct (Hk a w') as [Ho' Hn']. split; congruence.
Qed.

Lemma keeps_try_except {A} (m : io A) (h : exn -> io A) :
  keeps_sessions m -> (forall e, keeps_sessions (h e)) ->
  keeps_sessions (io_try_except m h).
Proof.
  intros Hm Hh w. unfold io_try_except. destruct (Hm w) as [Ho Hn].
  destruct (m w) as [[a|e|] w']; cbn in *; [done| |done].
  destruct (Hh e w') as [Ho' Hn']. split; congruence.
Qed.

Lemma keeps_sleep n : keeps_sessions (sleep n).
Proof. by intros w. Qed.

Lemma keeps_wf {A} (m : io A) w : keeps_sessions m -> wf_world w -> wf_world (m w).2.
Proof. intros Hm Hw i. destruct (Hm w) as [-> ->]. apply Hw. Qed.

Lemma wf_initial : wf_world initial_world.
Proof. intros i. cbn. set_solver. Qed.

Lemma wf_session_new w : wf_world w -> wf_world (session_new w).2.
Proof.
  intros Hw i. cbn. rewrite elem_of_union, elem_of_singleton.
  intros [->|Hi%Hw]; lia.
Qed.

Lemma wf_session_close s w : wf_world w -> wf_world (session_close s w).
Proof. intros Hw i. cbn. rewrite elem_of_difference. intros [Hi%Hw _]. lia. Qed.

(** Opening a session and closing it leaves the open sessions as they
    were, whatever runs in between that opens and closes none. *)
Lemma open_close_sessions w w' s :
  wf_world w -> session_id s = next_session w ->
  open_sessions w' = open_sessions (session_new w).2 ->
  open_sessions (session_close s w') = open_sessions w.
Proof.
  intros Hw Hs Ho. cbn in *. rewrite Ho, Hs.
  assert (next_session w ∉ open_sessions w) by (intros Hi%Hw; lia).
  set_solver.
Qed.

Section network_laws.
Context `{!Network}.

Lemma send_trace rq w : trace (send rq w).2 = trace w ++ [rq].
Proof. unfold send. by destruct (net_answer _ _). Qed.

Lemma send_sessions rq w : open_sessions (send rq w).2 = open_sessions w.
Proof. unfold send. by destruct (net_answer _ _). Qed.

Lemma monotone_send rq : monotone (send rq).
Proof. intros w. unfold extends. rewrite send_trace. by apply prefix_app_r. Qed.

Lemma monotone_session_send s meth url headers data timeout :
  monotone (session_send s meth url headers data timeout).
Proof.
  apply monotone_bind; [apply monotone_send|]. intros r. apply monotone_ret.
Qed.

Lemma monotone_plain_get url timeout : monotone (plain_get url timeout).
Proof. apply monotone_send. Qed.

(** [send] never exits; it raises exactly when the network fails. *)
Lemma send_cases rq w :
  (exists r, net_answer (trace w) rq = Answered r /\
             send rq w = (Ok r, log_request rq w)) \/
  (exists d, net_answer (trace w) rq = Failed d /\
             send rq w = (Raise (NetworkFailure d), log_request rq w)).
Proof. unfold send. destruct (net_answer _ _); eauto. Qed.

(** [session_send] in one step: the answer of the network decides. *)
Lemma session_send_run s meth url headers data timeout w :
  session_send s meth url headers data timeout w =
  let rq := Request meth url headers (cookies s) data timeout in
  match net_answer (trace w) rq with
  | Answered r =>
      (Ok (r, Session (session_id s) (store_cookies (cookies s) (set_cookies r))),
       log_request rq w)
  | Failed d => (Raise (NetworkFailure d), log_request rq w)
  end.
Proof. unfold session_send, io_bind, send. by destruct (net_answer _ _). Qed.

Lemma io_finally_run {A} (m : io A) f w : io_finally m f w = ((m w).1, f (m w).2).
Proof. unfold io_finally. by destruct (m w). Qed.

Lemma keeps_send rq : keeps_sessions (send rq).
Proof. intros w. unfold send. by destruct (net_answer _ _). Qed.

Lemma keeps_session_send s meth url headers data timeout :
  keeps_sessions (session_send s meth url headers data timeout).
Proof. apply keeps_bind; [apply keeps_send|]. intros r. apply keeps_ret. Qed.

Lemma keeps_plain_get url timeout : keeps_sessions (plain_get url timeout).
Proof. apply keeps_send. Qed.

End network_laws.

#[export] Hint Resolve monotone_ret monotone_lift monotone_bind monotone_finally
  monotone_try_except monotone_session_new monotone_sleep monotone_send
  monotone_session_send monotone_plain_get : py.
#[export] Hint Resolve keeps_ret keeps_lift keeps_bind keeps_try_except keeps_sleep
  keeps_send keeps_session_send keeps_plain_get wf_initial wf_session_new
  wf_session_close : py.
