(* ===== verification/Hoare.v ===== *)
(** * Hoare: pre- and postconditions for computations on the world

    [triple P m Q] says that [m], run in a world where [P] holds, ends
    with an outcome and a world related by [Q].  The rules follow the
    constructs of [Http]: [io_ret], [io_lift], [x <~ m ;; k],
    [io_try_except], [io_finally], [io_for] and [rounds].  The loops take
    an invariant that holds as long as the iterations return, and a
    postcondition for the iteration that does not.

    The two instances used throughout are [preserves I m] (the invariant
    [I] survives [m] whatever its outcome) and [balanced m] (a
    computation that returns leaves the sessions as they were). *)

From stdpp Require Import base tactics list strings gmap.
From Stdlib Require Import ZArith Lia.
From S2P Require Import Prelude Html Http.

Local Open Scope Z_scope.
Local Open Scope py_scope.

Definition triple {A} (P : world -> Prop) (m : io A) (Q : outcome A -> world -> Prop)
    : Prop :=
  forall w, P w -> Q (m w).1 (m w).2.

(** The postcondition of a loop: the invariant after a round that
    returned, [F] after one that did not. *)
Definition loop_post {A} (I : world -> Prop) (F : outcome A -> world -> Prop)
    : outcome A -> world -> Prop :=
  fun o w => match o with Ok _ => I w | _ => F o w end.

#[global] Arguments loop_post {A} I F !o w /.

(** [I] survives [m], whatever the outcome. *)
Definition preserves {A} (I : world -> Prop) (m : io A) : Prop :=
  triple I m (fun _ => I).

(** The requests after those of [w0] all satisfy [ok]. *)
Definition sent_since (w0 : world) (ok : request -> Prop) (w : world) : Prop :=
  exists l, trace w = trace w0 ++ l /\ Forall ok l.

(** [m] sends only requests that satisfy [ok]. *)
Definition sends_only {A} (ok : request -> Prop) (m : io A) : Prop :=
  forall w0, preserves (sent_since w0 ok) m.

(** A well-formed world with the open sessions [S]. *)
Definition sessions_are (S : gset nat) (w : world) : Prop :=
  wf_world w /\ open_sessions w = S.

(** [m] keeps the world well formed, and when it returns the sessions
    are those that were open before. *)
Definition balanced {A} (m : io A) : Prop :=
  forall S, triple (sessions_are S) m (loop_post (sessions_are S) (fun _ => wf_world)).

(** [m] does not sleep. *)
Definition awake {A} (m : io A) : Prop :=
  forall t, preserves (fun w => slept w = t) m.

(** Two computations are equal when they do the same in every world. *)
#[export] Instance io_equiv {A} : Equiv (io A) := fun m1 m2 => forall w, m1 w = m2 w.

(** An invariant that looks at the trace and at the clock only: opening
    and closing sessions cannot break it. *)
Class Frame (I : world -> Prop) : Prop :=
  frame : forall w w', trace w' = trace w -> slept w' = slept w -> I w -> I w'.

(** An invariant that survives the sending of a request that satisfies
    [ok]. *)
Definition logs (I : world -> Prop) (ok : request -> Prop) : Prop :=
  forall rq w, ok rq -> I w -> I (log_request rq w).

(** ** Equality of computations *)

#[export] Instance io_equivalence {A} : Equivalence (≡@{io A}).
Proof.
  split; [by intros m w|by intros m1 m2 Hm w|].
  intros m1 m2 m3 H12 H23 w. by rewrite H12.
Qed.

#[export] Instance io_bind_proper {A B} :
  Proper ((≡) ==> pointwise_relation A (≡) ==> (≡@{io B})) io_bind.
Proof.
  intros m1 m2 Hm k1 k2 Hk w. unfold io_bind. rewrite Hm.
  destruct (m2 w) as [[a|e|] w']; [apply Hk|done..].
Qed.

#[export] Instance io_try_except_proper {A} :
  Proper ((≡) ==> pointwise_relation exn (≡) ==> (≡@{io A})) io_try_except.
Proof.
  intros m1 m2 Hm h1 h2 Hh w. unfold io_try_except. rewrite Hm.
  destruct (m2 w) as [[a|e|] w']; [done|apply Hh|done].
Qed.

#[export] Instance triple_proper {A} :
  Proper (pointwise_relation world iff ==> (≡@{io A}) ==>
          pointwise_relation _ (pointwise_relation world iff) ==> iff) triple.
Proof.
  intros P1 P2 HP m1 m2 Hm Q1 Q2 HQ. unfold triple.
  split; intros Ht w Hw; [rewrite <- Hm|rewrite Hm]; apply HQ, Ht, HP, Hw.
Qed.

(** The laws of the monad. *)
Lemma io_left_id {A B} (a : A) (k : A -> io B) : io_bind (io_ret a) k ≡ k a.
Proof. intros w. apply io_bind_ret_l. Qed.

Lemma io_right_id {A} (m : io A) : io_bind m io_ret ≡ m.
Proof. intros w. apply io_bind_ret_r. Qed.

Lemma io_assoc {A B C} (m : io A) (k : A -> io B) (h : B -> io C) :
  io_bind (io_bind m k) h ≡ io_bind m (fun a => io_bind (k a) h).
Proof. intros w. apply io_bind_assoc. Qed.

(** A loop over a list that is a concatenation is the two loops, one
    after the other. *)
Lemma io_for_app {A} (l1 l2 : list A) body :
  io_for (l1 ++ l2) body ≡ io_bind (io_for l1 body) (fun _ => io_for l2 body).
Proof.
  induction l1 as [|x l1 IH]; [by intros w|].
  cbn [app io_for]. rewrite io_assoc. by setoid_rewrite IH.
Qed.

(** [n + m] rounds are [n] rounds, then [m] more. *)
Lemma rounds_add n m body :
  rounds (n + m) body ≡ io_bind (rounds n body) (fun _ => rounds m body).
Proof.
  induction n as [|n IH]; [by intros w|].
  cbn [Nat.add rounds]. rewrite io_assoc. by setoid_rewrite IH.
Qed.

(** ** Rules *)

Section rules.
Context {A B : Type}.
Implicit Types (P I : world -> Prop).

Lemma triple_conseq P P' (Q Q' : outcome A -> world -> Prop) (m : io A) :
  triple P m Q -> (forall w, P' w -> P w) -> (forall o w, Q o w -> Q' o w) ->
  triple P' m Q'.
Proof. intros Hm HP HQ w Hw. apply HQ, Hm, HP, Hw. Qed.

Lemma triple_ret (a : A) P (Q : outcome A -> world -> Prop) :
  (forall w, P w -> Q (Ok a) w) -> triple P (io_ret a) Q.
Proof. intros HQ w Hw. by apply HQ. Qed.

Lemma triple_lift (o : outcome A) P (Q : outcome A -> world -> Prop) :
  (forall w, P w -> Q o w) -> triple P (io_lift o) Q.
Proof. intros HQ w Hw. by apply HQ. Qed.

Lemma triple_bind (m : io A) (k : A -> io B) P R (Q : outcome B -> world -> Prop) :
  triple P m R ->
  (forall a, triple (R (Ok a)) (k a) Q) ->
  (forall e w, R (Raise e) w -> Q (Raise e) w) ->
  (forall w, R Exit w -> Q Exit w) ->
  triple P (io_bind m k) Q.
Proof.
  intros Hm Hk He Hx w Hw. specialize (Hm w Hw). unfold io_bind.
  destruct (m w) as [[a|e|] w']; cbn in *; [by apply Hk|by apply He|by apply Hx].
Qed.

Lemma triple_try_except (m : io A) (h : exn -> io A) P R
    (Q : outcome A -> world -> Prop) :
  triple P m R ->
  (forall e, triple (R (Raise e)) (h e) Q) ->
  (forall a w, R (Ok a) w -> Q (Ok a) w) ->
  (forall w, R Exit w -> Q Exit w) ->
  triple P (io_try_except m h) Q.
Proof.
  intros Hm Hh Ha Hx w Hw. specialize (Hm w Hw). unfold io_try_except.
  destruct (m w) as [[a|e|] w']; cbn in *; [by apply Ha|by apply Hh|by apply Hx].
Qed.

Lemma triple_finally (m : io A) (f : world -> world) P R
    (Q : outcome A -> world -> Prop) :
  triple P m R -> (forall o w, R o w -> Q o (f w)) -> triple P (io_finally m f) Q.
Proof.
  intros Hm Hf w Hw. specialize (Hm w Hw). rewrite io_finally_run. by apply Hf.
Qed.

End rules.

(** The rule of both loops: an invariant for the rounds that return. *)
Lemma triple_for {A} (l : list A) (body : A -> io unit) I F :
  (forall x, x ∈ l -> triple I (body x) (loop_post I F)) ->
  triple I (io_for l body) (loop_post I F).
Proof.
  induction l as [|x l IH]; intros Hbody; [by apply triple_ret|].
  cbn [io_for]. eapply triple_bind.
  - apply Hbody. by left.
  - intros []. apply IH. intros y Hy. apply Hbody. by right.
  - done.
  - done.
Qed.

Lemma triple_rounds n (body : io unit) I F :
  triple I body (loop_post I F) -> triple I (rounds n body) (loop_post I F).
Proof.
  intros Hbody. induction n as [|n IH]; [by apply triple_ret|].
  cbn [rounds]. eapply triple_bind; [exact Hbody|by intros []|done..].
Qed.

(** ** [preserves] *)

Section preserves.
Context {A B : Type} (I : world -> Prop).

Lemma preserves_ret (a : A) : preserves I (io_ret a).
Proof. by apply triple_ret. Qed.

Lemma preserves_lift (o : outcome A) : preserves I (io_lift o).
Proof. by apply triple_lift. Qed.

Lemma preserves_bind (m : io A) (k : A -> io B) :
  preserves I m -> (forall a, preserves I (k a)) -> preserves I (io_bind m k).
Proof. intros Hm Hk. eapply triple_bind; [exact Hm|exact Hk|done..]. Qed.

Lemma preserves_try_except (m : io A) (h : exn -> io A) :
  preserves I m -> (forall e, preserves I (h e)) -> preserves I (io_try_except m h).
Proof. intros Hm Hh. eapply triple_try_except; [exact Hm|exact Hh|done..]. Qed.

Lemma preserves_finally (m : io A) (f : world -> world) :
  preserves I m -> (forall w, I w -> I (f w)) -> preserves I (io_finally m f).
Proof. intros Hm Hf. eapply triple_finally; [exact Hm|]. intros o w. apply Hf. Qed.

Lemma preserves_for (l : list A) (body : A -> io unit) :
  (forall x, x ∈ l -> preserves I (body x)) -> preserves I (io_for l body).
Proof.
  intros Hbody. eapply triple_conseq; [apply (triple_for l body I (fun _ => I))|done|].
  - intros x Hx. eapply triple_conseq; [by apply Hbody|done|]. by intros [].
  - by intros [].
Qed.

Lemma preserves_rounds n (body : io unit) :
  preserves I body -> preserves I (rounds n body).
Proof.
  intros Hbody. eapply triple_conseq; [apply (triple_rounds n body I (fun _ => I))|done|].
  - eapply triple_conseq; [exact Hbody|done|]. by intros [].
  - by intros [].
Qed.

End preserves.

(** ** What the operations of [Http] preserve *)

Lemma sent_since_refl w0 ok : sent_since w0 ok w0.
Proof. exists []. by rewrite app_nil_r. Qed.

Lemma sent_since_log w0 ok rq w :
  ok rq -> sent_since w0 ok w -> sent_since w0 ok (log_request rq w).
Proof.
  intros Hrq (l & Hl & Hok). exists (l ++ [rq]). cbn. rewrite Hl, app_assoc.
  split; [done|]. apply Forall_app. by split; [|constructor].
Qed.

Lemma sent_since_same w0 ok w w' :
  trace w' = trace w -> sent_since w0 ok w -> sent_since w0 ok w'.
Proof. intros Ht (l & Hl & Hok). exists l. by rewrite Ht. Qed.

Lemma sent_since_weaken w0 (ok ok' : request -> Prop) w :
  (forall rq, ok rq -> ok' rq) -> sent_since w0 ok w -> sent_since w0 ok' w.
Proof.
  intros Himp (l & Hl & Hok). exists l. split; [done|].
  eapply list.Forall_impl; [exact Hok|exact Himp].
Qed.

#[export] Instance sent_since_frame w0 ok : Frame (sent_since w0 ok).
Proof. intros w w' Ht _. by apply sent_since_same. Qed.

#[export] Instance slept_frame t : Frame (fun w => slept w = t).
Proof. intros w w' _ Hs. by rewrite Hs. Qed.

Lemma sent_since_logs w0 ok : logs (sent_since w0 ok) ok.
Proof. intros rq w. apply sent_since_log. Qed.

Lemma slept_logs t ok : logs (fun w => slept w = t) ok.
Proof. by intros rq w. Qed.

Lemma preserves_session_new I `{!Frame I} : preserves I session_new.
Proof. intros w Hw. by apply (frame w). Qed.

Lemma frame_session_close I `{!Frame I} s w : I w -> I (session_close s w).
Proof. by apply frame. Qed.

Section operations.
Context `{!Network}.
Context (I : world -> Prop) (ok : request -> Prop) (Hlogs : logs I ok).

Lemma preserves_send rq : ok rq -> preserves I (send rq).
Proof.
  intros Hrq w Hw. pose proof (send_cases rq w) as [(r & _ & ->)|(d & _ & ->)];
    by apply Hlogs.
Qed.

Lemma preserves_session_send s meth url headers data timeout :
  ok (Request meth url headers (cookies s) data timeout) ->
  preserves I (session_send s meth url headers data timeout).
Proof.
  intros Hrq. apply preserves_bind; [by apply preserves_send|].
  intros r. apply preserves_ret.
Qed.

Lemma preserves_plain_get url timeout :
  ok (Request GET url [] ∅ [] timeout) -> preserves I (plain_get url timeout).
Proof. apply preserves_send. Qed.

End operations.

Lemma balanced_keeps {A} (m : io A) : keeps_sessions m -> balanced m.
Proof.
  intros Hm S w [Hw HS]. destruct (Hm w) as [Ho Hn].
  assert (wf_world (m w).2) by by apply keeps_wf.
  unfold loop_post, sessions_are. destruct (m w).1; [split; [done|congruence]|done..].
Qed.

Lemma sends_only_sleep ok n : sends_only ok (sleep n).
Proof. intros w0 w Hw. by eapply sent_since_same. Qed.

Lemma sleep_slept n t :
  triple (fun w => slept w = t) (sleep n) (fun o w => o = Ok tt /\ slept w = t + n).
Proof. intros w <-. done. Qed.

(** ** [balanced] *)

Lemma balanced_ret {A} (a : A) : balanced (io_ret a).
Proof. intros S. by apply triple_ret. Qed.

Lemma balanced_lift {A} (o : outcome A) : balanced (io_lift o).
Proof. intros S. apply triple_lift. intros w [Hw HS]. by destruct o. Qed.

Lemma balanced_bind {A B} (m : io A) (k : A -> io B) :
  balanced m -> (forall a, balanced (k a)) -> balanced (io_bind m k).
Proof.
  intros Hm Hk S. eapply triple_bind; [apply Hm|intros a; apply Hk|done..].
Qed.

Lemma balanced_for {A} (l : list A) (body : A -> io unit) :
  (forall x, x ∈ l -> balanced (body x)) -> balanced (io_for l body).
Proof. intros Hbody S. apply triple_for. intros x Hx. by apply Hbody. Qed.

Lemma balanced_rounds n (body : io unit) : balanced body -> balanced (rounds n body).
Proof. intros Hbody S. apply triple_rounds, Hbody. Qed.

Lemma balanced_sleep n : balanced (sleep n).
Proof. intros S w [Hw HS]. by split. Qed.

#[export] Hint Resolve preserves_ret preserves_lift preserves_bind preserves_try_except
  preserves_finally preserves_for preserves_rounds sent_since_refl sent_since_logs
  slept_logs preserves_session_new preserves_send preserves_session_send
  preserves_plain_get sends_only_sleep balanced_keeps balanced_ret
  balanced_lift balanced_bind balanced_for balanced_rounds balanced_sleep : py.
