(* ===== verification/Notifier.v ===== *)
(** * Notifier: the class [WhatsappNotifier] of [src/core/notifier.py]

    The state is the record [notifier]: the dictionary
    [_phones_api_keys] and the gateway address [_api_url].
    - [notifier_init]       [__init__];
    - [add_phone_api_key]   stores or overwrites the key of a phone;
    - [notify_url]          the f-string that builds the request URL;
    - [send_message]        looks the key up, exits the process when it is
                            missing or empty, sends one GET and returns
                            whether the status is 200. *)

From stdpp Require Import base tactics list strings gmap.
From Stdlib Require Import ZArith Lia.
From S2P Require Import Prelude PyString Html Http Hoare.

Local Open Scope Z_scope.
Local Open Scope py_scope.

Record notifier := Notifier {
  _phones_api_keys : gmap string string;
  _api_url : string
}.

Definition notifier_init : notifier :=
  Notifier ∅ "https://api.callmebot.com/whatsapp.php".

Definition add_phone_api_key (n : notifier) (phone_number api_key : string) : notifier :=
  Notifier (<[phone_number := api_key]> (_phones_api_keys n)) (_api_url n).

(** [f"{self._api_url}?phone={phone_number}&text={message}&apikey={api_key}"] *)
Definition notify_url (api_url phone_number message api_key : string) : string :=
  api_url +:+ "?phone=" +:+ phone_number +:+ "&text=" +:+ message +:+
  "&apikey=" +:+ api_key.

(** [not api_key] for the value of [dict.get(phone_number, None)]: true
    for [None] and for the empty string. *)
Definition key_missing (k : option string) : bool :=
  match k with
  | None => true
  | Some s => bool_decide (s = EmptyString)
  end.

(** A gateway that accepts every message, one that is down, and a
    notifier with one phone, for running the model on examples. *)
Definition gateway_ok : Network :=
  static_network (fun _ => Answered (Response 200 "Message queued" [])).

Definition gateway_down : Network :=
  static_network (fun _ => Failed "connection refused").

Definition one_phone : notifier :=
  add_phone_api_key notifier_init "+905550000000" "123456".

Section notifier.
Context `{!Network}.

Definition send_message (n : notifier) (phone_number message : string) : io bool :=
  let api_key := _phones_api_keys n !! phone_number in
  if key_missing api_key then io_exit
  else
    let request_url :=
      notify_url (_api_url n) phone_number message (default EmptyString api_key) in
    response <~ plain_get request_url 10 ;;
    if bool_decide (status_code response ≠ 200) then io_ret false
    else io_ret true.

(** The request that [send_message] sends for a registered phone. *)
Definition notify_request (n : notifier) (phone_number message api_key : string)
    : request :=
  Request GET (notify_url (_api_url n) phone_number message api_key) [] ∅ [] 10.

(** ** The key table *)

Lemma add_phone_lookup n phone key :
  _phones_api_keys (add_phone_api_key n phone key) !! phone = Some key.
Proof. cbn. apply lookup_insert_eq. Qed.

Lemma add_phone_lookup_ne n phone phone' key :
  phone <> phone' ->
  _phones_api_keys (add_phone_api_key n phone key) !! phone' =
  _phones_api_keys n !! phone'.
Proof. intros. cbn. by apply lookup_insert_ne. Qed.

Lemma add_phone_overwrite n phone k1 k2 :
  add_phone_api_key (add_phone_api_key n phone k1) phone k2 =
  add_phone_api_key n phone k2.
Proof. unfold add_phone_api_key. cbn. by rewrite insert_insert_eq. Qed.

Lemma add_phone_url n phone key : _api_url (add_phone_api_key n phone key) = _api_url n.
Proof. reflexivity. Qed.

Lemma key_missing_false k :
  key_missing k = false <-> exists s, k = Some s /\ s <> EmptyString.
Proof.
  destruct k as [s|]; cbn; [|naive_solver].
  rewrite bool_decide_eq_false. naive_solver.
Qed.

(** ** [send_message] *)

(** [send_message] in one step. *)
Lemma send_message_run n phone message w :
  send_message n phone message w =
  match _phones_api_keys n !! phone with
  | None => (Exit, w)
  | Some key =>
      if bool_decide (key = EmptyString) then (Exit, w)
      else
        let rq := notify_request n phone message key in
        match net_answer (trace w) rq with
        | Answered r => (Ok (bool_decide (status_code r = 200)), log_request rq w)
        | Failed d => (Raise (NetworkFailure d), log_request rq w)
        end
  end.
Proof.
  unfold send_message. destruct (_ !! phone) as [key|]; cbn; [|done].
  case_bool_decide; [done|].
  unfold io_bind, plain_get, send, notify_request. cbn.
  destruct (net_answer _ _) as [r|d]; [|done].
  by repeat case_bool_decide.
Qed.

Lemma send_message_answered n phone message key w a :
  _phones_api_keys n !! phone = Some key -> key <> EmptyString ->
  net_answer (trace w) (notify_request n phone message key) = Answered a ->
  send_message n phone message w =
  (Ok (bool_decide (status_code a = 200)),
   log_request (notify_request n phone message key) w).
Proof.
  intros Hk Hne Hnet. rewrite send_message_run, Hk, bool_decide_eq_false_2 by done.
  cbn zeta. by rewrite Hnet.
Qed.

(** With a key, [send_message] sends its request and does not exit. *)
Lemma send_message_sent n phone message key w :
  _phones_api_keys n !! phone = Some key -> key <> EmptyString ->
  (send_message n phone message w).1 <> Exit /\
  (send_message n phone message w).2 =
    log_request (notify_request n phone message key) w.
Proof.
  intros Hk Hne. rewrite send_message_run, Hk, bool_decide_eq_false_2 by done.
  cbn zeta. by destruct (net_answer _ _).
Qed.

Lemma notify_url_shift api_url phone message x key :
  notify_url api_url phone (message +:+ "&apikey=" +:+ x) key =
  notify_url api_url phone message (x +:+ "&apikey=" +:+ key).
Proof. unfold notify_url. by rewrite !append_assoc. Qed.

Lemma monotone_send_message n phone message : monotone (send_message n phone message).
Proof.
  unfold send_message. case_match; [apply monotone_lift|].
  apply monotone_bind; [apply monotone_plain_get|].
  intros r. case_bool_decide; apply monotone_ret.
Qed.

Lemma keeps_send_message n phone message :
  keeps_sessions (send_message n phone message).
Proof.
  unfold send_message. case_match; [apply keeps_lift|].
  apply keeps_bind; [apply keeps_plain_get|].
  intros r. case_bool_decide; apply keeps_ret.
Qed.

(** An invariant that survives the request of [send_message] survives
    [send_message]. *)
Lemma preserves_send_message I ok n phone message :
  logs I ok ->
  (forall key, _phones_api_keys n !! phone = Some key ->
               ok (notify_request n phone message key)) ->
  preserves I (send_message n phone message).
Proof.
  intros Hlogs Hok w Hw. rewrite send_message_run.
  destruct (_ !! phone) as [key|]; [|done]. case_bool_decide; [done|].
  cbv zeta. destruct (net_answer _ _); apply Hlogs; auto.
Qed.

Lemma send_message_sessions n phone message w :
  open_sessions (send_message n phone message w).2 = open_sessions w.
Proof.
  unfold send_message. case_match; [done|].
  unfold io_bind, plain_get.
  destruct (send_cases (Request GET (notify_url (_api_url n) phone message
              (default EmptyString (_phones_api_keys n !! phone))) [] ∅ [] 10) w)
    as [(r & _ & ->)|(d & _ & ->)]; [|done].
  by case_bool_decide.
Qed.

(** C10. A phone with no key, or with the empty key, makes
    [send_message] exit the process before anything is sent: the world
    is left as it was. *)
Theorem send_message_unregistered n phone message w :
  _phones_api_keys n !! phone = None \/
  _phones_api_keys n !! phone = Some EmptyString ->
  send_message n phone message w = (Exit, w).
Proof. rewrite send_message_run. by intros [->| ->]. Qed.

(** C11. For a phone with a key, [send_message] sends exactly one GET,
    to the gateway address followed by the phone, the message and the
    key, with a timeout of 10 seconds, and returns [True] exactly when the
    status of the answer is 200. *)
Theorem send_message_status n phone message key w r :
  _phones_api_keys n !! phone = Some key -> key <> EmptyString ->
  net_answer (trace w) (notify_request n phone message key) = Answered r ->
  send_message n phone message w =
    (Ok (bool_decide (status_code r = 200)),
     log_request (notify_request n phone message key) w) /\
  req_url (notify_request n phone message key) =
    _api_url n +:+ "?phone=" +:+ phone +:+ "&text=" +:+ message +:+ "&apikey=" +:+ key /\
  req_timeout (notify_request n phone message key) = 10.
Proof.
  intros Hk Hne Hnet. rewrite send_message_run, Hk, bool_decide_eq_false_2 by done.
  cbn zeta. by rewrite Hnet.
Qed.

(** C32. A failure of the network while the message is sent is raised
    to the caller; it is not turned into [False]. *)
Theorem send_message_network_failure n phone message key w d :
  _phones_api_keys n !! phone = Some key -> key <> EmptyString ->
  net_answer (trace w) (notify_request n phone message key) = Failed d ->
  send_message n phone message w =
    (Raise (NetworkFailure d), log_request (notify_request n phone message key) w).
Proof.
  intros Hk Hne Hnet. rewrite send_message_run, Hk, bool_decide_eq_false_2 by done.
  cbn zeta. by rewrite Hnet.
Qed.

(** After [add_phone_api_key] with a key that is not empty,
    [send_message] to that phone does not exit and its request carries
    the key registered last. *)
Theorem send_message_after_register n phone key message w :
  key <> EmptyString ->
  (send_message (add_phone_api_key n phone key) phone message w).1 <> Exit /\
  trace (send_message (add_phone_api_key n phone key) phone message w).2 =
    trace w ++ [notify_request n phone message key].
Proof.
  intros Hne. rewrite send_message_run, add_phone_lookup, bool_decide_eq_false_2 by done.
  cbn zeta. change (notify_request (add_phone_api_key n phone key))
    with (notify_request n).
  by destruct (net_answer _ _).
Qed.

(** C39. The request URL is the plain concatenation of its parts: text
    after [&apikey=] in the message reads as a key, so the message and the
    key are not encoded as query parameters; and the URL is as long as
    its parts and the 21 characters between them together, so that no
    character of the message is replaced by an escape. *)
Theorem notify_url_not_encoded api_url phone message x key :
  notify_url api_url phone (message +:+ "&apikey=" +:+ x) key =
  notify_url api_url phone message (x +:+ "&apikey=" +:+ key) /\
  (message +:+ "&apikey=" +:+ x) <> message /\
  String.length (notify_url api_url phone message key) =
  (String.length api_url + String.length phone + String.length message +
   String.length key + 21)%nat.
Proof.
  split_and!; [apply notify_url_shift| |].
  - intros Heq. apply (f_equal String.length) in Heq.
    rewrite !length_append in Heq. cbn in Heq. lia.
  - unfold notify_url. rewrite !length_append. cbn. lia.
Qed.

End notifier.

#[export] Hint Resolve monotone_send_message keeps_send_message : py.

(** ** Witnesses *)

Lemma send_message_unregistered_witness :
  @send_message gateway_ok notifier_init "+905550000000" "hello" initial_world =
  (Exit, initial_world).
Proof. apply (@send_message_unregistered gateway_ok). by left. Defined.

Lemma send_message_status_witness :
  (@send_message gateway_ok one_phone "+905550000000" "hello" initial_world).1 = Ok true.
Proof.
  by destruct (@send_message_status gateway_ok one_phone "+905550000000" "hello"
    "123456" initial_world (Response 200 "Message queued" []) eq_refl
    ltac:(done) eq_refl) as [-> _].
Defined.

Lemma send_message_network_failure_witness :
  (@send_message gateway_down one_phone "+905550000000" "hello" initial_world).1 =
  Raise (NetworkFailure "connection refused").
Proof.
  by rewrite (@send_message_network_failure gateway_down one_phone "+905550000000"
    "hello" "123456" initial_world "connection refused" eq_refl ltac:(done) eq_refl).
Defined.

Lemma send_message_after_register_witness :
  (@send_message gateway_ok one_phone "+905550000000" "hello" initial_world).1 <> Exit.
Proof.
  apply (@send_message_after_register gateway_ok notifier_init "+905550000000"
    "123456" "hello" initial_world). done.
Defined.

(** The request of the example, as it is sent. *)
Example send_message_example :
  trace (@send_message gateway_ok one_phone "+905550000000" "hello" initial_world).2 =
  [Request GET
     "https://api.callmebot.com/whatsapp.php?phone=+905550000000&text=hello&apikey=123456"
     [] ∅ [] 10].
Proof. vm_compute. reflexivity. Qed.
