(* ===== verification/Requester.v ===== *)
(** * Requester: the class [IDataRequester] of [src/core/idata_requester.py]

    The state of an instance is the record [requester]: its
    [requests.Session] (identity and cookie jar) and the two tokens.
    - [receive_tokens]        the GET of the appointment form, the two
                              [exit()] branches, the two tokens and the two
                              consent cookies;
    - [requester_init]        [__init__]: a new session, then the tokens;
    - [requester_exit]        [__exit__], which closes the session;
    - [with_requester]        [with IDataRequester() as requester: body];
    - [get_headers], [post_request] and the four POST operations with
      their form fields in the order of the source.

    Operations that send a request return the requester with the cookie
    jar as the answer left it. *)

From stdpp Require Import base tactics list strings gmap.
From Stdlib Require Import ZArith Lia.
From S2P Require Import Prelude PyString Html Http Hoare.

Local Open Scope Z_scope.
Local Open Scope py_scope.

(** ** The addresses *)

Definition URL_APPOINTMENT_FORM : string :=
  "https://deu-schengen.idata.com.tr/tr/appointment-form".
Definition URL_GET_CALENDER_STATUS : string :=
  "https://deu-schengen.idata.com.tr/tr/getcalendarstatus".
Definition URL_PASSPORT_CONTROL : string :=
  "https://deu-schengen.idata.com.tr/tr/personal/passport-control".
Definition URL_GET_DATE : string :=
  "https://deu-schengen.idata.com.tr/tr/getdate".
Definition URL_SEND_DATE : string :=
  "https://deu-schengen.idata.com.tr/tr/senddate".

(** ** The instance *)

Record requester := Requester {
  session : http_session;
  _xsrf_token : option string;
  _x_csrf_token : attr_value
}.

(** [self.session.cookies.set('c_policy', 'ok')] and
    [self.session.cookies.set('visited', 'yes')] *)
Definition set_consent (s : http_session) : http_session :=
  Session (session_id s) (<["visited" := "yes"]> (<["c_policy" := "ok"]> (cookies s))).

(** The request [receive_tokens] sends from a jar. *)
Definition form_request (jar : gmap string string) : request :=
  Request GET URL_APPOINTMENT_FORM [] jar [] 10.

(** [get_headers]: the dictionary literal, in its order. *)
Definition get_headers (r : requester) : list (string * attr_value) :=
  [ ("User-Agent", AStr "Mozilla/5.0 (Macintosh; Intel Mac OS X 10.15; rv:109.0)");
    ("Accept", AStr "*/*");
    ("Accept-Language", AStr "tr,en-US;q=0.7,en;q=0.3");
    ("Content-Type", AStr "application/x-www-form-urlencoded; charset=UTF-8");
    ("X-CSRF-TOKEN", _x_csrf_token r);
    ("X-Requested-With", AStr "XMLHttpRequest");
    ("Sec-Fetch-Dest", AStr "empty");
    ("Sec-Fetch-Mode", AStr "cors");
    ("Sec-Fetch-Site", AStr "same-origin") ].

(** The form fields of the four POST operations. *)
Definition getcalenderstatus_data (visa_office_id service_type_id visa_country_id : Z)
    : list (string * string) :=
  [ ("getvisaofficeid", str_of_int visa_office_id);
    ("getservicetypeid", str_of_int service_type_id);
    ("getvisacountryid", str_of_int visa_country_id) ].

Definition passaport_control_data (passport : string) (country_id : Z)
    : list (string * string) :=
  [ ("passport[]", passport);
    ("country_id", str_of_int country_id) ].

Definition getdate_data (consular_id exit_id service_type_id calendar_type
    total_person : Z) : list (string * string) :=
  [ ("consularid", str_of_int consular_id);
    ("exitid", str_of_int exit_id);
    ("servicetypeid", str_of_int service_type_id);
    ("calendarType", str_of_int calendar_type);
    ("totalperson", str_of_int total_person) ].

Definition senddate_data (full_date : string) (total_person set_new_consular_id
    set_new_exit_office_id calendar_type set_new_service_type_id : Z)
    (personal_info : string) : list (string * string) :=
  [ ("fulldate", full_date);
    ("totalperson", str_of_int total_person);
    ("set_new_consular_id", str_of_int set_new_consular_id);
    ("set_new_exit_office_id", str_of_int set_new_exit_office_id);
    ("calendarType", str_of_int calendar_type);
    ("set_new_service_type_id", str_of_int set_new_service_type_id);
    ("personalinfo", personal_info) ].

(** The request [post_request] sends. *)
Definition post_of (r : requester) (url : string) (data : list (string * string))
    : request :=
  Request POST url (get_headers r) (cookies (session r)) data 10.

(** [__exit__], through [__del__]: [self.session.close()]. *)
Definition requester_exit (r : requester) : world -> world :=
  session_close (session r).

Section requester.
Context `{!HtmlParser, !Network}.

(** What [receive_tokens] makes of an answer with status 200, from the
    session as the answer left it. *)
Definition tokens_of (s : http_session) (body : string)
    : outcome (option string * attr_value * http_session) :=
  let _xsrf_token := cookies s !! "XSRF-TOKEN" in
  let soup := html_parse body in
  match find_tag_attr "meta" "name" "csrf-token" soup with
  | None => Exit
  | Some csrf_meta =>
      _x_csrf_token <- tag_item csrf_meta "content" ;;
      Ok (_xsrf_token, _x_csrf_token, set_consent s)
  end.

Definition receive_tokens (s : http_session)
    : io (option string * attr_value * http_session) :=
  rs <~ session_send s GET URL_APPOINTMENT_FORM [] [] 10 ;;
  let response := rs.1 in
  if bool_decide (status_code response ≠ 200) then io_exit
  else io_lift (tokens_of rs.2 (text response)).

Definition requester_init : io requester :=
  s <~ session_new ;;
  t <~ receive_tokens s ;;
  io_ret (Requester t.2 t.1.1 t.1.2).

(** [with IDataRequester() as requester: body].  When the constructor
    does not return there is no object to leave; once it has returned,
    [__exit__] runs however the body ends. *)
Definition with_requester {A} (body : requester -> io A) : io A :=
  r <~ requester_init ;;
  io_finally (body r) (requester_exit r).

Definition post_request (r : requester) (url : string) (data : list (string * string))
    : io (response * requester) :=
  rs <~ session_send (session r) POST url (get_headers r) data 10 ;;
  io_ret (rs.1, Requester rs.2 (_xsrf_token r) (_x_csrf_token r)).

Definition post_getcalenderstatus (r : requester)
    (visa_office_id service_type_id visa_country_id : Z) : io (string * requester) :=
  let data := getcalenderstatus_data visa_office_id service_type_id visa_country_id in
  rr <~ post_request r URL_GET_CALENDER_STATUS data ;;
  io_ret (text rr.1, rr.2).

Definition post_passaport_control (r : requester) (passport : string) (country_id : Z)
    : io (string * requester) :=
  let data := passaport_control_data passport country_id in
  rr <~ post_request r URL_PASSPORT_CONTROL data ;;
  io_ret (text rr.1, rr.2).

Definition post_getdate (r : requester)
    (consular_id exit_id service_type_id calendar_type total_person : Z)
    : io (string * requester) :=
  let data :=
    getdate_data consular_id exit_id service_type_id calendar_type total_person in
  rr <~ post_request r URL_GET_DATE data ;;
  io_ret (text rr.1, rr.2).

Definition post_senddate (r : requester) (full_date : string)
    (total_person set_new_consular_id set_new_exit_office_id calendar_type
     set_new_service_type_id : Z) (personal_info : string) : io (string * requester) :=
  let data :=
    senddate_data full_date total_person set_new_consular_id set_new_exit_office_id
      calendar_type set_new_service_type_id personal_info in
  rr <~ post_request r URL_SEND_DATE data ;;
  io_ret (text rr.1, rr.2).

End requester.

(** ** A site and a parser, for running the model on examples *)

Definition form_page : soup :=
  [Tag "html" ∅
     [Tag "head" ∅
        [Tag "meta" {[ "charset" := AStr "utf-8" ]} [];
         Tag "meta" {[ "name" := AStr "csrf-token"; "content" := AStr "tok-1" ]} []];
      Tag "body" ∅ [Text NavigableString "Randevu"]]].

Definition dates_page : soup :=
  [leaf "div" ["form-control"] "10-11-2023"; leaf "div" ["form-control"] " 20-11-2023 "].

Definition hours_page : soup :=
  [leaf "a" ["getdatebtnhour"; "noPrime"] "09:00";
   leaf "a" ["getdatebtnhour"; "yesPrime"] "09:30";
   leaf "a" ["getdatebtnhour"; "noPrime"] "10:00"].

Definition site_parser : HtmlParser :=
  table_parser [("FORM", form_page); ("DATES", dates_page); ("HOURS", hours_page)].

(** The answer of the example site to a request, by its address. *)
Definition site_answer (rq : request) : net_result :=
  if bool_decide (req_url rq = URL_APPOINTMENT_FORM)
  then Answered (Response 200 "FORM" [("XSRF-TOKEN", "xsrf-1")])
  else if bool_decide (req_url rq = URL_GET_DATE) then Answered (Response 200 "DATES" [])
  else if bool_decide (req_url rq = URL_SEND_DATE) then Answered (Response 200 "HOURS" [])
  else Answered (Response 404 "" []).

Definition site : Network := static_network site_answer.

(** A site that answers the form with the given status and body. *)
Definition site_with (status : Z) (body : string) : Network :=
  static_network (fun _ => Answered (Response status body [])).

(** The requester that [requester_init] builds on [site]. *)
Definition site_requester : requester :=
  Requester (Session 0 {[ "XSRF-TOKEN" := "xsrf-1"; "c_policy" := "ok"; "visited" := "yes" ]})
    (Some "xsrf-1") (AStr "tok-1").

(** ** Lemmas *)

Lemma set_consent_lookup s k :
  cookies (set_consent s) !! k =
  if bool_decide (k = "visited") then Some "yes"
  else if bool_decide (k = "c_policy") then Some "ok"
  else cookies s !! k.
Proof.
  cbn. repeat case_bool_decide; simplify_eq; by simplify_map_eq.
Qed.

Lemma set_consent_id s : session_id (set_consent s) = session_id s.
Proof. reflexivity. Qed.

Lemma get_headers_token r : (("X-CSRF-TOKEN", _x_csrf_token r)) ∈ get_headers r.
Proof. unfold get_headers. set_solver. Qed.

Lemma get_headers_keys r :
  (get_headers r).*1 =
  ["User-Agent"; "Accept"; "Accept-Language"; "Content-Type"; "X-CSRF-TOKEN";
   "X-Requested-With"; "Sec-Fetch-Dest"; "Sec-Fetch-Mode"; "Sec-Fetch-Site"].
Proof. reflexivity. Qed.

Section requester_laws.
Context `{!HtmlParser, !Network}.

Lemma tokens_of_id s body t :
  tokens_of s body = Ok t -> session_id t.2 = session_id s.
Proof.
  unfold tokens_of. case_match; [|done].
  destruct (tag_item _ _); cbn; [|done..]. by intros [= <-].
Qed.

(** [receive_tokens] in one step. *)
Lemma receive_tokens_run s w :
  receive_tokens s w =
  match net_answer (trace w) (form_request (cookies s)) with
  | Answered r =>
      (if bool_decide (status_code r ≠ 200) then Exit
       else tokens_of (Session (session_id s)
                         (store_cookies (cookies s) (set_cookies r))) (text r),
       log_request (form_request (cookies s)) w)
  | Failed d => (Raise (NetworkFailure d), log_request (form_request (cookies s)) w)
  end.
Proof.
  unfold receive_tokens, io_bind. rewrite session_send_run. cbn zeta.
  fold (form_request (cookies s)).
  destruct (net_answer _ _) as [r|d]; [|done]. cbn. by case_bool_decide.
Qed.

Lemma receive_tokens_world s w :
  (receive_tokens s w).2 = log_request (form_request (cookies s)) w.
Proof. rewrite receive_tokens_run. by destruct (net_answer _ _). Qed.

Lemma keeps_receive_tokens s : keeps_sessions (receive_tokens s).
Proof. intros w. by rewrite receive_tokens_world. Qed.

Lemma monotone_receive_tokens s : monotone (receive_tokens s).
Proof.
  intros w. rewrite receive_tokens_world. unfold extends. cbn. by apply prefix_app_r.
Qed.

Lemma receive_tokens_id s w t w' :
  receive_tokens s w = (Ok t, w') -> session_id t.2 = session_id s.
Proof.
  rewrite receive_tokens_run. destruct (net_answer _ _) as [r|d]; [|done].
  case_bool_decide; [done|]. intros [= Ht _]. by apply tokens_of_id in Ht.
Qed.

(** [requester_init] in one step. *)
Lemma requester_init_run w :
  requester_init w =
  let s := Session (next_session w) ∅ in
  let w1 := (session_new w).2 in
  (omap (fun t => Requester t.2 t.1.1 t.1.2) (receive_tokens s w1).1,
   log_request (form_request ∅) w1).
Proof.
  unfold requester_init, io_bind at 1. cbn [session_new]. cbv zeta.
  unfold io_bind. pose proof (receive_tokens_world (Session (next_session w) ∅)
    (session_new w).2) as Hw. cbn [session_new snd] in *.
  destruct (receive_tokens _ _) as [[t|e|] w']; cbn in *; by subst.
Qed.

Lemma requester_init_id w r w' :
  requester_init w = (Ok r, w') -> session_id (session r) = next_session w.
Proof.
  rewrite requester_init_run. cbv zeta.
  destruct (receive_tokens _ _) as [[t|e|] w1] eqn:Ht; cbn; [|done..].
  intros [= <- _]. by apply receive_tokens_id in Ht.
Qed.

Lemma requester_init_sessions w :
  open_sessions (requester_init w).2 = open_sessions (session_new w).2 /\
  next_session (requester_init w).2 = S (next_session w).
Proof. by rewrite requester_init_run. Qed.

Lemma monotone_requester_init : monotone requester_init.
Proof.
  apply monotone_bind; [apply monotone_session_new|]. intros s.
  apply monotone_bind; [apply monotone_receive_tokens|]. intros t. apply monotone_ret.
Qed.

(** [post_request] in one step: any status is passed on. *)
Lemma post_request_run r url data w :
  post_request r url data w =
  match net_answer (trace w) (post_of r url data) with
  | Answered a =>
      (Ok (a, Requester (Session (session_id (session r))
                           (store_cookies (cookies (session r)) (set_cookies a)))
                (_xsrf_token r) (_x_csrf_token r)),
       log_request (post_of r url data) w)
  | Failed d => (Raise (NetworkFailure d), log_request (post_of r url data) w)
  end.
Proof.
  unfold post_request, io_bind. rewrite session_send_run. cbn zeta.
  fold (post_of r url data). by destruct (net_answer _ _).
Qed.

Lemma keeps_post_request r url data : keeps_sessions (post_request r url data).
Proof. apply keeps_bind; [apply keeps_session_send|]. intros a. apply keeps_ret. Qed.

Lemma monotone_post_request r url data : monotone (post_request r url data).
Proof.
  apply monotone_bind; [apply monotone_session_send|]. intros a. apply monotone_ret.
Qed.

(** The four operations are [post_request] followed by [.text]. *)
Lemma post_text_run r url data w :
  io_bind (post_request r url data) (fun rr => io_ret (text rr.1, rr.2)) w =
  match net_answer (trace w) (post_of r url data) with
  | Answered a =>
      (Ok (text a, Requester (Session (session_id (session r))
                           (store_cookies (cookies (session r)) (set_cookies a)))
                (_xsrf_token r) (_x_csrf_token r)),
       log_request (post_of r url data) w)
  | Failed d => (Raise (NetworkFailure d), log_request (post_of r url data) w)
  end.
Proof. unfold io_bind. rewrite post_request_run. by destruct (net_answer _ _). Qed.

Lemma post_text_then {B} r url data (k : string * requester -> io B) w :
  io_bind (io_bind (post_request r url data) (fun rr => io_ret (text rr.1, rr.2))) k w =
  match net_answer (trace w) (post_of r url data) with
  | Answered a =>
      k (text a, Requester (Session (session_id (session r))
                           (store_cookies (cookies (session r)) (set_cookies a)))
                   (_xsrf_token r) (_x_csrf_token r))
        (log_request (post_of r url data) w)
  | Failed d => (Raise (NetworkFailure d), log_request (post_of r url data) w)
  end.
Proof. unfold io_bind at 1. rewrite post_text_run. by destruct (net_answer _ _). Qed.

Lemma keeps_post_text r url data :
  keeps_sessions (io_bind (post_request r url data) (fun rr => io_ret (text rr.1, rr.2))).
Proof. apply keeps_bind; [apply keeps_post_request|]. intros a. apply keeps_ret. Qed.

Lemma monotone_post_text r url data :
  monotone (io_bind (post_request r url data) (fun rr => io_ret (text rr.1, rr.2))).
Proof. apply monotone_bind; [apply monotone_post_request|]. intros a. apply monotone_ret. Qed.

(** [with_requester] in one step. *)
Lemma with_requester_run {A} (body : requester -> io A) w :
  with_requester body w =
  match requester_init w with
  | (Ok r, w1) => ((body r w1).1, requester_exit r (body r w1).2)
  | (Raise e, w1) => (Raise e, w1)
  | (Exit, w1) => (Exit, w1)
  end.
Proof.
  unfold with_requester, io_bind.
  destruct (requester_init w) as [[r|e|] w1]; [|done..]. apply io_finally_run.
Qed.

Lemma monotone_with_requester {A} (body : requester -> io A) :
  (forall r, monotone (body r)) -> monotone (with_requester body).
Proof.
  intros Hb. apply monotone_bind; [apply monotone_requester_init|].
  intros r. by apply monotone_finally.
Qed.

(** The world after the constructor, whatever its outcome. *)
Lemma requester_init_world w :
  (requester_init w).2 = log_request (form_request ∅) (session_new w).2.
Proof. by rewrite requester_init_run. Qed.

Lemma preserves_requester_init I ok `{!Frame I} :
  logs I ok -> ok (form_request ∅) -> preserves I requester_init.
Proof.
  intros Hlogs Hok w Hw. rewrite requester_init_world.
  by apply Hlogs, (preserves_session_new I w).
Qed.

Lemma preserves_post_text I ok r url data :
  logs I ok -> ok (post_of r url data) ->
  preserves I (io_bind (post_request r url data) (fun rr => io_ret (text rr.1, rr.2))).
Proof.
  intros Hlogs Hok w Hw. rewrite post_text_run.
  destruct (net_answer _ _); by apply Hlogs.
Qed.

Lemma preserves_with_requester {A} I ok `{!Frame I} (body : requester -> io A) :
  logs I ok -> ok (form_request ∅) -> (forall r, preserves I (body r)) ->
  preserves I (with_requester body).
Proof.
  intros Hlogs Hok Hbody. apply preserves_bind; [by eapply preserves_requester_init|].
  intros r. apply preserves_finally; [apply Hbody|].
  intros w. by apply frame_session_close.
Qed.

(** A scoped requester whose body opens and closes no session is
    balanced: a query that returns leaves no session open, and the world
    stays well formed however it ends. *)
Lemma balanced_with_requester {A} (body : requester -> io A) :
  (forall r, keeps_sessions (body r)) -> balanced (with_requester body).
Proof.
  intros Hbody S w [Hw HS]. rewrite with_requester_run.
  pose proof (requester_init_world w) as Hw1.
  destruct (requester_init w) as [[r|e|] w1] eqn:Hinit; cbn [fst snd] in *.
  - assert (open_sessions (requester_exit r (body r w1).2) = open_sessions w) as Ho.
    { apply open_close_sessions; [done|by eapply requester_init_id|].
      destruct (Hbody r w1) as [-> _]. by subst w1. }
    assert (wf_world (requester_exit r (body r w1).2)) as Hwf.
    { apply wf_session_close, keeps_wf; [apply Hbody|]. subst w1.
      by apply (wf_session_new w). }
    unfold loop_post, sessions_are. destruct (body r w1).1; [split; [done|congruence]|done..].
  - subst w1. by apply (wf_session_new w).
  - subst w1. by apply (wf_session_new w).
Qed.

(** What a [receive_tokens] that returned has seen. *)
Lemma receive_tokens_ok_inv s w t w' :
  receive_tokens s w = (Ok t, w') ->
  exists a m,
    net_answer (trace w) (form_request (cookies s)) = Answered a /\
    status_code a = 200 /\
    find_tag_attr "meta" "name" "csrf-token" (html_parse (text a)) = Some m /\
    tag_item m "content" = Ok t.1.2 /\
    t.1.1 = store_cookies (cookies s) (set_cookies a) !! "XSRF-TOKEN" /\
    t.2 = set_consent (Session (session_id s)
                         (store_cookies (cookies s) (set_cookies a))) /\
    w' = log_request (form_request (cookies s)) w.
Proof.
  rewrite receive_tokens_run. unfold tokens_of.
  destruct (net_answer _ _) as [a|d]; [|done].
  case_bool_decide as Hst; [done|].
  destruct (find_tag_attr _ _ _ _) as [m|] eqn:Hm; [|done].
  destruct (tag_item m "content") as [v|e|] eqn:Hv; [|done..].
  cbn. intros [= <- <-]. by exists a, m.
Qed.

(** What a constructor that returned has seen, and the requester it
    built. *)
Lemma requester_init_ok_inv w r w1 :
  requester_init w = (Ok r, w1) ->
  exists a m,
    net_answer (trace w) (form_request ∅) = Answered a /\
    status_code a = 200 /\
    find_tag_attr "meta" "name" "csrf-token" (html_parse (text a)) = Some m /\
    tag_item m "content" = Ok (_x_csrf_token r) /\
    _xsrf_token r = store_cookies ∅ (set_cookies a) !! "XSRF-TOKEN" /\
    session r = set_consent (Session (next_session w) (store_cookies ∅ (set_cookies a))) /\
    w1 = log_request (form_request ∅) (session_new w).2.
Proof.
  rewrite requester_init_run. cbv zeta.
  destruct (receive_tokens _ _) as [[t|e|] w'] eqn:Ht; cbn; [|done..].
  intros [= <- <-].
  apply receive_tokens_ok_inv in Ht as (a & m & ? & ? & ? & ? & ? & ? & _).
  by exists a, m.
Qed.

(** The constructor raises for a failure of the network or for a
    missing [content] attribute, and exits for a bad status or a missing
    tag. *)
Lemma requester_init_raise w e :
  (requester_init w).1 = Raise e ->
  (exists d, e = NetworkFailure d) \/ e = MissingKey "content".
Proof.
  rewrite requester_init_run. cbv zeta. rewrite receive_tokens_run. cbn [fst snd].
  destruct (net_answer _ _) as [a|d]; cbn; [|intros [= <-]; eauto].
  case_bool_decide; [done|]. unfold tokens_of.
  destruct (find_tag_attr _ _ _ _) as [m|]; [|done].
  destruct (tag_item m "content") as [v|e'|] eqn:Hv; cbn; [done| |done].
  intros [= <-]. right. by eapply tag_item_raise.
Qed.

Lemma requester_init_exit w :
  (requester_init w).1 = Exit <->
  exists a, net_answer (trace w) (form_request ∅) = Answered a /\
            (status_code a <> 200 \/
             find_tag_attr "meta" "name" "csrf-token" (html_parse (text a)) = None).
Proof.
  rewrite requester_init_run. cbv zeta. rewrite receive_tokens_run. cbn [fst snd].
  change (trace (session_new w).2) with (trace w).
  change (cookies _) with (∅ : gmap string string).
  destruct (net_answer _ _) as [a|d]; cbn; [|naive_solver].
  case_bool_decide as Hst; [naive_solver|]. unfold tokens_of.
  destruct (find_tag_attr _ _ _ _) as [m|] eqn:Hm; [|naive_solver].
  pose proof (tag_item_not_exit m "content").
  destruct (tag_item m "content"); cbn; naive_solver.
Qed.

(** C4. [receive_tokens] returns exactly when the form page is
    answered with status 200 and holds a [meta] tag named [csrf-token]
    with a [content] attribute.  The first token is then the cookie
    [XSRF-TOKEN] of the jar after the answer ([None] when there is none),
    the second is that attribute, the jar gains the cookies [c_policy]
    and [visited], and exactly one GET was sent. *)
Theorem receive_tokens_ok s w t w' :
  receive_tokens s w = (Ok t, w') <->
  exists a m,
    net_answer (trace w) (form_request (cookies s)) = Answered a /\
    status_code a = 200 /\
    find_tag_attr "meta" "name" "csrf-token" (html_parse (text a)) = Some m /\
    tag_item m "content" = Ok t.1.2 /\
    t.1.1 = store_cookies (cookies s) (set_cookies a) !! "XSRF-TOKEN" /\
    t.2 = set_consent (Session (session_id s)
                         (store_cookies (cookies s) (set_cookies a))) /\
    w' = log_request (form_request (cookies s)) w.
Proof.
  split; [apply receive_tokens_ok_inv|].
  rewrite receive_tokens_run. unfold tokens_of.
  intros (a & m & -> & Hst & -> & Hv & Hx & Hs & ->).
  rewrite bool_decide_eq_false_2, Hv by (by intros []). cbn.
  destruct t as [[t1 t2] t3]; cbn in *. by subst.
Qed.

(** C18. [receive_tokens] exits the process exactly when the form page
    is answered with a status other than 200, or with status 200 and no
    [meta] tag named [csrf-token]; the GET has been sent. *)
Theorem receive_tokens_exit s w w' :
  receive_tokens s w = (Exit, w') <->
  exists a,
    net_answer (trace w) (form_request (cookies s)) = Answered a /\
    (status_code a <> 200 \/
     find_tag_attr "meta" "name" "csrf-token" (html_parse (text a)) = None) /\
    w' = log_request (form_request (cookies s)) w.
Proof.
  rewrite receive_tokens_run. unfold tokens_of. split.
  - destruct (net_answer _ _) as [a|d]; [|done].
    case_bool_decide as Hst; [intros [= <-]; eauto|].
    destruct (find_tag_attr _ _ _ _) as [m|] eqn:Hm; [|intros [= <-]; eauto].
    destruct (tag_item m "content") eqn:Hv; cbn; [done..|].
    by apply tag_item_not_exit in Hv.
  - intros (a & -> & Hor & ->). case_bool_decide as Hst; [done|].
    destruct Hor as [?| ->]; done.
Qed.

(** C33. [receive_tokens] raises in two cases only: the network fails,
    or the [meta] tag named [csrf-token] has no [content] attribute, which
    is a [KeyError] and not an exit. *)
Theorem receive_tokens_raise s w e w' :
  receive_tokens s w = (Raise e, w') <->
  w' = log_request (form_request (cookies s)) w /\
  ((exists d, net_answer (trace w) (form_request (cookies s)) = Failed d /\
              e = NetworkFailure d) \/
   (exists a m, net_answer (trace w) (form_request (cookies s)) = Answered a /\
                status_code a = 200 /\
                find_tag_attr "meta" "name" "csrf-token" (html_parse (text a)) = Some m /\
                tag_item m "content" = Raise e /\ e = MissingKey "content")).
Proof.
  rewrite receive_tokens_run. unfold tokens_of. split.
  - destruct (net_answer _ _) as [a|d]; [|intros [= <- <-]; eauto].
    case_bool_decide as Hst; [done|].
    destruct (find_tag_attr _ _ _ _) as [m|] eqn:Hm; [|done].
    destruct (tag_item m "content") as [v|e'|] eqn:Hv; [done| |done].
    cbn. intros [= <- <-]. split; [done|]. right. exists a, m.
    repeat split; try done. by apply tag_item_raise in Hv.
  - intros [-> [(d & -> & ->)|(a & m & -> & Hst & -> & Hv & _)]]; [done|].
    rewrite bool_decide_eq_false_2, Hv by (by intros []). done.
Qed.

(** C9. Once the constructor has returned, [with IDataRequester()]
    closes the session however the body ends, and the result is the
    body's: the sessions that are open afterwards are those that were
    open before. *)
Theorem with_requester_closes {A} (body : requester -> io A) w r w1 :
  wf_world w -> requester_init w = (Ok r, w1) -> keeps_sessions (body r) ->
  (with_requester body w).1 = (body r w1).1 /\
  open_sessions (with_requester body w).2 = open_sessions w.
Proof.
  intros Hw Hinit Hbody. rewrite with_requester_run, Hinit. split; [done|].
  cbn [snd]. apply open_close_sessions; [done|by eapply requester_init_id|].
  destruct (Hbody w1) as [-> _].
  destruct (requester_init_sessions w) as [Ho _]. by rewrite Hinit in Ho.
Qed.

(** When the constructor does not return, the body does not run,
    [__exit__] does not run either, and the session the constructor
    opened is still open. *)
Theorem with_requester_no_object {A} (body : requester -> io A) w :
  (requester_init w).1 = Exit \/ (exists e, (requester_init w).1 = Raise e) ->
  omap (fun _ => tt) (with_requester body w).1 =
    omap (fun _ => tt) (requester_init w).1 /\
  trace (with_requester body w).2 = trace w ++ [form_request ∅] /\
  next_session w ∈ open_sessions (with_requester body w).2.
Proof.
  intros Hfail. rewrite with_requester_run.
  pose proof (requester_init_run w) as Hrun. cbv zeta in Hrun.
  destruct (requester_init w) as [[r|e|] w1]; cbn in *.
  - destruct Hfail as [?|[? ?]]; done.
  - injection Hrun as _ ->. cbn. split_and!; [done..|set_solver].
  - injection Hrun as _ ->. cbn. split_and!; [done..|set_solver].
Qed.

(** C28. [post_request] sends one POST with the headers of
    [get_headers], the cookies of the jar, the given fields and a timeout
    of 10 seconds, and passes the answer on whatever its status is; the
    jar takes the cookies of the answer and the tokens stay. *)
Theorem post_request_passes r url data w a :
  net_answer (trace w) (post_of r url data) = Answered a ->
  exists r',
    post_request r url data w = (Ok (a, r'), log_request (post_of r url data) w) /\
    cookies (session r') = store_cookies (cookies (session r)) (set_cookies a) /\
    get_headers r' = get_headers r /\
    session_id (session r') = session_id (session r).
Proof. intros Hnet. rewrite post_request_run, Hnet. by eexists. Qed.

End requester_laws.

#[export] Hint Resolve keeps_receive_tokens monotone_receive_tokens
  monotone_requester_init keeps_post_request monotone_post_request keeps_post_text
  monotone_post_text monotone_with_requester preserves_requester_init
  preserves_post_text preserves_with_requester balanced_with_requester : py.

(** ** Witnesses *)

Example requester_init_example :
  @requester_init site_parser site initial_world =
  (Ok site_requester,
   World [form_request ∅] 1 {[0%nat]} 0).
Proof. vm_compute. reflexivity. Qed.

Example receive_tokens_status_example :
  (@receive_tokens site_parser (site_with 204 "FORM") (Session 0 ∅) initial_world).1 = Exit.
Proof. vm_compute. reflexivity. Qed.

Lemma with_requester_closes_witness :
  open_sessions
    (@with_requester site_parser site _
       (fun r => @post_getdate site r 2 8 1 2 1) initial_world).2 = ∅.
Proof.
  apply (@with_requester_closes site_parser site _ _ initial_world site_requester
           (World [form_request ∅] 1 {[0%nat]} 0)).
  - apply wf_initial.
  - vm_compute. reflexivity.
  - apply (@keeps_post_text site).
Defined.

Lemma with_requester_no_object_witness :
  0%nat ∈ open_sessions
    (@with_requester site_parser (site_with 503 "") _
       (fun r => @post_getdate (site_with 503 "") r 2 8 1 2 1) initial_world).2.
Proof.
  apply (@with_requester_no_object site_parser (site_with 503 "") _ _ initial_world).
  left. vm_compute. reflexivity.
Defined.

Lemma post_request_passes_witness :
  exists r',
    @post_request site site_requester URL_GET_CALENDER_STATUS
      (getcalenderstatus_data 8 1 2) initial_world =
    (Ok (Response 404 "" [], r'),
     log_request (post_of site_requester URL_GET_CALENDER_STATUS
                    (getcalenderstatus_data 8 1 2)) initial_world).
Proof.
  destruct (@post_request_passes site site_requester URL_GET_CALENDER_STATUS
    (getcalenderstatus_data 8 1 2) initial_world (Response 404 "" []) eq_refl)
    as (r' & Hr & _).
  by exists r'.
Defined.

(** The form fields of a date query, as they are sent. *)
Example getdate_data_example :
  getdate_data 2 8 1 2 1 =
  [("consularid", "2"); ("exitid", "8"); ("servicetypeid", "1");
   ("calendarType", "2"); ("totalperson", "1")].
Proof. vm_compute. reflexivity. Qed.
