(* ===== verification/Finder.v ===== *)
(** * Finder: the class [IDataAppointmentFinder] of
    [src/core/appointment_finder.py]

    The state is the record [finder]: the dictionary [_exit_ids] and the
    five fixed query parameters.
    - [finder_init]               [__init__];
    - [add_office]                registers or overwrites an office;
    - [find_available_dates]      the office check, the scoped requester,
                                  the date query, the extraction and the
                                  cutoff filter;
    - [check_for_specific_date]   the office check, the scoped requester,
                                  the slot query and the extraction. *)

From stdpp Require Import base tactics list strings gmap.
From Stdlib Require Import ZArith Lia.
From S2P Require Import Prelude PyString Calendar DateFormat Html Utils Http Hoare.
From S2P Require Import Requester.

Local Open Scope Z_scope.
Local Open Scope py_scope.

Record finder := Finder {
  _exit_ids : gmap string Z;
  consular_id : Z;
  service_type_id : Z;
  calendar_type : Z;
  total_person : Z;
  personal_id : string
}.

Definition finder_init : finder :=
  Finder ∅ 2 1 2 1
    ("eyJpdiI6ImUzRlYwV0JYbFRFaTdoR2luYkJ4eUE9PSIsInZh" +:+
     "bHVlIjoicVdUUHpOOWJZclR0OEYxVFJEYkhaZz09IiwibWFj" +:+
     "IjoiNzY3MGUyNDMxMWUxZDE1ZGQ3MjM4MTU2ODU1MTA1NjAx" +:+
     "NTA2M2NjOTFlYWQxZGY4YjYwZGIxZjIxMjczN2FhMyJ9").

Definition add_office (f : finder) (office_name : string) (office_id : Z) : finder :=
  Finder (<[office_name := office_id]> (_exit_ids f)) (consular_id f)
    (service_type_id f) (calendar_type f) (total_person f) (personal_id f).

(** The two requests of a date query, and the POST of a slot query, as
    they leave a fresh session. *)
Definition getdate_request (f : finder) (exit_id : Z) (r : requester) : request :=
  post_of r URL_GET_DATE
    (getdate_data (consular_id f) exit_id (service_type_id f) (calendar_type f)
       (total_person f)).

Definition senddate_request (f : finder) (exit_id : Z) (date_to_check : string)
    (r : requester) : request :=
  post_of r URL_SEND_DATE
    (senddate_data date_to_check (total_person f) (consular_id f) exit_id
       (calendar_type f) (service_type_id f) (personal_id f)).

Section finder.
Context `{!HtmlParser, !Network}.

(** What [find_available_dates] makes of the answer to the date query. *)
Definition dates_of_response (response search_before : string)
    : outcome (list string) :=
  let available_dates := parse_available_dates response in
  if bool_decide (available_dates = []) then Ok []
  else
    dates_before <- remove_dates_before available_dates search_before ;;
    if bool_decide (dates_before = []) then Ok [] else Ok dates_before.

Definition find_available_dates (f : finder) (office_name search_before : string)
    : io (list string) :=
  match _exit_ids f !! office_name with
  | None => io_raise (InvalidOfficeName office_name)
  | Some exit_id =>
      with_requester (fun requester =>
        rr <~ post_getdate requester (consular_id f) exit_id (service_type_id f)
                (calendar_type f) (total_person f) ;;
        io_lift (dates_of_response rr.1 search_before))
  end.

(** What [check_for_specific_date] makes of the answer to the slot
    query. *)
Definition hours_of_response (response time_slot_type : string) : list string :=
  let available_hours := parse_available_hours response time_slot_type in
  if bool_decide (available_hours = []) then [] else available_hours.

Definition check_for_specific_date (f : finder)
    (office_name date_to_check time_slot_type : string) : io (list string) :=
  match _exit_ids f !! office_name with
  | None => io_raise (InvalidOfficeName office_name)
  | Some exit_id =>
      with_requester (fun requester =>
        rr <~ post_senddate requester date_to_check (total_person f) (consular_id f)
                exit_id (calendar_type f) (service_type_id f) (personal_id f) ;;
        io_ret (hours_of_response rr.1 time_slot_type))
  end.

End finder.

(** A finder with one office, and the world after a query on the
    example site, for running the model on examples. *)
Definition one_office : finder := add_office finder_init "Altunizade" 8.

Definition after_query (rq : request) : world :=
  World [form_request ∅; rq] 1 ∅ 0.

(** ** The office table *)

Lemma add_office_lookup f name id : _exit_ids (add_office f name id) !! name = Some id.
Proof. cbn. apply lookup_insert_eq. Qed.

Lemma add_office_lookup_ne f name name' id :
  name <> name' -> _exit_ids (add_office f name id) !! name' = _exit_ids f !! name'.
Proof. intros. cbn. by apply lookup_insert_ne. Qed.

Lemma add_office_params f name id :
  consular_id (add_office f name id) = consular_id f /\
  service_type_id (add_office f name id) = service_type_id f /\
  calendar_type (add_office f name id) = calendar_type f /\
  total_person (add_office f name id) = total_person f /\
  personal_id (add_office f name id) = personal_id f.
Proof. done. Qed.

Section finder_laws.
Context `{!HtmlParser, !Network}.

(** ** The answer to a date query *)

Lemma dates_of_response_filter response search_before :
  dates_of_response response search_before =
  match parse_available_dates response with
  | [] => Ok []
  | dates => remove_dates_before dates search_before
  end.
Proof.
  unfold dates_of_response. destruct (parse_available_dates response) as [|d ds]; [done|].
  rewrite bool_decide_eq_false_2 by done.
  destruct (remove_dates_before _ _) as [l| |]; [|done..]. cbn.
  by case_bool_decide; subst.
Qed.

Lemma hours_of_response_id response t :
  hours_of_response response t = parse_available_hours response t.
Proof. unfold hours_of_response. by case_bool_decide as Hnil; [rewrite Hnil|]. Qed.

(** ** Queries *)

Lemma find_available_dates_body_keeps f exit_id search_before r :
  keeps_sessions
    (rr <~ post_getdate r (consular_id f) exit_id (service_type_id f)
             (calendar_type f) (total_person f) ;;
     io_lift (dates_of_response rr.1 search_before)).
Proof. apply keeps_bind; [apply keeps_post_text|]. intros; apply keeps_lift. Qed.

Lemma check_for_specific_date_body_keeps f exit_id date_to_check t r :
  keeps_sessions
    (rr <~ post_senddate r date_to_check (total_person f) (consular_id f)
             exit_id (calendar_type f) (service_type_id f) (personal_id f) ;;
     io_ret (hours_of_response rr.1 t)).
Proof. apply keeps_bind; [apply keeps_post_text|]. intros; apply keeps_ret. Qed.

Lemma monotone_find_available_dates f office_name search_before :
  monotone (find_available_dates f office_name search_before).
Proof.
  unfold find_available_dates. case_match; [|apply monotone_lift].
  apply monotone_with_requester. intros r.
  apply monotone_bind; [apply monotone_post_text|]. intros; apply monotone_lift.
Qed.

Lemma monotone_check_for_specific_date f office_name date_to_check t :
  monotone (check_for_specific_date f office_name date_to_check t).
Proof.
  unfold check_for_specific_date. case_match; [|apply monotone_lift].
  apply monotone_with_requester. intros r.
  apply monotone_bind; [apply monotone_post_text|]. intros; apply monotone_ret.
Qed.

Lemma balanced_find_available_dates f office_name search_before :
  balanced (find_available_dates f office_name search_before).
Proof.
  unfold find_available_dates. case_match; [|apply balanced_lift].
  apply balanced_with_requester. intros r. apply find_available_dates_body_keeps.
Qed.

Lemma balanced_check_for_specific_date f office_name date_to_check t :
  balanced (check_for_specific_date f office_name date_to_check t).
Proof.
  unfold check_for_specific_date. case_match; [|apply balanced_lift].
  apply balanced_with_requester. intros r. apply check_for_specific_date_body_keeps.
Qed.

(** An invariant that survives the two requests of a query survives the
    query. *)
Lemma preserves_find_available_dates I ok `{!Frame I} f office_name search_before :
  logs I ok -> ok (form_request ∅) ->
  (forall exit_id r, _exit_ids f !! office_name = Some exit_id ->
                     ok (getdate_request f exit_id r)) ->
  preserves I (find_available_dates f office_name search_before).
Proof.
  intros Hlogs Hform Hpost. unfold find_available_dates.
  destruct (_ !! office_name) as [exit_id|]; [|apply preserves_lift].
  eapply preserves_with_requester; [done..|]. intros r.
  apply preserves_bind; [eapply preserves_post_text; eauto|].
  intros rr. apply preserves_lift.
Qed.

Lemma preserves_check_for_specific_date I ok `{!Frame I} f office_name date_to_check t :
  logs I ok -> ok (form_request ∅) ->
  (forall exit_id r, _exit_ids f !! office_name = Some exit_id ->
                     ok (senddate_request f exit_id date_to_check r)) ->
  preserves I (check_for_specific_date f office_name date_to_check t).
Proof.
  intros Hlogs Hform Hpost. unfold check_for_specific_date.
  destruct (_ !! office_name) as [exit_id|]; [|apply preserves_lift].
  eapply preserves_with_requester; [done..|]. intros r.
  apply preserves_bind; [eapply preserves_post_text; eauto|].
  intros rr. apply preserves_ret.
Qed.

(** The queries of a registered office in one step. *)
Lemma find_available_dates_run f office_name exit_id search_before w :
  _exit_ids f !! office_name = Some exit_id ->
  find_available_dates f office_name search_before w =
  match requester_init w with
  | (Ok r, w1) =>
      let rq := getdate_request f exit_id r in
      (match net_answer (trace w1) rq with
       | Answered a => dates_of_response (text a) search_before
       | Failed d => Raise (NetworkFailure d)
       end, requester_exit r (log_request rq w1))
  | (Raise e, w1) => (Raise e, w1)
  | (Exit, w1) => (Exit, w1)
  end.
Proof.
  intros Hid. unfold find_available_dates. rewrite Hid, with_requester_run.
  destruct (requester_init w) as [[r|e|] w1]; [|done..].
  unfold post_getdate. rewrite !post_text_then.
  fold (getdate_request f exit_id r). by destruct (net_answer _ _).
Qed.

Lemma check_for_specific_date_run f office_name exit_id date_to_check t w :
  _exit_ids f !! office_name = Some exit_id ->
  check_for_specific_date f office_name date_to_check t w =
  match requester_init w with
  | (Ok r, w1) =>
      let rq := senddate_request f exit_id date_to_check r in
      (match net_answer (trace w1) rq with
       | Answered a => Ok (parse_available_hours (text a) t)
       | Failed d => Raise (NetworkFailure d)
       end, requester_exit r (log_request rq w1))
  | (Raise e, w1) => (Raise e, w1)
  | (Exit, w1) => (Exit, w1)
  end.
Proof.
  intros Hid. unfold check_for_specific_date. rewrite Hid, with_requester_run.
  destruct (requester_init w) as [[r|e|] w1]; [|done..].
  unfold post_senddate. rewrite !post_text_then.
  fold (senddate_request f exit_id date_to_check r).
  destruct (net_answer _ _); [|done]. cbn. by rewrite hours_of_response_id.
Qed.

(** After a constructor that returned, the world of a query: two
    requests, and the sessions as before. *)
Lemma query_world w r w1 rq :
  wf_world w -> requester_init w = (Ok r, w1) ->
  trace (requester_exit r (log_request rq w1)) = trace w ++ [form_request ∅; rq] /\
  open_sessions (requester_exit r (log_request rq w1)) = open_sessions w.
Proof.
  intros Hw Hinit. pose proof (requester_init_run w) as Hrun.
  rewrite Hinit in Hrun. cbv zeta in Hrun. injection Hrun as _ ->. split.
  - cbn. by rewrite <- app_assoc.
  - apply open_close_sessions; [done|by eapply requester_init_id|done].
Qed.

(** C8. A query for an office that was not registered raises the
    [ValueError] of the office check at once: nothing is sent and no
    session is opened. *)
Theorem query_unregistered f office_name w :
  _exit_ids f !! office_name = None ->
  (forall search_before,
     find_available_dates f office_name search_before w =
     (Raise (InvalidOfficeName office_name), w)) /\
  (forall date_to_check t,
     check_for_specific_date f office_name date_to_check t w =
     (Raise (InvalidOfficeName office_name), w)) /\
  class_of (InvalidOfficeName office_name) = ValueError.
Proof.
  intros Hid. unfold find_available_dates, check_for_specific_date.
  by rewrite Hid.
Qed.

(** C1. For a registered office whose requester is constructed,
    [find_available_dates] sends the form GET and then one POST of the
    date query with the identity of the office; when that is answered the
    result is the filter of the texts extracted from the answer (the empty
    list when none is extracted, without reading the cutoff), and the
    session is closed. *)
Theorem find_available_dates_answered f office_name exit_id search_before w r w1 a :
  wf_world w ->
  _exit_ids f !! office_name = Some exit_id ->
  requester_init w = (Ok r, w1) ->
  net_answer (trace w ++ [form_request ∅]) (getdate_request f exit_id r) = Answered a ->
  let res := find_available_dates f office_name search_before w in
  res.1 = match parse_available_dates (text a) with
          | [] => Ok []
          | dates => remove_dates_before dates search_before
          end /\
  trace res.2 = trace w ++ [form_request ∅; getdate_request f exit_id r] /\
  open_sessions res.2 = open_sessions w.
Proof.
  intros Hw Hid Hinit Hnet res. subst res.
  rewrite (find_available_dates_run _ _ _ _ _ Hid), Hinit. cbv zeta. cbn [fst snd].
  pose proof (requester_init_run w) as Hrun. rewrite Hinit in Hrun.
  injection Hrun as _ Hw1. rewrite Hw1 at 1. cbn [trace log_request session_new snd].
  rewrite Hnet, dates_of_response_filter. split; [done|].
  by apply query_world.
Qed.

Lemma dates_of_response_sound response search_before l :
  dates_of_response response search_before = Ok l ->
  sublist l (parse_available_dates response) /\
  Forall (fun s => exists c d, strptime search_before = Ok c /\ strptime s = Ok d /\
                               toordinal d < toordinal c) l.
Proof.
  rewrite dates_of_response_filter.
  destruct (parse_available_dates response) as [|x xs]; [by intros [= <-]|].
  intros Hr. split; [by eapply remove_dates_before_sublist_aux|].
  destruct (remove_dates_before_ok_inv _ _ _ Hr) as (c & Hc & _).
  eapply list.Forall_impl; [exact (remove_dates_before_strict _ _ _ c Hr Hc)|].
  intros s (d & ? & ?). by exists c, d.
Qed.

Lemma dates_of_response_not_exit response search_before :
  dates_of_response response search_before <> Exit.
Proof.
  rewrite dates_of_response_filter. destruct (parse_available_dates response); [done|].
  apply remove_dates_before_not_exit.
Qed.

Lemma dates_of_response_raise response search_before e :
  dates_of_response response search_before = Raise e ->
  class_of e = ValueError /\
  parse_available_dates response <> [] /\
  (strptime search_before = Raise e \/
   exists s, s ∈ parse_available_dates response /\ strptime s = Raise e).
Proof.
  rewrite dates_of_response_filter.
  destruct (parse_available_dates response) as [|x xs]; [done|].
  intros Hr. split; [by eapply remove_dates_before_errors|]. split; [done|].
  by apply remove_dates_before_raise_inv.
Qed.

(** What a date query that returned has seen. *)
Lemma find_available_dates_ok_inv f office_name search_before w l w' :
  find_available_dates f office_name search_before w = (Ok l, w') ->
  exists exit_id r w1 a,
    _exit_ids f !! office_name = Some exit_id /\
    requester_init w = (Ok r, w1) /\
    net_answer (trace w1) (getdate_request f exit_id r) = Answered a /\
    dates_of_response (text a) search_before = Ok l /\
    w' = requester_exit r (log_request (getdate_request f exit_id r) w1).
Proof.
  destruct (_exit_ids f !! office_name) as [exit_id|] eqn:Hid;
    [|by unfold find_available_dates; rewrite Hid].
  rewrite (find_available_dates_run _ _ _ _ _ Hid).
  destruct (requester_init w) as [[r|e|] w1]; [|done..]. cbv zeta.
  destruct (net_answer _ _) as [a|d] eqn:Hnet; [|done].
  intros [= Hl <-]. by exists exit_id, r, w1, a.
Qed.

(** What a slot query that returned has seen. *)
Lemma check_for_specific_date_ok_inv f office_name date_to_check t w l w' :
  check_for_specific_date f office_name date_to_check t w = (Ok l, w') ->
  exists exit_id r a,
    _exit_ids f !! office_name = Some exit_id /\
    net_answer (trace w ++ [form_request ∅])
      (senddate_request f exit_id date_to_check r) = Answered a /\
    l = parse_available_hours (text a) t /\
    trace w' = trace w ++ [form_request ∅; senddate_request f exit_id date_to_check r].
Proof.
  destruct (_exit_ids f !! office_name) as [exit_id|] eqn:Hid;
    [|by unfold check_for_specific_date; rewrite Hid].
  rewrite (check_for_specific_date_run _ _ _ _ _ _ Hid).
  pose proof (requester_init_world w) as Hw1.
  destruct (requester_init w) as [[r|e|] w1]; [|done..]. cbv zeta. cbn [snd] in Hw1.
  subst w1. cbn [trace log_request session_new snd].
  destruct (net_answer _ _) as [a|d] eqn:Hnet; [|done].
  intros [= <- <-]. exists exit_id, r, a. split_and!; [done..|].
  cbn. by rewrite <- app_assoc.
Qed.

(** C7. Every date [find_available_dates] returns was extracted from
    the answer to the date query that the requester built by this call
    sent, in the order of the answer, and spells a date strictly earlier
    than the cutoff. *)
Theorem find_available_dates_sound f office_name search_before w l w' :
  find_available_dates f office_name search_before w = (Ok l, w') ->
  exists exit_id r w1 a,
    _exit_ids f !! office_name = Some exit_id /\
    requester_init w = (Ok r, w1) /\
    net_answer (trace w ++ [form_request ∅]) (getdate_request f exit_id r) = Answered a /\
    sublist l (parse_available_dates (text a)) /\
    Forall (fun s => exists c d, strptime search_before = Ok c /\ strptime s = Ok d /\
                                 toordinal d < toordinal c) l.
Proof.
  intros (exit_id & r & w1 & a & Hid & Hinit & Hnet & Hl & _)%find_available_dates_ok_inv.
  pose proof Hinit as (_ & _ & _ & _ & _ & _ & _ & _ & Hw1)%requester_init_ok_inv.
  rewrite Hw1 in Hnet.
  destruct (dates_of_response_sound _ _ _ Hl) as [Hsub Hall]. by exists exit_id, r, w1, a.
Qed.

(** C17. For a registered office whose requester is constructed,
    [check_for_specific_date] sends the form GET and then one POST of the
    slot query with the date and the identity of the office; when that is
    answered the result is the texts of the elements of the class the slot
    type selects, and the session is closed. *)
Theorem check_for_specific_date_answered f office_name exit_id date_to_check t w r w1 a :
  wf_world w ->
  _exit_ids f !! office_name = Some exit_id ->
  requester_init w = (Ok r, w1) ->
  net_answer (trace w ++ [form_request ∅]) (senddate_request f exit_id date_to_check r)
    = Answered a ->
  let res := check_for_specific_date f office_name date_to_check t w in
  res.1 = Ok (parse_available_hours (text a) t) /\
  trace res.2 = trace w ++ [form_request ∅; senddate_request f exit_id date_to_check r] /\
  open_sessions res.2 = open_sessions w.
Proof.
  intros Hw Hid Hinit Hnet res. subst res.
  rewrite (check_for_specific_date_run _ _ _ _ _ _ Hid), Hinit. cbv zeta. cbn [fst snd].
  pose proof (requester_init_run w) as Hrun. rewrite Hinit in Hrun.
  injection Hrun as _ Hw1. rewrite Hw1 at 1. cbn [trace log_request session_new snd].
  rewrite Hnet. split; [done|]. by apply query_world.
Qed.

(** C20. Once the requester of a query is constructed its session is
    closed however the query ends: by an answer, by a failure of the
    network or by a date that does not parse. *)
Theorem query_closes_session f office_name w :
  wf_world w -> is_ok (requester_init w).1 = true ->
  (forall search_before,
     open_sessions (find_available_dates f office_name search_before w).2 =
     open_sessions w) /\
  (forall date_to_check t,
     open_sessions (check_for_specific_date f office_name date_to_check t w).2 =
     open_sessions w).
Proof.
  intros Hw Hok. destruct (requester_init w) as [[r| |] w1] eqn:Hinit; [|done..].
  destruct (_exit_ids f !! office_name) as [exit_id|] eqn:Hid.
  - split; intros;
      [rewrite (find_available_dates_run _ _ _ _ _ Hid)
      |rewrite (check_for_specific_date_run _ _ _ _ _ _ Hid)];
      rewrite Hinit; by apply query_world.
  - unfold find_available_dates, check_for_specific_date. by rewrite Hid.
Qed.

(** C21. The POST of a date query carries what the constructor
    received: the header [X-CSRF-TOKEN] holds the [content] of the [meta]
    tag of the form page, the cookies include [c_policy=ok] and
    [visited=yes], and the field [exitid] is the registered identity of
    the office, printed in decimal. *)
Theorem getdate_request_carries f exit_id w r w1 :
  requester_init w = (Ok r, w1) ->
  let rq := getdate_request f exit_id r in
  exists a m,
    net_answer (trace w) (form_request ∅) = Answered a /\
    find_tag_attr "meta" "name" "csrf-token" (html_parse (text a)) = Some m /\
    tag_item m "content" = Ok (_x_csrf_token r) /\
    ("X-CSRF-TOKEN", _x_csrf_token r) ∈ req_headers rq /\
    req_cookies rq !! "c_policy" = Some "ok" /\
    req_cookies rq !! "visited" = Some "yes" /\
    ("exitid", str_of_int exit_id) ∈ req_data rq /\
    req_method rq = POST /\ req_url rq = URL_GET_DATE /\ req_timeout rq = 10.
Proof.
  intros (a & m & Hnet & _ & Hm & Hv & _ & Hs & _)%requester_init_ok_inv rq.
  exists a, m. split_and!; try done.
  - apply get_headers_token.
  - cbn. by rewrite Hs, set_consent_lookup.
  - cbn. by rewrite Hs, set_consent_lookup.
  - cbn. set_solver.
Qed.

(** C29. The exceptions of a date query: the [ValueError] of the office
    check, exactly for an office that is not registered; a failure of the
    network; the [KeyError] of a [meta] tag without [content]; and the
    [ValueError] of [strptime], on the cutoff or on a text extracted from
    the answer to the date query, and then only when something was
    extracted. *)
Theorem find_available_dates_raises f office_name search_before w e :
  (find_available_dates f office_name search_before w).1 = Raise e ->
  (_exit_ids f !! office_name = None /\ e = InvalidOfficeName office_name) \/
  (exists exit_id,
     _exit_ids f !! office_name = Some exit_id /\
     ((exists d, e = NetworkFailure d) \/ e = MissingKey "content" \/
      (class_of e = ValueError /\
       exists r w1 a,
         requester_init w = (Ok r, w1) /\
         net_answer (trace w1) (getdate_request f exit_id r) = Answered a /\
         parse_available_dates (text a) <> [] /\
         (strptime search_before = Raise e \/
          exists s, s ∈ parse_available_dates (text a) /\ strptime s = Raise e)))).
Proof.
  destruct (_exit_ids f !! office_name) as [exit_id|] eqn:Hid.
  - rewrite (find_available_dates_run _ _ _ _ _ Hid). intros He. right.
    exists exit_id. split; [done|]. revert He.
    pose proof (requester_init_raise w) as Hinit.
    destruct (requester_init w) as [[r|e'|] w1]; cbn; [|intros [= <-]; naive_solver|done].
    destruct (net_answer _ _) as [a|d] eqn:Hnet; [|intros [= <-]; eauto].
    intros (Hc & Hne & Hs)%dates_of_response_raise. right; right.
    split; [done|]. by exists r, w1, a.
  - unfold find_available_dates. rewrite Hid. cbn. intros [= <-]. by left.
Qed.

(** C30. A date query exits the process exactly when the office is
    registered and the form page is answered with a status other than
    200 or without a [meta] tag named [csrf-token]; the date query itself
    is then not sent. *)
Theorem find_available_dates_exits f office_name search_before w :
  (find_available_dates f office_name search_before w).1 = Exit <->
  is_Some (_exit_ids f !! office_name) /\
  exists a, net_answer (trace w) (form_request ∅) = Answered a /\
            (status_code a <> 200 \/
             find_tag_attr "meta" "name" "csrf-token" (html_parse (text a)) = None).
Proof.
  destruct (_exit_ids f !! office_name) as [exit_id|] eqn:Hid.
  - rewrite (find_available_dates_run _ _ _ _ _ Hid), <- requester_init_exit.
    destruct (requester_init w) as [[r|e'|] w1]; cbn; [|naive_solver..].
    split; [|naive_solver]. destruct (net_answer _ _) as [a|d]; [|done].
    by intros ?%dates_of_response_not_exit.
  - unfold find_available_dates. rewrite Hid. cbn. split; [done|].
    by intros [[? [=]] _].
Qed.

End finder_laws.

#[export] Hint Resolve monotone_find_available_dates monotone_check_for_specific_date
  balanced_find_available_dates balanced_check_for_specific_date : py.

(** ** Witnesses *)

(** The scenario of the specification: the office Altunizade with the
    identity 8, an answer with the dates 10-11-2023 and 20-11-2023, and
    the cutoff 18-11-2023. *)
Example find_available_dates_example :
  @find_available_dates site_parser site one_office "Altunizade" "18-11-2023"
    initial_world =
  (Ok ["10-11-2023"], after_query (getdate_request one_office 8 site_requester)).
Proof. vm_compute. reflexivity. Qed.

Example check_for_specific_date_example :
  (@check_for_specific_date site_parser site one_office "Altunizade" "10-11-2023"
     "free" initial_world).1 = Ok ["09:00"; "10:00"].
Proof. vm_compute. reflexivity. Qed.

Example find_available_dates_exits_example :
  @find_available_dates site_parser (site_with 503 "") one_office "Altunizade"
    "18-11-2023" initial_world =
  (Exit, World [form_request ∅] 1 {[0%nat]} 0).
Proof. vm_compute. reflexivity. Qed.

Lemma site_init :
  @requester_init site_parser site initial_world =
  (Ok site_requester, World [form_request ∅] 1 {[0%nat]} 0).
Proof. vm_compute. reflexivity. Qed.

Lemma query_unregistered_witness :
  @find_available_dates site_parser site one_office "Gayrettepe" "18-11-2023"
    initial_world = (Raise (InvalidOfficeName "Gayrettepe"), initial_world).
Proof.
  assert (_exit_ids one_office !! "Gayrettepe" = None) as Hid
    by (vm_compute; reflexivity).
  destruct (@query_unregistered site_parser site one_office "Gayrettepe" initial_world
              Hid) as [Hdates _].
  exact (Hdates "18-11-2023").
Defined.

Lemma find_available_dates_answered_witness :
  (@find_available_dates site_parser site one_office "Altunizade" "18-11-2023"
     initial_world).1 = Ok ["10-11-2023"].
Proof.
  assert (_exit_ids one_office !! "Altunizade" = Some 8) as Hid
    by (vm_compute; reflexivity).
  assert (site ([] ++ [form_request ∅]) (getdate_request one_office 8 site_requester)
          = Answered (Response 200 "DATES" [])) as Hnet by (vm_compute; reflexivity).
  destruct (@find_available_dates_answered site_parser site one_office "Altunizade"
    8 "18-11-2023" initial_world site_requester _ _ wf_initial Hid site_init Hnet)
    as [-> _].
  vm_compute. reflexivity.
Defined.

Lemma find_available_dates_sound_witness :
  exists exit_id r a,
    _exit_ids one_office !! "Altunizade" = Some exit_id /\
    site [form_request ∅] (getdate_request one_office exit_id r) = Answered a /\
    sublist ["10-11-2023"] (@parse_available_dates site_parser (text a)).
Proof.
  assert (@find_available_dates site_parser site one_office "Altunizade" "18-11-2023"
            initial_world =
          (Ok ["10-11-2023"], after_query (getdate_request one_office 8 site_requester)))
    as Hrun by (vm_compute; reflexivity).
  destruct (@find_available_dates_sound site_parser site _ _ _ _ _ _ Hrun)
    as (exit_id & r & w1 & a & ? & _ & ? & ? & _).
  by exists exit_id, r, a.
Defined.

Lemma check_for_specific_date_answered_witness :
  (@check_for_specific_date site_parser site one_office "Altunizade" "10-11-2023"
     "prime" initial_world).1 = Ok ["09:30"].
Proof.
  assert (_exit_ids one_office !! "Altunizade" = Some 8) as Hid
    by (vm_compute; reflexivity).
  assert (site ([] ++ [form_request ∅])
            (senddate_request one_office 8 "10-11-2023" site_requester)
          = Answered (Response 200 "HOURS" [])) as Hnet by (vm_compute; reflexivity).
  destruct (@check_for_specific_date_answered site_parser site one_office
    "Altunizade" 8 "10-11-2023" "prime" initial_world site_requester _ _
    wf_initial Hid site_init Hnet) as [-> _].
  vm_compute. reflexivity.
Defined.

Lemma query_closes_session_witness :
  open_sessions (@find_available_dates site_parser site one_office "Altunizade"
                   "18/11/2023" initial_world).2 = ∅.
Proof.
  assert (is_ok (@requester_init site_parser site initial_world).1 = true) as Hok
    by (vm_compute; reflexivity).
  destruct (@query_closes_session site_parser site one_office "Altunizade"
              initial_world wf_initial Hok) as [Hdates _].
  exact (Hdates "18/11/2023").
Defined.

Lemma getdate_request_carries_witness :
  ("X-CSRF-TOKEN", AStr "tok-1") ∈ req_headers (getdate_request one_office 8 site_requester) /\
  ("exitid", str_of_int 8) ∈ req_data (getdate_request one_office 8 site_requester).
Proof.
  destruct (@getdate_request_carries site_parser site one_office 8 initial_world
    site_requester _ site_init) as (a & m & _ & _ & _ & Hh & _ & _ & Hd & _).
  split; [exact Hh|exact Hd].
Defined.

Lemma find_available_dates_raises_witness :
  class_of (TimeDataMismatch "18/11/2023") = ValueError.
Proof.
  assert ((@find_available_dates site_parser site one_office "Altunizade" "18/11/2023"
             initial_world).1 = Raise (TimeDataMismatch "18/11/2023")) as Hrun
    by (vm_compute; reflexivity).
  destruct (@find_available_dates_raises site_parser site _ _ _ _ _ Hrun)
    as [[_ [=]]|(exit_id & _ & [[d [=]]|[[=]|[Hc _]]])].
  exact Hc.
Defined.
