(* ===== verification/Polling.v ===== *)
(** * Polling: what the three entry points share

    Each entry point registers two phones, then runs

      [try: (set-up); while True: (sweep); sleep(t)]
      [except Exception as e: whatsapp.send_message(phone_1, f"... {e}")]

    This file holds the parts that do not depend on what a sweep does:
    - [notify_both], the two [send_message] calls after a find;
    - [str_of_exn], the text of [{e}] in the report (the texts of the
      exceptions of libraries are the interface [LibMessages]);
    - [report_error], the handler;
    - [polling_program sweep report n], the program observed for [n]
      rounds of its loop;
    - the program as a machine: the phases [Polling], [Reporting],
      [Ended], the step function [next] and the step relation [step], with
      the theorems that relate the machine to [polling_program]. *)

From stdpp Require Import base tactics list strings gmap relations.
From Stdlib Require Import ZArith Lia.
From S2P Require Import Prelude PyString Calendar Html Http Hoare Notifier Requester.

Local Open Scope Z_scope.
Local Open Scope py_scope.

(** [str(e)] for the exceptions that libraries raise. *)
Class LibMessages := lib_message : exn -> string.

(** [str(e)]: the text of the program's own exception is in the source. *)
Definition str_of_exn `{!LibMessages} (e : exn) : string :=
  match e with
  | InvalidOfficeName office_name => "Invalid office name: " +:+ office_name
  | _ => lib_message e
  end.

(** [date.today()]: the date the clock shows in a world. *)
Class Clock := today_of : world -> date.

(** The phases of an entry point: in its loop, in its handler with the
    exception caught, or over with the outcome of the process. *)
Inductive phase :=
| Polling
| Reporting (e : exn)
| Ended (o : outcome unit).

Definition pstate : Type := phase * world.

Section polling.
Context `{!Network, !LibMessages}.

(** [whatsapp.send_message(phone_1, message)] and
    [whatsapp.send_message(phone_2, message)]; the booleans are dropped. *)
Definition notify_both (whatsapp : notifier) (phone_1 phone_2 message : string)
    : io unit :=
  _ <~ send_message whatsapp phone_1 message ;;
  _ <~ send_message whatsapp phone_2 message ;;
  io_ret tt.

(** [if found: (notify)] *)
Definition notify_if_found (whatsapp : notifier) (phone_1 phone_2 : string)
    (found : list string) (message : string) : io unit :=
  if bool_decide (found = []) then io_ret tt
  else notify_both whatsapp phone_1 phone_2 message.

(** The handler: [whatsapp.send_message(phone_1, f"{prefix}{e}")]. *)
Definition report_error (whatsapp : notifier) (phone_1 prefix : string) (e : exn)
    : io unit :=
  _ <~ send_message whatsapp phone_1 (prefix +:+ str_of_exn e) ;;
  io_ret tt.

(** The entry point, observed for [n] rounds of its loop. *)
Definition polling_program (sweep : io unit) (report : exn -> io unit) (n : nat)
    : io unit :=
  io_try_except (rounds n sweep) report.

(** One step of the machine. *)
Definition next (sweep : io unit) (report : exn -> io unit) (s : pstate)
    : option pstate :=
  match s with
  | (Polling, w) =>
      Some (match sweep w with
            | (Ok _, w') => (Polling, w')
            | (Raise e, w') => (Reporting e, w')
            | (Exit, w') => (Ended Exit, w')
            end)
  | (Reporting e, w) => let '(o, w') := report e w in Some (Ended o, w')
  | (Ended _, _) => None
  end.

Fixpoint run (sweep : io unit) (report : exn -> io unit) (n : nat) (s : pstate)
    : pstate :=
  match n with
  | O => s
  | S n' =>
      match next sweep report s with
      | Some s' => run sweep report n' s'
      | None => s
      end
  end.

End polling.

Inductive step (sweep : io unit) (report : exn -> io unit)
    : pstate -> pstate -> Prop :=
| step_round w w' :
    sweep w = (Ok tt, w') -> step sweep report (Polling, w) (Polling, w')
| step_raise w e w' :
    sweep w = (Raise e, w') -> step sweep report (Polling, w) (Reporting e, w')
| step_exit w w' :
    sweep w = (Exit, w') -> step sweep report (Polling, w) (Ended Exit, w')
| step_report e w o w' :
    report e w = (o, w') -> step sweep report (Reporting e, w) (Ended o, w').

(** The example site of [Requester] with a gateway that accepts every
    message, and library texts, for running the script on examples. *)
Definition site_and_gateway : Network :=
  static_network (fun rq =>
    if bool_decide (req_url rq ∈ [URL_APPOINTMENT_FORM; URL_GET_DATE; URL_SEND_DATE])
    then site_answer rq
    else Answered (Response 200 "Message queued" [])).

(** A site whose form page times out, with a gateway that answers. *)
Definition site_down : Network :=
  static_network (fun rq =>
    if bool_decide (req_url rq = URL_APPOINTMENT_FORM)
    then Failed "timed out" else Answered (Response 200 "" [])).

Definition short_messages : LibMessages := fun e =>
  match e with
  | NetworkFailure detail => detail
  | MissingKey key => repr_str key
  | _ => "ValueError"
  end.

(** ** Lemmas *)

Section polling_laws.
Context `{!Network, !LibMessages}.
Implicit Types (sweep : io unit) (report : exn -> io unit).

Lemma notify_both_run whatsapp phone_1 phone_2 message w :
  notify_both whatsapp phone_1 phone_2 message w =
  match send_message whatsapp phone_1 message w with
  | (Ok _, w1) =>
      match send_message whatsapp phone_2 message w1 with
      | (Ok _, w2) => (Ok tt, w2)
      | (Raise e, w2) => (Raise e, w2)
      | (Exit, w2) => (Exit, w2)
      end
  | (Raise e, w1) => (Raise e, w1)
  | (Exit, w1) => (Exit, w1)
  end.
Proof.
  unfold notify_both, io_bind.
  destruct (send_message whatsapp phone_1 message w) as [[b|e|] w1]; [|done..].
  by destruct (send_message whatsapp phone_2 message w1) as [[b'|e|] w2].
Qed.

Lemma keeps_notify_both whatsapp phone_1 phone_2 message :
  keeps_sessions (notify_both whatsapp phone_1 phone_2 message).
Proof.
  apply keeps_bind; [apply keeps_send_message|]. intros _.
  apply keeps_bind; [apply keeps_send_message|]. intros _. apply keeps_ret.
Qed.

Lemma keeps_notify_if_found whatsapp phone_1 phone_2 found message :
  keeps_sessions (notify_if_found whatsapp phone_1 phone_2 found message).
Proof.
  unfold notify_if_found. case_bool_decide; [apply keeps_ret|apply keeps_notify_both].
Qed.

Lemma keeps_report_error whatsapp phone_1 prefix e :
  keeps_sessions (report_error whatsapp phone_1 prefix e).
Proof. apply keeps_bind; [apply keeps_send_message|]. intros _. apply keeps_ret. Qed.

Lemma preserves_notify_both I ok whatsapp phone_1 phone_2 message :
  logs I ok ->
  (forall phone key, _phones_api_keys whatsapp !! phone = Some key ->
                     ok (notify_request whatsapp phone message key)) ->
  preserves I (notify_both whatsapp phone_1 phone_2 message).
Proof.
  intros Hlogs Hok.
  apply preserves_bind; [eapply preserves_send_message; eauto|]. intros _.
  apply preserves_bind; [eapply preserves_send_message; eauto|]. intros _.
  apply preserves_ret.
Qed.

Lemma preserves_notify_if_found I ok whatsapp phone_1 phone_2 found message :
  logs I ok ->
  (forall phone key, _phones_api_keys whatsapp !! phone = Some key ->
                     ok (notify_request whatsapp phone message key)) ->
  preserves I (notify_if_found whatsapp phone_1 phone_2 found message).
Proof.
  intros Hlogs Hok. unfold notify_if_found.
  case_bool_decide; [apply preserves_ret|by eapply preserves_notify_both].
Qed.

Lemma preserves_report_error I ok whatsapp phone_1 prefix e :
  logs I ok ->
  (forall key, _phones_api_keys whatsapp !! phone_1 = Some key ->
               ok (notify_request whatsapp phone_1 (prefix +:+ str_of_exn e) key)) ->
  preserves I (report_error whatsapp phone_1 prefix e).
Proof.
  intros Hlogs Hok.
  apply preserves_bind; [eapply preserves_send_message; eauto|]. intros _.
  apply preserves_ret.
Qed.

(** Two phones with keys, and a gateway that answers: both messages go
    out, in this order. *)
Lemma notify_both_answered whatsapp phone_1 phone_2 key_1 key_2 message w a1 a2 :
  _phones_api_keys whatsapp !! phone_1 = Some key_1 -> key_1 <> EmptyString ->
  _phones_api_keys whatsapp !! phone_2 = Some key_2 -> key_2 <> EmptyString ->
  let rq1 := notify_request whatsapp phone_1 message key_1 in
  let rq2 := notify_request whatsapp phone_2 message key_2 in
  net_answer (trace w) rq1 = Answered a1 ->
  net_answer (trace w ++ [rq1]) rq2 = Answered a2 ->
  notify_both whatsapp phone_1 phone_2 message w =
  (Ok tt, log_request rq2 (log_request rq1 w)).
Proof.
  intros Hk1 Hne1 Hk2 Hne2 rq1 rq2 Hnet1 Hnet2. subst rq1 rq2.
  rewrite notify_both_run.
  rewrite (send_message_answered _ _ _ _ _ _ Hk1 Hne1 Hnet1). cbv beta iota.
  by rewrite (send_message_answered _ _ _ _ (log_request _ w) _ Hk2 Hne2 Hnet2).
Qed.

(** With keys for both phones the notifications do not exit. *)
Lemma notify_both_not_exit whatsapp phone_1 phone_2 key_1 key_2 message w :
  _phones_api_keys whatsapp !! phone_1 = Some key_1 -> key_1 <> EmptyString ->
  _phones_api_keys whatsapp !! phone_2 = Some key_2 -> key_2 <> EmptyString ->
  (notify_both whatsapp phone_1 phone_2 message w).1 <> Exit.
Proof.
  intros Hk1 Hne1 Hk2 Hne2. rewrite notify_both_run.
  destruct (send_message_sent whatsapp phone_1 message key_1 w Hk1 Hne1) as [Hx1 _].
  destruct (send_message _ phone_1 _ w) as [[b|e|] w1]; [|done..].
  destruct (send_message_sent whatsapp phone_2 message key_2 w1 Hk2 Hne2) as [Hx2 _].
  by destruct (send_message _ phone_2 _ w1) as [[b'|e|] w2].
Qed.

(** The handler sends one message, to the first phone. *)
Lemma report_error_sent whatsapp phone_1 key prefix e w :
  _phones_api_keys whatsapp !! phone_1 = Some key -> key <> EmptyString ->
  let rq := notify_request whatsapp phone_1 (prefix +:+ str_of_exn e) key in
  report_error whatsapp phone_1 prefix e w =
  (match net_answer (trace w) rq with
   | Answered _ => Ok tt
   | Failed d => Raise (NetworkFailure d)
   end, log_request rq w).
Proof.
  intros Hk Hne rq. unfold report_error, io_bind.
  rewrite send_message_run, Hk, bool_decide_eq_false_2 by done. cbv zeta.
  fold rq. by destruct (net_answer _ _).
Qed.

(** ** The loop *)

Lemma rounds_S n sweep w :
  rounds (S n) sweep w =
  match sweep w with
  | (Ok _, w') => rounds n sweep w'
  | (Raise e, w') => (Raise e, w')
  | (Exit, w') => (Exit, w')
  end.
Proof. reflexivity. Qed.

(** Once the loop has ended, more rounds change nothing. *)
Lemma rounds_stable n m sweep w :
  (rounds n sweep w).1 <> Ok tt -> (n <= m)%nat -> rounds m sweep w = rounds n sweep w.
Proof.
  intros Hend Hle. replace m with (n + (m - n))%nat by lia.
  rewrite rounds_add. unfold io_bind.
  by destruct (rounds n sweep w) as [[[]|e|] w'].
Qed.

(** Rounds that sleep [d] seconds each: after [n] rounds that returned
    the clock shows [n * d] seconds more. *)
Lemma rounds_clock n sweep d w w' :
  (forall t, triple (fun w => slept w = t) sweep
               (loop_post (fun w => slept w = t + d) (fun _ _ => True))) ->
  rounds n sweep w = (Ok tt, w') -> slept w' = slept w + Z.of_nat n * d.
Proof.
  intros Hsweep. revert w; induction n as [|n IH]; intros w.
  - intros [= <-]. lia.
  - rewrite rounds_S. specialize (Hsweep (slept w) w eq_refl).
    destruct (sweep w) as [[[]|e|] w1]; [|done..]. cbn in Hsweep.
    intros ->%IH. lia.
Qed.

(** ** The machine *)

Lemma next_step sweep report s s' :
  next sweep report s = Some s' <-> step sweep report s s'.
Proof.
  split.
  - destruct s as [[|e|o] w]; cbn; [| |done].
    + destruct (sweep w) as [[[]|e|] w'] eqn:Hs; intros [= <-]; by constructor.
    + destruct (report e w) as [o w'] eqn:Hr. intros [= <-]. by constructor.
  - intros [w w' Hs|w e w' Hs|w w' Hs|e w o w' Hr]; cbn; by rewrite ?Hs, ?Hr.
Qed.

Lemma step_deterministic sweep report s s1 s2 :
  step sweep report s s1 -> step sweep report s s2 -> s1 = s2.
Proof. rewrite <- !next_step. congruence. Qed.

Lemma step_ended sweep report o w s : ~ step sweep report (Ended o, w) s.
Proof. by rewrite <- next_step. Qed.

Lemma rtc_ended sweep report o w s :
  rtc (step sweep report) (Ended o, w) s -> s = (Ended o, w).
Proof.
  intros Hs. inversion Hs as [|? s2 ? Hstep _]; subst; [done|].
  by apply step_ended in Hstep.
Qed.

(** From the handler the machine can only end, with the outcome of the
    handler. *)
Lemma rtc_reporting sweep report e w o w' :
  rtc (step sweep report) (Reporting e, w) (Ended o, w') -> report e w = (o, w').
Proof.
  intros Hs. inversion Hs as [|s1 s2 s3 Hstep Hrest]; subst.
  inversion Hstep; subst. apply rtc_ended in Hrest. congruence.
Qed.

(** The rounds of the program are steps of the machine. *)
Lemma rounds_steps n sweep report w :
  rtc (step sweep report) (Polling, w)
    match rounds n sweep w with
    | (Ok _, w') => (Polling, w')
    | (Raise e, w') => (Reporting e, w')
    | (Exit, w') => (Ended Exit, w')
    end.
Proof.
  revert w; induction n as [|n IH]; intros w; [done|]. rewrite rounds_S.
  destruct (sweep w) as [[[]|e|] w'] eqn:Hs.
  - eapply rtc_l; [by apply step_round|apply IH].
  - by apply rtc_once, step_raise.
  - by apply rtc_once, step_exit.
Qed.

(** The step function runs the machine. *)
Lemma run_steps sweep report n s : rtc (step sweep report) s (run sweep report n s).
Proof.
  revert s; induction n as [|n IH]; intros s; [done|]. cbn [run].
  destruct (next sweep report s) as [s'|] eqn:Hs; [|done].
  eapply rtc_l; [by apply next_step|apply IH].
Qed.

(** The loop is entered once: a state that reaches the loop is in it. *)
Lemma nsteps_polling n sweep report s w' :
  nsteps (step sweep report) n s (Polling, w') -> s.1 = Polling.
Proof.
  remember (Polling, w') as s' eqn:Hs'. intros Hs.
  induction Hs as [|k s1 s2 s3 Hstep _ IH]; [by subst|].
  specialize (IH Hs'). destruct Hstep; cbn in *; done.
Qed.

(** The steps of the machine that stay in the loop are rounds that
    returned. *)
Lemma nsteps_rounds n sweep report w w' :
  nsteps (step sweep report) n (Polling, w) (Polling, w') ->
  rounds n sweep w = (Ok tt, w').
Proof.
  revert w; induction n as [|n IH]; intros w Hs.
  - inversion Hs; by subst.
  - inversion Hs as [|k s1 s2 s3 Hstep Hrest]; subst.
    pose proof (nsteps_polling _ _ _ _ _ Hrest) as Hph.
    inversion Hstep as [w0 w1 Hsw| | |]; subst; try done.
    rewrite rounds_S, Hsw. by apply IH.
Qed.

(** An invariant of the sweep and of the handler is an invariant of the
    machine. *)
Lemma step_invariant (I : world -> Prop) sweep report s s' :
  preserves I sweep -> (forall e, preserves I (report e)) ->
  step sweep report s s' -> I s.2 -> I s'.2.
Proof.
  intros Hsweep Hreport [w w' Hs|w e w' Hs|w w' Hs|e w o w' Hr] Hw; cbn in *.
  1-3: specialize (Hsweep w Hw); by rewrite Hs in Hsweep.
  specialize (Hreport e w Hw). by rewrite Hr in Hreport.
Qed.

Lemma rtc_invariant (I : world -> Prop) sweep report s s' :
  preserves I sweep -> (forall e, preserves I (report e)) ->
  rtc (step sweep report) s s' -> I s.2 -> I s'.2.
Proof.
  intros Hsweep Hreport Hs. induction Hs as [|s1 s2 s3 Hstep _ IH]; [done|].
  intros Hw. by eapply IH, step_invariant.
Qed.

(** The program that has ended, as a run of the machine. *)
Lemma program_steps n sweep report w :
  (rounds n sweep w).1 <> Ok tt ->
  rtc (step sweep report) (Polling, w)
    (Ended (polling_program sweep report n w).1, (polling_program sweep report n w).2).
Proof.
  intros Hend. pose proof (rounds_steps n sweep report w) as Hs.
  unfold polling_program, io_try_except.
  destruct (rounds n sweep w) as [[[]|e|] w1]; [done| |done].
  eapply rtc_r; [exact Hs|]. apply step_report. by destruct (report e w1).
Qed.

(** A run of the machine that has ended, as the program. *)
Lemma steps_program sweep report s o w' :
  rtc (step sweep report) s (Ended o, w') ->
  forall w, s = (Polling, w) ->
  exists n, (rounds n sweep w).1 <> Ok tt /\ polling_program sweep report n w = (o, w').
Proof.
  remember (Ended o, w') as s' eqn:Hs'. intros Hs.
  induction Hs as [|s1 s2 s3 Hstep Hrest IH]; intros w ->; [by subst|]. subst s3.
  inversion Hstep as [w0 w1 Hsw|w0 e w1 Hsw|w0 w1 Hsw|]; subst.
  - destruct (IH eq_refl w1 eq_refl) as (n & Hend & Hprog). exists (S n).
    unfold polling_program, io_try_except in *. by rewrite rounds_S, Hsw.
  - apply rtc_reporting in Hrest. exists 1%nat.
    unfold polling_program, io_try_except. rewrite rounds_S, Hsw. cbn. by rewrite Hrest.
  - apply rtc_ended in Hrest. simplify_eq. exists 1%nat.
    unfold polling_program, io_try_except. by rewrite rounds_S, Hsw.
Qed.

(** C12. An exception in a round ends the program with one message to
    the first phone, which holds the text of the script followed by the
    text of the exception; the program then ends normally when the gateway
    answers (whatever the status), and with the exception of the network
    when it does not, however long the program is observed. *)
Theorem program_reports sweep whatsapp phone_1 key prefix n m w e w1 :
  _phones_api_keys whatsapp !! phone_1 = Some key -> key <> EmptyString ->
  rounds n sweep w = (Raise e, w1) -> (n <= m)%nat ->
  let rq := notify_request whatsapp phone_1 (prefix +:+ str_of_exn e) key in
  polling_program sweep (report_error whatsapp phone_1 prefix) m w =
  (match net_answer (trace w1) rq with
   | Answered _ => Ok tt
   | Failed d => Raise (NetworkFailure d)
   end, log_request rq w1).
Proof.
  intros Hk Hne Hr Hle rq. unfold polling_program, io_try_except.
  rewrite (rounds_stable n m) by (done || by rewrite Hr). rewrite Hr.
  by apply report_error_sent.
Qed.

(** C13. An exit in a round ends the program at once and without a
    report, however long the program is observed: [except Exception] does
    not catch the exit of the process, and nothing is sent after the round
    that exits. *)
Theorem program_exit_silent sweep report n m w w1 :
  rounds n sweep w = (Exit, w1) -> (n <= m)%nat ->
  polling_program sweep report m w = (Exit, w1).
Proof.
  intros Hr Hle. unfold polling_program, io_try_except.
  rewrite (rounds_stable n m) by (done || by rewrite Hr). by rewrite Hr.
Qed.

(** C6. The machine and the program agree: the program observed for
    some number of rounds in which its loop ends has the outcome [o] and
    leaves the world [w'] exactly when the machine started in the loop can
    reach the end with [o] and [w']. *)
Theorem program_machine sweep report w o w' :
  (exists n, (rounds n sweep w).1 <> Ok tt /\
             polling_program sweep report n w = (o, w')) <->
  rtc (step sweep report) (Polling, w) (Ended o, w').
Proof.
  split.
  - intros (n & Hend & Hprog). pose proof (program_steps n sweep report w Hend) as Hs.
    by rewrite Hprog in Hs.
  - intros Hs. by eapply steps_program.
Qed.

(** C19. The loop has no exit of its own.  As long as the rounds return
    the machine is in its loop; it ends only after a round that exits, with
    [Exit] and without a report, or after a round that raises, with the
    outcome of the handler. *)
Theorem loop_ends_by_failure sweep report w :
  (forall n w', rounds n sweep w = (Ok tt, w') ->
                nsteps (step sweep report) n (Polling, w) (Polling, w')) /\
  (forall o w', rtc (step sweep report) (Polling, w) (Ended o, w') ->
     exists w1,
       rtc (step sweep report) (Polling, w) (Polling, w1) /\
       ((o = Exit /\ sweep w1 = (Exit, w')) \/
        (exists e w2, sweep w1 = (Raise e, w2) /\ report e w2 = (o, w')))).
Proof.
  split.
  - intros n. revert w. induction n as [|n IH]; intros w w'.
    + intros [= <-]. constructor.
    + rewrite rounds_S. destruct (sweep w) as [[[]|e|] w1] eqn:Hsw; [|done..].
      intros Hr. eapply nsteps_l; [by apply step_round|by apply IH].
  - intros o w' Hs. remember (Polling, w) as s eqn:Hs0.
    remember (Ended o, w') as s' eqn:Hs'. revert w Hs0.
    induction Hs as [|s1 s2 s3 Hstep Hrest IH]; intros w ->; [by subst|]. subst s3.
    inversion Hstep as [w0 w1 Hsw|w0 e w1 Hsw|w0 w1 Hsw|]; subst.
    + destruct (IH eq_refl w1 eq_refl) as (w2 & Hloop & Hend). exists w2.
      split; [|done]. eapply rtc_l; [by apply step_round|done].
    + apply rtc_reporting in Hrest. exists w. split; [done|]. right. eauto.
    + apply rtc_ended in Hrest. simplify_eq. exists w. split; [done|]. by left.
Qed.

End polling_laws.

#[export] Hint Resolve keeps_notify_both keeps_notify_if_found keeps_report_error : py.

(** ** Witnesses *)

(** A loop whose second round raises: one report, with the text of the
    program's own exception. *)
Lemma program_reports_witness :
  let sweep : io unit := fun w =>
    if bool_decide (slept w = 0) then sleep 60 w
    else (Raise (InvalidOfficeName "Ankara"), w) in
  @polling_program sweep
    (@report_error gateway_ok short_messages one_phone "+905550000000" "Failed: ") 5
    initial_world =
  (Ok tt,
   World [notify_request one_phone "+905550000000"
            "Failed: Invalid office name: Ankara" "123456"] 0 ∅ 60).
Proof.
  intros sweep.
  assert (rounds 5 sweep initial_world =
          (Raise (InvalidOfficeName "Ankara"), World [] 0 ∅ 60)) as Hr
    by (vm_compute; reflexivity).
  rewrite (@program_reports gateway_ok short_messages sweep one_phone "+905550000000"
             "123456" "Failed: " 5 5 initial_world _ _ eq_refl ltac:(done) Hr
             ltac:(lia)).
  vm_compute. reflexivity.
Defined.

Lemma program_exit_silent_witness :
  @polling_program io_exit
    (@report_error gateway_ok short_messages one_phone "+905550000000" "Failed: ") 3
    initial_world = (Exit, initial_world).
Proof. apply (program_exit_silent _ _ 1 3); [reflexivity|lia]. Defined.

(** The machine on the same loop: a round, the round that raises, the
    report. *)
Example run_example :
  let sweep : io unit := fun w =>
    if bool_decide (slept w = 0) then sleep 60 w
    else (Raise (InvalidOfficeName "Ankara"), w) in
  (run sweep (@report_error gateway_ok short_messages one_phone "+905550000000"
                "Failed: ") 3 (Polling, initial_world)).1 = Ended (Ok tt).
Proof. vm_compute. reflexivity. Qed.
