(* ===== verification/DateSearcher.v ===== *)
(** * DateSearcher: the entry point [src/available_date_searcher.py]

    - [PHONE_NUMBER_1], [PHONE_NUMBER_2], [whatsapp], [appointments]: the
      constants and the two objects the script sets up;
    - [check_office]: the body of the [for] loop, a date query and the
      two notifications when it finds dates;
    - [sweep]: the body of [while True], the loop over the two offices
      and [sleep(60)];
    - [report]: the handler of [except Exception];
    - [main n]: the script observed for [n] rounds. *)

From stdpp Require Import base tactics list strings gmap relations.
From Stdlib Require Import ZArith Lia.
From S2P Require Import Prelude PyString Calendar DateFormat Html Utils Http Hoare.
From S2P Require Import Notifier Requester Finder Polling.

Local Open Scope Z_scope.
Local Open Scope py_scope.

Definition PHONE_NUMBER_1 : string := "+90xxxxx".
Definition PHONE_NUMBER_2 : string := "+90xxxxx".

Definition whatsapp : notifier :=
  add_phone_api_key (add_phone_api_key notifier_init PHONE_NUMBER_1 "API_KEY")
    PHONE_NUMBER_2 "API_KEY".

Definition appointments : finder :=
  add_office (add_office finder_init "Altunizade" 8) "Gayrettepe" 1.

Definition offices : list string := ["Altunizade"; "Gayrettepe"].

(** [f"{office} There is a free slot, be fast! {free_dates}"] *)
Definition found_message (office : string) (free_dates : list string) : string :=
  office +:+ " There is a free slot, be fast! " +:+ repr_list free_dates.

(** The requests the script is meant to send: the form page, the date
    query of one of its two offices, a message to one of its phones. *)
Definition allowed (rq : request) : Prop :=
  rq = form_request ∅ \/
  (exists exit_id r, exit_id ∈ [8; 1] /\ rq = getdate_request appointments exit_id r) \/
  (exists phone message,
     phone ∈ [PHONE_NUMBER_1; PHONE_NUMBER_2] /\
     rq = notify_request whatsapp phone message "API_KEY").

Section date_searcher.
Context `{!HtmlParser, !Network, !LibMessages}.

Definition check_office (office : string) : io unit :=
  free_dates <~ find_available_dates appointments office "18-11-2023" ;;
  notify_if_found whatsapp PHONE_NUMBER_1 PHONE_NUMBER_2 free_dates
    (found_message office free_dates).

Definition sweep : io unit :=
  _ <~ io_for offices check_office ;;
  sleep 60.

Definition report (e : exn) : io unit :=
  report_error whatsapp PHONE_NUMBER_1
    "An error occured on iDataAvailableDateSearcher script: " e.

Definition main (n : nat) : io unit := polling_program sweep report n.

End date_searcher.

(** ** The tables of the script *)

Lemma whatsapp_lookup phone key :
  _phones_api_keys whatsapp !! phone = Some key ->
  phone ∈ [PHONE_NUMBER_1; PHONE_NUMBER_2] /\ key = "API_KEY".
Proof.
  unfold whatsapp. cbn. rewrite !lookup_insert_Some, lookup_empty.
  intros [[<- <-]|[_ [[<- <-]|[_ [=]]]]]; set_solver.
Qed.

Lemma whatsapp_registered phone :
  phone ∈ [PHONE_NUMBER_1; PHONE_NUMBER_2] ->
  _phones_api_keys whatsapp !! phone = Some "API_KEY".
Proof.
  rewrite !elem_of_cons, elem_of_nil. intros [->|[->|[]]]; vm_compute; reflexivity.
Qed.

Lemma appointments_lookup office exit_id :
  _exit_ids appointments !! office = Some exit_id ->
  (office = "Altunizade" /\ exit_id = 8) \/ (office = "Gayrettepe" /\ exit_id = 1).
Proof.
  unfold appointments. cbn. rewrite !lookup_insert_Some, lookup_empty.
  intros [[<- <-]|[_ [[<- <-]|[_ [=]]]]]; auto.
Qed.

Lemma appointments_registered office :
  office ∈ offices -> is_Some (_exit_ids appointments !! office).
Proof.
  unfold offices. rewrite !elem_of_cons, elem_of_nil.
  intros [->|[->|[]]]; eexists; vm_compute; reflexivity.
Qed.

Section date_searcher_laws.
Context `{!HtmlParser, !Network, !LibMessages}.

(** ** Invariants of the sweep *)

Lemma preserves_check_office I `{!Frame I} office :
  logs I allowed -> preserves I (check_office office).
Proof.
  intros Hlogs. apply preserves_bind.
  - eapply preserves_find_available_dates; [done..|by left|].
    intros exit_id r Hid. right; left. exists exit_id, r. split; [|done].
    apply appointments_lookup in Hid as [[_ ->]|[_ ->]]; set_solver.
  - intros free_dates. eapply preserves_notify_if_found; [done|].
    intros phone key [Hphone ->]%whatsapp_lookup. right; right. by eexists _, _.
Qed.

Lemma preserves_sweep_body I `{!Frame I} :
  logs I allowed -> preserves I (io_for offices check_office).
Proof. intros Hlogs. apply preserves_for. intros office _. by apply preserves_check_office. Qed.

Lemma sends_only_sweep : sends_only allowed sweep.
Proof.
  intros w0. apply preserves_bind;
    [apply preserves_sweep_body; [apply _|apply sent_since_logs]|].
  intros []. exact (sends_only_sleep allowed 60 w0).
Qed.

Lemma sends_only_report e : sends_only allowed (report e).
Proof.
  intros w0. eapply preserves_report_error; [apply sent_since_logs|].
  intros key [Hphone ->]%whatsapp_lookup. right; right. by eexists _, _.
Qed.

Lemma balanced_check_office office : balanced (check_office office).
Proof.
  apply balanced_bind; [apply balanced_find_available_dates|].
  intros free_dates. apply balanced_keeps, keeps_notify_if_found.
Qed.

Lemma balanced_sweep : balanced sweep.
Proof.
  apply balanced_bind; [|intros []; apply balanced_sleep].
  apply balanced_for. intros office _. apply balanced_check_office.
Qed.

(** A round that returns has slept 60 seconds; one that does not has not
    slept. *)
Lemma sweep_sleeps t :
  triple (fun w => slept w = t) sweep
    (loop_post (fun w => slept w = t + 60) (fun _ w => slept w = t)).
Proof.
  eapply triple_bind; [apply (preserves_sweep_body (fun w => slept w = t))| |done..].
  - apply slept_logs.
  - intros [] w Hw. by destruct (sleep_slept 60 t w Hw) as [-> ?].
Qed.

Lemma report_run e w :
  let rq := notify_request whatsapp PHONE_NUMBER_1
              ("An error occured on iDataAvailableDateSearcher script: " +:+ str_of_exn e)
              "API_KEY" in
  report e w =
  (match net_answer (trace w) rq with
   | Answered _ => Ok tt
   | Failed d => Raise (NetworkFailure d)
   end, log_request rq w).
Proof. by apply report_error_sent. Qed.

(** An exit of a query is an exit of the constructor of its requester:
    the form page is the last request sent. *)
Lemma find_available_dates_exit_last f office search_before :
  triple (fun _ => True) (find_available_dates f office search_before)
    (fun o w => o = Exit -> last (trace w) = Some (form_request ∅)).
Proof.
  intros w _. unfold find_available_dates.
  destruct (_ !! office) as [exit_id|]; [|done].
  rewrite with_requester_run. pose proof (requester_init_world w) as Hw1.
  destruct (requester_init w) as [[r|e|] w1]; cbn [fst snd] in *; [|done|].
  - unfold post_getdate. rewrite post_text_then.
    destruct (net_answer _ _); [|done]. cbn. by intros ?%dates_of_response_not_exit.
  - intros _. subst w1. cbn. by rewrite last_snoc.
Qed.

Lemma check_office_exit_last office :
  triple (fun _ => True) (check_office office)
    (loop_post (fun _ => True)
       (fun o w => o = Exit -> last (trace w) = Some (form_request ∅))).
Proof.
  eapply triple_bind;
    [apply find_available_dates_exit_last| |intros e w _; by cbn|intros w Hx _; by apply Hx].
  intros free_dates w _. unfold notify_if_found. case_bool_decide; [done|].
  pose proof (notify_both_not_exit whatsapp PHONE_NUMBER_1 PHONE_NUMBER_2 "API_KEY"
    "API_KEY" (found_message office free_dates) w) as Hne.
  destruct (notify_both _ _ _ _ w).1; [done..|].
  by destruct Hne.
Qed.

Lemma sweep_exit_last :
  triple (fun _ => True) sweep
    (fun o w => o = Exit -> last (trace w) = Some (form_request ∅)).
Proof.
  eapply triple_bind.
  - apply (triple_for offices check_office (fun _ => True)
             (fun o w => o = Exit -> last (trace w) = Some (form_request ∅))).
    intros office _. apply check_office_exit_last.
  - by intros [] w _.
  - by intros e w _.
  - done.
Qed.

Lemma found_message_url office l :
  notify_url "https://api.callmebot.com/whatsapp.php" "+90xxxxx"
    (found_message office l) "API_KEY" =
  "https://api.callmebot.com/whatsapp.php?phone=+90xxxxx&text=" +:+ office +:+
  " There is a free slot, be fast! " +:+ repr_list l +:+ "&apikey=API_KEY".
Proof. unfold notify_url, found_message. by rewrite !append_assoc. Qed.

(** C5. One office of a sweep.  When the date query returns dates and
    the gateway answers, exactly two messages are sent after the query,
    to the first phone and then to the second, both with the office name
    and the printed list of the dates; when the query returns no date,
    nothing is sent.  The address of both requests is the gateway with
    the phone, the office name followed by [ There is a free slot, be
    fast! ] and the printed list, and the key. *)
Theorem check_office_notifies office w l w1 :
  find_available_dates appointments office "18-11-2023" w = (Ok l, w1) ->
  let rq1 := notify_request whatsapp PHONE_NUMBER_1 (found_message office l) "API_KEY" in
  let rq2 := notify_request whatsapp PHONE_NUMBER_2 (found_message office l) "API_KEY" in
  (l = [] -> check_office office w = (Ok tt, w1)) /\
  (l <> [] ->
   forall a1 a2,
     net_answer (trace w1) rq1 = Answered a1 ->
     net_answer (trace w1 ++ [rq1]) rq2 = Answered a2 ->
     check_office office w = (Ok tt, log_request rq2 (log_request rq1 w1))) /\
  req_url rq1 =
    "https://api.callmebot.com/whatsapp.php?phone=+90xxxxx&text=" +:+ office +:+
    " There is a free slot, be fast! " +:+ repr_list l +:+ "&apikey=API_KEY" /\
  req_url rq2 = req_url rq1.
Proof.
  intros Hfind rq1 rq2. unfold check_office, io_bind. rewrite Hfind.
  unfold notify_if_found. split_and!.
  - intros ->. by rewrite bool_decide_eq_true_2.
  - intros Hl a1 a2 Hnet1 Hnet2. rewrite bool_decide_eq_false_2 by done.
    by eapply notify_both_answered.
  - apply found_message_url.
  - done.
Qed.

(** C15. While the script is in its loop, after [n] rounds the clock
    shows [60 * n] seconds more, the sessions that are open are those that
    were open at the start, and every request sent is one the script is
    meant to send: the form page, the date query of Altunizade (8) or
    Gayrettepe (1), or a message to one of the two phones. *)
Theorem date_searcher_rounds n w w' :
  wf_world w ->
  nsteps (step sweep report) n (Polling, w) (Polling, w') ->
  slept w' = slept w + 60 * Z.of_nat n /\
  open_sessions w' = open_sessions w /\
  sent_since w allowed w'.
Proof.
  intros Hw Hrounds%nsteps_rounds. split_and!.
  - rewrite (rounds_clock n sweep 60 w w'); [lia| |done].
    intros t. eapply triple_conseq; [apply (sweep_sleeps t)|done|]. by intros [] ?; cbn.
  - pose proof (balanced_rounds n sweep balanced_sweep (open_sessions w) w) as Hb.
    rewrite Hrounds in Hb. by apply Hb.
  - pose proof (preserves_rounds (sent_since w allowed) n sweep (sends_only_sweep w) w)
      as Hs. rewrite Hrounds in Hs. apply Hs, sent_since_refl.
Qed.

(** An exception in a round ends the script with one message to
    the first phone that holds the text of the exception; the script then
    ends normally if the gateway answers, and with the exception of the
    network if it does not. *)
Theorem main_reports n w e w1 :
  rounds n sweep w = (Raise e, w1) ->
  let rq := notify_request whatsapp PHONE_NUMBER_1
              ("An error occured on iDataAvailableDateSearcher script: " +:+ str_of_exn e)
              "API_KEY" in
  main n w =
  (match net_answer (trace w1) rq with
   | Answered _ => Ok tt
   | Failed d => Raise (NetworkFailure d)
   end, log_request rq w1).
Proof.
  intros Hr rq. unfold main, polling_program, io_try_except. rewrite Hr.
  apply report_run.
Qed.

(** C31. An exit in a round ends the script at once, without a
    report: [except Exception] does not catch it.  The only exit of this
    script is that of the requester's constructor, so the last request
    sent is the form page. *)
Theorem main_exit_silent n w w1 :
  rounds n sweep w = (Exit, w1) ->
  main n w = (Exit, w1) /\ last (trace w1) = Some (form_request ∅).
Proof.
  intros Hr. split; [by unfold main, polling_program, io_try_except; rewrite Hr|].
  assert (triple (fun _ => True) sweep
            (loop_post (fun _ => True)
               (fun o w => o = Exit -> last (trace w) = Some (form_request ∅))))
    as Hsweep.
  { eapply triple_conseq; [apply sweep_exit_last|done|]. by intros [[]| |] ?; cbn. }
  pose proof (triple_rounds n sweep _ _ Hsweep w I) as Ht.
  rewrite Hr in Ht. by apply Ht.
Qed.

End date_searcher_laws.

(** ** Witnesses *)

(** The scenario of the specification, for one office: the answer holds
    10-11-2023 and 20-11-2023, the cutoff is 18-11-2023, and each phone
    gets one message with the date that is left. *)
Example check_office_example :
  req_url <$> trace (@check_office site_parser site_and_gateway "Altunizade"
                       initial_world).2 =
  [URL_APPOINTMENT_FORM; URL_GET_DATE;
   "https://api.callmebot.com/whatsapp.php?phone=+90xxxxx&text=Altunizade There is a free slot, be fast! ['10-11-2023']&apikey=API_KEY";
   "https://api.callmebot.com/whatsapp.php?phone=+90xxxxx&text=Altunizade There is a free slot, be fast! ['10-11-2023']&apikey=API_KEY"].
Proof. vm_compute. reflexivity. Qed.

(** One round on the example site: two queries, four messages, sixty
    seconds. *)
Example sweep_example :
  let w := (@sweep site_parser site_and_gateway initial_world).2 in
  length (trace w) = 8%nat /\ slept w = 60 /\ open_sessions w = ∅.
Proof. vm_compute. done. Qed.

(** A site that is down: the script reports and ends. *)
Example main_example :
  let res := @main site_parser site_down short_messages 3 initial_world in
  res.1 = Ok tt /\
  req_url <$> trace res.2 =
  [URL_APPOINTMENT_FORM;
   "https://api.callmebot.com/whatsapp.php?phone=+90xxxxx&text=An error occured on iDataAvailableDateSearcher script: timed out&apikey=API_KEY"].
Proof. vm_compute. done. Qed.

Lemma check_office_notifies_witness :
  (@check_office site_parser site_and_gateway "Altunizade" initial_world).1 = Ok tt.
Proof.
  pose (w1 := (@find_available_dates site_parser site_and_gateway appointments
                 "Altunizade" "18-11-2023" initial_world).2).
  assert (@find_available_dates site_parser site_and_gateway appointments "Altunizade"
            "18-11-2023" initial_world = (Ok ["10-11-2023"], w1)) as Hfind
    by (vm_compute; reflexivity).
  destruct (@check_office_notifies site_parser site_and_gateway "Altunizade"
              initial_world ["10-11-2023"] w1 Hfind) as (_ & Hsome & _).
  rewrite (Hsome ltac:(done) (Response 200 "Message queued" [])
             (Response 200 "Message queued" []));
    [done|vm_compute; reflexivity..].
Defined.

Lemma date_searcher_rounds_witness :
  slept (@sweep site_parser site_and_gateway initial_world).2 = 0 + 60 * Z.of_nat 1.
Proof.
  assert (@sweep site_parser site_and_gateway initial_world =
          (Ok tt, (@sweep site_parser site_and_gateway initial_world).2)) as Hsweep
    by (vm_compute; reflexivity).
  destruct (@date_searcher_rounds site_parser site_and_gateway short_messages 1
              initial_world _ wf_initial
              (nsteps_once _ _ (step_round _ _ _ _ Hsweep))) as [Hslept _].
  exact Hslept.
Defined.

Lemma main_reports_witness :
  (@main site_parser site_down short_messages 3 initial_world).1 = Ok tt.
Proof.
  pose (w1 := (@rounds 3 (@sweep site_parser site_down) initial_world).2).
  assert (@rounds 3 (@sweep site_parser site_down) initial_world =
          (Raise (NetworkFailure "timed out"), w1)) as Hr by (vm_compute; reflexivity).
  rewrite (@main_reports site_parser site_down short_messages 3 initial_world _ w1 Hr).
  vm_compute. reflexivity.
Defined.

Lemma main_exit_silent_witness :
  (@main site_parser (site_with 503 "") short_messages 2 initial_world).1 = Exit.
Proof.
  pose (w1 := (@rounds 2 (@sweep site_parser (site_with 503 "")) initial_world).2).
  assert (@rounds 2 (@sweep site_parser (site_with 503 "")) initial_world = (Exit, w1))
    as Hr by (vm_compute; reflexivity).
  destruct (@main_exit_silent site_parser (site_with 503 "") short_messages 2
              initial_world w1 Hr) as [-> _].
  reflexivity.
Defined.
