(* ===== verification/SlotSearcher.v ===== *)
(** * SlotSearcher: the entry points
    [src/free_time_slot_searcher_altunizade.py] and
    [src/free_time_slot_searcher_gayrettepe.py]

    The two scripts are one program with different constants.  The
    constants are the record [slot_script]; [altunizade_script] and
    [gayrettepe_script] are those of the two files.
    - [slot_whatsapp], [slot_appointments]: the two objects a script sets
      up;
    - [dates_to_check]: [get_dates_between("today", "17-11-2023")], with
      the current date read from the clock;
    - [check_date]: the body of the [for] loop, a slot query for "free"
      slots and the two notifications when it finds some;
    - [slot_sweep]: the body of [while True], with [sleep(30)];
    - [slot_report], [slot_main n]: the handler and the script observed
      for [n] rounds. *)

From stdpp Require Import base tactics list strings gmap relations.
From Stdlib Require Import ZArith Lia.
From S2P Require Import Prelude PyString Calendar DateFormat Html Utils Http Hoare.
From S2P Require Import Notifier Requester Finder Polling.

Local Open Scope Z_scope.
Local Open Scope py_scope.

Record slot_script := SlotScript {
  script_office : string;
  script_office_id : Z;
  script_phone_1 : string;
  script_phone_2 : string;
  script_found : string;
  script_error : string
}.

Definition altunizade_script : slot_script :=
  SlotScript "Altunizade" 8 "+90xxxxx" "+90xxxxx"
    "Free time slots in Altunizade, be quick! "
    "An error occured on Altunizade script: ".

Definition gayrettepe_script : slot_script :=
  SlotScript "Gayrettepe" 1 "+90xxxxxx" "+90xxxxxx"
    "There are some free slots in Gayrettepe, be quick: "
    "An error occured on Gayrettepe script: ".

(** The last day both scripts look at. *)
Definition last_day : date := Date 2023 11 17.

Definition slot_whatsapp (c : slot_script) : notifier :=
  add_phone_api_key (add_phone_api_key notifier_init (script_phone_1 c) "API_KEY")
    (script_phone_2 c) "API_KEY".

Definition slot_appointments (c : slot_script) : finder :=
  add_office finder_init (script_office c) (script_office_id c).

(** [f"... {free_time_slots}"] *)
Definition slot_message (c : slot_script) (free_time_slots : list string) : string :=
  script_found c +:+ repr_list free_time_slots.

(** The requests a script is meant to send: the form page, the slot
    query of its office for a day from today to the last day, a message to
    one of its phones. *)
Definition slot_allowed (c : slot_script) (rq : request) : Prop :=
  rq = form_request ∅ \/
  (exists x r, valid_date x /\ toordinal x <= toordinal last_day /\
     rq = senddate_request (slot_appointments c) (script_office_id c) (strftime x) r) \/
  (exists phone message,
     phone ∈ [script_phone_1 c; script_phone_2 c] /\
     rq = notify_request (slot_whatsapp c) phone message "API_KEY").

(** The days from [today] to the last day, printed: what
    [get_dates_between("today", "17-11-2023")] returns. *)
Definition days_left (today : date) : list string :=
  (fun i => strftime (day_from today i)) <$>
    seqZ 0 (toordinal last_day - toordinal today + 1).

(** The [fulldate] field of a form. *)
Definition fulldate_of (data : list (string * string)) : option string :=
  snd <$> List.find (fun p => bool_decide (p.1 = "fulldate")) data.

(** The dates of the slot queries among the requests [l], in the order
    they were sent. *)
Definition queried (l : list request) : list string :=
  base.omap (fun rq => if bool_decide (req_url rq = URL_SEND_DATE)
                  then fulldate_of (req_data rq) else None) l.

(** A clock that stands still, for running the scripts on examples. *)
Definition fixed_clock (today : date) : Clock := fun _ => today.

Section slot_searcher.
Context `{!HtmlParser, !Network, !LibMessages, !Clock}.
Context (c : slot_script).

Definition dates_to_check : io (list string) := fun w =>
  (get_dates_between (today_of w) "today" "17-11-2023", w).

Definition check_date (date_check : string) : io unit :=
  free_time_slots <~ check_for_specific_date (slot_appointments c) (script_office c)
                       date_check "free" ;;
  notify_if_found (slot_whatsapp c) (script_phone_1 c) (script_phone_2 c)
    free_time_slots (slot_message c free_time_slots).

Definition slot_sweep : io unit :=
  dates <~ dates_to_check ;;
  _ <~ io_for dates check_date ;;
  sleep 30.

Definition slot_report (e : exn) : io unit :=
  report_error (slot_whatsapp c) (script_phone_1 c) (script_error c) e.

Definition slot_main (n : nat) : io unit := polling_program slot_sweep slot_report n.

End slot_searcher.

(** The two scripts. *)
Definition altunizade_main `{!HtmlParser, !Network, !LibMessages, !Clock} (n : nat)
    : io unit :=
  slot_main altunizade_script n.

Definition gayrettepe_main `{!HtmlParser, !Network, !LibMessages, !Clock} (n : nat)
    : io unit :=
  slot_main gayrettepe_script n.

(** ** The tables of a script *)

Lemma slot_whatsapp_lookup c phone key :
  _phones_api_keys (slot_whatsapp c) !! phone = Some key ->
  phone ∈ [script_phone_1 c; script_phone_2 c] /\ key = "API_KEY".
Proof.
  unfold slot_whatsapp. cbn. rewrite !lookup_insert_Some, lookup_empty.
  intros [[<- <-]|[_ [[<- <-]|[_ [=]]]]]; set_solver.
Qed.

Lemma slot_whatsapp_registered c :
  _phones_api_keys (slot_whatsapp c) !! script_phone_1 c = Some "API_KEY" /\
  _phones_api_keys (slot_whatsapp c) !! script_phone_2 c = Some "API_KEY".
Proof.
  unfold slot_whatsapp. cbn. split; [|apply lookup_insert_eq].
  destruct (decide (script_phone_2 c = script_phone_1 c)) as [->|Hne];
    [apply lookup_insert_eq|].
  rewrite lookup_insert_ne by done. apply lookup_insert_eq.
Qed.

Lemma slot_appointments_lookup c office exit_id :
  _exit_ids (slot_appointments c) !! office = Some exit_id ->
  office = script_office c /\ exit_id = script_office_id c.
Proof.
  unfold slot_appointments. cbn. rewrite lookup_insert_Some, lookup_empty.
  by intros [[<- <-]|[_ [=]]].
Qed.

Lemma slot_appointments_registered c :
  _exit_ids (slot_appointments c) !! script_office c = Some (script_office_id c).
Proof. apply lookup_insert_eq. Qed.

(** ** The dates of a sweep *)

(** The days from [today] to the last day, printed. *)
Lemma dates_today today :
  valid_date today ->
  get_dates_between today "today" "17-11-2023" = Ok (days_left today).
Proof.
  intros Htoday.
  apply (get_dates_between_ok today "today" "17-11-2023" today last_day Htoday);
    [apply start_of_today|vm_compute; reflexivity].
Qed.


Lemma days_left_elem today s :
  valid_date today -> s ∈ days_left today ->
  exists x, s = strftime x /\ valid_date x /\
            toordinal today <= toordinal x <= toordinal last_day.
Proof.
  intros Htoday (i & -> & Hi%elem_of_seqZ)%list_elem_of_fmap.
  pose proof (toordinal_range today Htoday) as Hr.
  assert (toordinal last_day = 738841) as Hlast by (vm_compute; reflexivity).
  assert (1 <= toordinal today + i <= MAXORDINAL) as Hin
    by (unfold MAXORDINAL in *; lia).
  exists (day_from today i). split; [done|]. split; [by apply day_from_valid|].
  rewrite toordinal_day_from by done. lia.
Qed.

(** After the last day there is nothing to check. *)
Lemma days_left_late today :
  toordinal last_day < toordinal today -> days_left today = [].
Proof. intros Hlate. unfold days_left. by rewrite seqZ_nil by lia. Qed.

Lemma days_left_length today :
  length (days_left today) = Z.to_nat (toordinal last_day - toordinal today + 1).
Proof. unfold days_left. by rewrite length_fmap, length_seqZ. Qed.

(** ** The requests of a sweep *)

Lemma queried_app l1 l2 : queried (l1 ++ l2) = queried l1 ++ queried l2.
Proof. apply omap_app. Qed.

Lemma queried_cons rq l : queried (rq :: l) = queried [rq] ++ queried l.
Proof. apply (queried_app [rq] l). Qed.

Lemma queried_form : queried [form_request ∅] = [].
Proof. reflexivity. Qed.

Lemma queried_senddate f exit_id date_to_check r :
  queried [senddate_request f exit_id date_to_check r] = [date_to_check].
Proof. reflexivity. Qed.

Lemma queried_notify n phone message key :
  _api_url n = "https://api.callmebot.com/whatsapp.php" ->
  queried [notify_request n phone message key] = [].
Proof.
  intros Hurl. unfold queried, notify_request, notify_url. cbn. rewrite Hurl.
  rewrite bool_decide_eq_false_2; [done|].
  intros Heq. vm_compute in Heq. discriminate.
Qed.

Section slot_searcher_laws.
Context `{!HtmlParser, !Network, !LibMessages, !Clock}.
Context (c : slot_script).
Context (clock_valid : forall w, valid_date (today_of w)).

(** The sweep, with the dates it checks. *)
Lemma slot_sweep_run w :
  slot_sweep c w =
  io_bind (io_for (days_left (today_of w)) (check_date c)) (fun _ => sleep 30) w.
Proof using clock_valid.
  unfold slot_sweep, io_bind at 1, dates_to_check. by rewrite dates_today.
Qed.

(** ** Invariants of the sweep *)

Lemma preserves_check_date I `{!Frame I} x :
  valid_date x -> toordinal x <= toordinal last_day ->
  logs I (slot_allowed c) -> preserves I (check_date c (strftime x)).
Proof.
  intros Hx Hlast Hlogs. apply preserves_bind.
  - eapply preserves_check_for_specific_date; [done..|by left|].
    intros exit_id r [_ ->]%slot_appointments_lookup. right; left. by exists x, r.
  - intros free_time_slots. eapply preserves_notify_if_found; [done|].
    intros phone key [Hphone ->]%slot_whatsapp_lookup. right; right. by eexists _, _.
Qed.

Lemma preserves_slot_checks I `{!Frame I} today :
  valid_date today -> logs I (slot_allowed c) ->
  preserves I (io_for (days_left today) (check_date c)).
Proof.
  intros Htoday Hlogs. apply preserves_for.
  intros s (x & -> & Hx & _ & Hlast)%days_left_elem; [|done].
  by apply preserves_check_date.
Qed.

Lemma sends_only_slot_sweep : sends_only (slot_allowed c) (slot_sweep c).
Proof using clock_valid.
  intros w0 w Hw. rewrite slot_sweep_run. revert Hw.
  apply preserves_bind;
    [apply preserves_slot_checks; [apply _|done|apply sent_since_logs]|].
  intros []. exact (sends_only_sleep (slot_allowed c) 30 w0).
Qed.

Lemma sends_only_slot_report e : sends_only (slot_allowed c) (slot_report c e).
Proof.
  intros w0. eapply preserves_report_error; [apply sent_since_logs|].
  intros key [Hphone ->]%slot_whatsapp_lookup. right; right. by eexists _, _.
Qed.

Lemma balanced_check_date s : balanced (check_date c s).
Proof.
  apply balanced_bind; [apply balanced_check_for_specific_date|].
  intros free_time_slots. apply balanced_keeps, keeps_notify_if_found.
Qed.

Lemma balanced_slot_sweep : balanced (slot_sweep c).
Proof.
  apply balanced_bind.
  { intros S w [Hw HS]. unfold dates_to_check. cbn.
    by destruct (get_dates_between _ _ _). }
  intros dates.
  apply balanced_bind; [|intros []; apply balanced_sleep].
  apply balanced_for. intros s _. apply balanced_check_date.
Qed.

Lemma slot_sweep_sleeps t :
  triple (fun w => slept w = t) (slot_sweep c)
    (loop_post (fun w => slept w = t + 30) (fun _ w => slept w = t)).
Proof using clock_valid.
  intros w Hw. rewrite slot_sweep_run. revert Hw.
  apply (triple_bind (io_for (days_left (today_of w)) (check_date c))
           (fun _ => sleep 30) (fun w => slept w = t) (fun _ w => slept w = t));
    [| |intros e w1 Hw1; exact Hw1|intros w1 Hw1; exact Hw1].
  - apply (preserves_slot_checks (fun w => slept w = t)); [done|apply slept_logs].
  - intros [] w1 Hw1. by destruct (sleep_slept 30 t w1 Hw1) as [-> ?].
Qed.

(** ** The days a sweep checks *)

Lemma slot_whatsapp_url : _api_url (slot_whatsapp c) = "https://api.callmebot.com/whatsapp.php".
Proof. reflexivity. Qed.

Lemma notify_if_found_queried found message w w' :
  notify_if_found (slot_whatsapp c) (script_phone_1 c) (script_phone_2 c) found message w
    = (Ok tt, w') ->
  exists l, trace w' = trace w ++ l /\ queried l = [].
Proof.
  unfold notify_if_found. case_bool_decide.
  { intros [= <-]. exists []. by rewrite app_nil_r. }
  rewrite notify_both_run.
  destruct (slot_whatsapp_registered c) as [Hk1 Hk2].
  destruct (send_message_sent _ _ message _ w Hk1 ltac:(done)) as [_ Hw1].
  destruct (send_message _ (script_phone_1 c) _ w) as [[b|e|] w1]; [|done..].
  destruct (send_message_sent _ _ message _ w1 Hk2 ltac:(done)) as [_ Hw2].
  destruct (send_message _ (script_phone_2 c) _ w1) as [[b'|e|] w2]; [|done..].
  intros [= <-]. cbn [snd] in Hw1, Hw2. subst w1 w2. eexists [_; _].
  split; [cbn; by rewrite <- app_assoc|].
  by rewrite queried_cons, !queried_notify by apply slot_whatsapp_url.
Qed.

(** A check that returned has sent the slot query of its date, and of no
    other. *)
Lemma check_date_queried s w w' :
  check_date c s w = (Ok tt, w') ->
  exists l, trace w' = trace w ++ l /\ queried l = [s].
Proof.
  unfold check_date, io_bind.
  destruct (check_for_specific_date _ _ s "free" w) as [[hours|e|] w1] eqn:Hq; [|done..].
  apply check_for_specific_date_ok_inv in Hq as (exit_id & r & a & _ & _ & _ & Hw1).
  intros (l & Hl & Hnone)%notify_if_found_queried.
  exists ([form_request ∅; senddate_request (slot_appointments c) exit_id s r] ++ l).
  rewrite Hl, Hw1, <- app_assoc. split; [done|].
  by rewrite queried_app, Hnone, app_nil_r.
Qed.

Lemma io_for_queried dates w w' :
  io_for dates (check_date c) w = (Ok tt, w') ->
  exists l, trace w' = trace w ++ l /\ queried l = dates.
Proof.
  revert w; induction dates as [|s dates IH]; intros w.
  - intros [= <-]. exists []. by rewrite app_nil_r.
  - intros (w1 & (l1 & Hl1 & Hq1)%check_date_queried & (l2 & Hl2 & Hq2)%IH)%io_for_ok_inv.
    exists (l1 ++ l2). rewrite Hl2, Hl1, <- app_assoc. split; [done|].
    by rewrite queried_app, Hq1, Hq2.
Qed.

(** C14. A round that returns has sent one slot query for every day
    from today to 17-11-2023, in ascending order, and for no other day,
    and has slept 30 seconds after the last of them. *)
Theorem slot_sweep_checks_every_day w w' :
  slot_sweep c w = (Ok tt, w') ->
  exists l, trace w' = trace w ++ l /\
            queried l = days_left (today_of w) /\
            slept w' = slept w + 30.
Proof using clock_valid.
  rewrite slot_sweep_run. unfold io_bind.
  pose proof (preserves_slot_checks (fun w0 => slept w0 = slept w) (today_of w)
    (clock_valid w) (slept_logs _ _) w eq_refl) as Hs.
  destruct (io_for _ _ w) as [[[]|e|] w1] eqn:Hfor; [|done..].
  apply io_for_queried in Hfor as (l & Hl & Hq).
  intros [= <-]. exists l. cbn in *. split_and!; [done..|lia].
Qed.

(** C23. After 17-11-2023 a round sends nothing: it only sleeps its 30
    seconds. *)
Theorem slot_sweep_idle w :
  toordinal last_day < toordinal (today_of w) ->
  slot_sweep c w = sleep 30 w.
Proof using clock_valid.
  intros Hlate. by rewrite slot_sweep_run, days_left_late.
Qed.

(** C22. While a slot script is in its loop, after [n] rounds the clock
    shows [30 * n] seconds more, the sessions that are open are those that
    were open at the start, and every request sent is one the script is
    meant to send: the form page, the slot query of its office for a day
    that is not after 17-11-2023, or a message to one of its phones. *)
Theorem slot_searcher_rounds n w w' :
  wf_world w ->
  nsteps (step (slot_sweep c) (slot_report c)) n (Polling, w) (Polling, w') ->
  slept w' = slept w + 30 * Z.of_nat n /\
  open_sessions w' = open_sessions w /\
  sent_since w (slot_allowed c) w'.
Proof using clock_valid.
  intros Hw Hrounds%nsteps_rounds. split_and!.
  - rewrite (rounds_clock n (slot_sweep c) 30 w w'); [lia| |done].
    intros t. eapply triple_conseq; [apply (slot_sweep_sleeps t)|done|].
    by intros [] ?; cbn.
  - pose proof (balanced_rounds n _ balanced_slot_sweep (open_sessions w) w) as Hb.
    rewrite Hrounds in Hb. by apply Hb.
  - pose proof (preserves_rounds (sent_since w (slot_allowed c)) n _
      (sends_only_slot_sweep w) w) as Hs.
    rewrite Hrounds in Hs. apply Hs, sent_since_refl.
Qed.

End slot_searcher_laws.


(** ** Witnesses *)

Lemma fixed_clock_valid today : valid_date today -> forall w, valid_date (@today_of (fixed_clock today) w).
Proof. by intros Hv w. Qed.

(** On 16-11-2023 a round of the Altunizade script checks two days; the
    site of the example has free slots on each, so four messages go
    out. *)
Example slot_sweep_example :
  let w := (@slot_sweep site_parser site_and_gateway (fixed_clock (Date 2023 11 16))
              altunizade_script initial_world).2 in
  queried (trace w) = ["16-11-2023"; "17-11-2023"] /\
  length (trace w) = 8%nat /\ slept w = 30 /\ open_sessions w = ∅.
Proof. vm_compute. done. Qed.

Example slot_message_example :
  slot_message gayrettepe_script ["09:00"; "10:00"] =
  "There are some free slots in Gayrettepe, be quick: ['09:00', '10:00']".
Proof. vm_compute. reflexivity. Qed.

Lemma slot_sweep_checks_every_day_witness :
  exists l,
    trace (@slot_sweep site_parser site_and_gateway (fixed_clock (Date 2023 11 16))
             altunizade_script initial_world).2 = [] ++ l /\
    queried l = days_left (Date 2023 11 16).
Proof.
  assert (valid_date (Date 2023 11 16)) as Hv by (vm_compute; reflexivity).
  assert (@slot_sweep site_parser site_and_gateway (fixed_clock (Date 2023 11 16))
            altunizade_script initial_world =
          (Ok tt, (@slot_sweep site_parser site_and_gateway
                     (fixed_clock (Date 2023 11 16)) altunizade_script
                     initial_world).2)) as Hrun by (vm_compute; reflexivity).
  destruct (@slot_sweep_checks_every_day site_parser site_and_gateway
              (fixed_clock (Date 2023 11 16)) altunizade_script
              (fixed_clock_valid _ Hv) initial_world _ Hrun) as (l & Hl & Hq & _).
  exists l. split; [exact Hl|exact Hq].
Defined.

Lemma slot_sweep_idle_witness :
  @slot_sweep site_parser site_and_gateway (fixed_clock (Date 2023 11 18))
    gayrettepe_script initial_world = (Ok tt, World [] 0 ∅ 30).
Proof.
  assert (valid_date (Date 2023 11 18)) as Hv by (vm_compute; reflexivity).
  rewrite (@slot_sweep_idle site_parser site_and_gateway (fixed_clock (Date 2023 11 18))
             gayrettepe_script (fixed_clock_valid _ Hv) initial_world);
    [reflexivity|vm_compute; reflexivity].
Defined.

Lemma slot_searcher_rounds_witness :
  slept (@slot_sweep site_parser site_and_gateway (fixed_clock (Date 2023 11 16))
           altunizade_script initial_world).2 = 0 + 30 * Z.of_nat 1.
Proof.
  assert (valid_date (Date 2023 11 16)) as Hv by (vm_compute; reflexivity).
  assert (@slot_sweep site_parser site_and_gateway (fixed_clock (Date 2023 11 16))
            altunizade_script initial_world =
          (Ok tt, (@slot_sweep site_parser site_and_gateway
                     (fixed_clock (Date 2023 11 16)) altunizade_script
                     initial_world).2)) as Hrun by (vm_compute; reflexivity).
  destruct (@slot_searcher_rounds site_parser site_and_gateway short_messages
              (fixed_clock (Date 2023 11 16)) altunizade_script
              (fixed_clock_valid _ Hv) 1 initial_world _ wf_initial
              (nsteps_once _ _ (step_round _ _ _ _ Hrun))) as [Hslept _].
  exact Hslept.
Defined.
